(** * generators/base.py: shared colour, fill, stroke and typography parsing

    A shallow embedding of [generators/base.py] and of the constant checks of
    [tests/test_generators.py].

    Python values read from a Figma node are dynamically typed, so the
    embedding carries a [value] type for what [json.loads] can produce, and
    every operation that Python may reject at run time returns a [result]
    naming the exception that is raised.  Strings are Stdlib strings: the
    embedding covers Python strings whose code points are below 256.  Floats
    are binary64 primitive floats, as in CPython. *)

From Stdlib Require Import ZArith Bool List String Ascii Lia.
From Stdlib Require Import DecimalString HexadecimalString.
From Stdlib Require Import PrimFloat FloatOps SpecFloat FloatAxioms Uint63.
Import ListNotations.

Set Warnings "-inexact-float,-register-all".

Local Open Scope string_scope.
Local Open Scope Z_scope.

(* ------------------------------------------------------------------ *)
(** * Python builtins used by the module *)
(* ------------------------------------------------------------------ *)

Module Py.

(** The exceptions the builtins used here can raise. *)
Inductive exn : Set :=
| TypeError | ValueError | IndexError | KeyError | AttributeError | OverflowError.

Inductive result (A : Type) : Type :=
| Ok (a : A)
| Raise (e : exn).

Arguments Ok {A} a.
Arguments Raise {A} e.

Definition bind {A B} (c : result A) (k : A -> result B) : result B :=
  match c with
  | Ok a => k a
  | Raise e => Raise e
  end.

Definition is_ok {A} (c : result A) : bool :=
  match c with Ok _ => true | Raise _ => false end.

(** [for x in l: ...] where the body may raise: left to right, stopping at
    the first exception. *)
Fixpoint mapM {A B} (f : A -> result B) (l : list A) : result (list B) :=
  match l with
  | [] => Ok []
  | x :: l' =>
      bind (f x) (fun y => bind (mapM f l') (fun ys => Ok (y :: ys)))
  end.

(** ** Characters *)

Definition code (c : ascii) : Z := Z.of_N (N_of_ascii c).

Definition in_range (lo hi n : Z) : bool := (lo <=? n) && (n <=? hi).

(** [str.isspace] on one character, for code points below 256. *)
Definition isspace (c : ascii) : bool :=
  let n := code c in
  in_range 9 13 n || in_range 28 31 n || (n =? 32) || (n =? 133) || (n =? 160).

(** The blanks [int()] skips around a literal: the C locale's space
    characters, and the two non-ASCII blanks below 256, which [int()] turns
    into a space before it parses. *)
Definition int_space (c : ascii) : bool :=
  let n := code c in
  in_range 9 13 n || (n =? 32) || (n =? 133) || (n =? 160).

(** Value of a digit character in bases up to 36. *)
Definition digit_value (c : ascii) : option Z :=
  let n := code c in
  if in_range 48 57 n then Some (n - 48)
  else if in_range 97 122 n then Some (n - 87)
  else if in_range 65 90 n then Some (n - 55)
  else None.

(** ** String methods *)

Fixpoint lstrip_by (p : ascii -> bool) (s : string) : string :=
  match s with
  | String c s' => if p c then lstrip_by p s' else s
  | EmptyString => EmptyString
  end.

Fixpoint rstrip_by (p : ascii -> bool) (s : string) : string :=
  match s with
  | String c s' =>
      match rstrip_by p s' with
      | EmptyString => if p c then EmptyString else String c EmptyString
      | t => String c t
      end
  | EmptyString => EmptyString
  end.

(** [s.strip()] *)
Definition strip (s : string) : string := rstrip_by isspace (lstrip_by isspace s).

(** [s.lstrip(c)] for a one-character argument. *)
Definition lstrip_char (c : ascii) (s : string) : string :=
  lstrip_by (Ascii.eqb c) s.

(** [s.startswith(p)] *)
Definition startswith (p s : string) : bool := String.prefix p s.

(** [s.replace(old, new)] for a non-empty [old]: occurrences are replaced
    from the left and do not overlap.  [skip] counts the characters of an
    occurrence that are still to be dropped. *)
Fixpoint replace_from (old new : string) (skip : nat) (s : string) : string :=
  match s with
  | EmptyString => EmptyString
  | String c s' =>
      match skip with
      | S k => replace_from old new k s'
      | O =>
          if String.prefix old s
          then new ++ replace_from old new (Nat.pred (String.length old)) s'
          else String c (replace_from old new 0 s')
      end
  end.

Definition replace (old new s : string) : string := replace_from old new 0 s.

(** [s.split(sep)] for a one-character separator. *)
Fixpoint split (sep : ascii) (s : string) : list string :=
  match s with
  | EmptyString => [EmptyString]
  | String c s' =>
      if Ascii.eqb c sep then EmptyString :: split sep s'
      else match split sep s' with
           | [] => [String c EmptyString]
           | w :: ws => String c w :: ws
           end
  end.

(** [s[i:j]] for non-negative constant bounds. *)
Definition slice (i j : nat) (s : string) : string := substring i (j - i) s.

(** [''.join(c * 2 for c in s)] *)
Fixpoint double_chars (s : string) : string :=
  match s with
  | EmptyString => EmptyString
  | String c s' => String c (String c (double_chars s'))
  end.

(** [l[i]] on a list. *)
Definition index {A} (l : list A) (i : nat) : result A :=
  match nth_error l i with
  | Some x => Ok x
  | None => Raise IndexError
  end.

(** ** [int(s, base)] on a string

    The literal is: optional blanks, an optional sign, for base 16 an optional
    [0x] or [0X] (which one underscore may follow), then digits of the base in
    which single underscores may separate digits, then optional blanks.
    Anything else raises [ValueError]. *)

Fixpoint scan_digits (base : Z) (s : string) (acc ndigits : Z) (prev_us : bool)
  : option (Z * Z * string) :=
  match s with
  | EmptyString => if prev_us then None else Some (acc, ndigits, s)
  | String c s' =>
      if Ascii.eqb c "_"
      then if prev_us then None else scan_digits base s' acc ndigits true
      else
        match digit_value c with
        | Some d =>
            if d <? base
            then scan_digits base s' (acc * base + d) (ndigits + 1) false
            else if prev_us then None else Some (acc, ndigits, s)
        | None => if prev_us then None else Some (acc, ndigits, s)
        end
  end.

Fixpoint all_chars (p : ascii -> bool) (s : string) : bool :=
  match s with
  | EmptyString => true
  | String c s' => p c && all_chars p s'
  end.

Definition skip_sign (s : string) : bool * string :=
  match s with
  | String "+" s' => (false, s')
  | String "-" s' => (true, s')
  | _ => (false, s)
  end.

Definition skip_prefix (base : Z) (s : string) : string :=
  match s with
  | String "0" (String x s') =>
      if (base =? 16) && (Ascii.eqb x "x" || Ascii.eqb x "X")
      then match s' with
           | String "_" s'' => s''
           | _ => s'
           end
      else s
  | _ => s
  end.

(** Decimal literals of more than 4300 digits are refused (CPython's default
    [int_max_str_digits]); bases that are powers of two have no limit. *)
Definition max_str_digits : Z := 4300.

Definition binary_base (base : Z) : bool :=
  (base =? 2) || (base =? 4) || (base =? 8) || (base =? 16) || (base =? 32).

Definition int_of_str (base : Z) (s : string) : result Z :=
  let (neg, s1) := skip_sign (lstrip_by int_space s) in
  let s2 := skip_prefix base s1 in
  match s2 with
  | String "_" _ => Raise ValueError
  | _ =>
      match scan_digits base s2 0 0 false with
      | None => Raise ValueError
      | Some (v, nd, rest) =>
          if nd =? 0 then Raise ValueError
          else if negb (binary_base base) && (max_str_digits <? nd)
               then Raise ValueError
          else if all_chars int_space rest
               then Ok (if neg then - v else v)
          else Raise ValueError
      end
  end.

(** ** Formatting integers *)

(** The decimal numeral of [n]. *)
Definition str_of_int (n : Z) : string :=
  DecimalString.NilZero.string_of_int (Z.to_int n).

(** [str(n)], which is also [format(n, '')]: a numeral of more than 4300
    digits is refused, as it is by [int()]. *)
Definition format_int (n : Z) : result string :=
  if 10 ^ max_str_digits <=? Z.abs n then Raise ValueError
  else Ok (str_of_int n).

(** [format(n, 'x')] *)
Definition hex_of_nat (n : Z) : string :=
  HexadecimalString.NilZero.string_of_uint (N.to_hex_uint (Z.to_N n)).

(** [format(n, '02x')]: lower-case hexadecimal, zero-padded after the sign to
    a total width of two. *)
Definition format_02x (n : Z) : string :=
  if n <? 0 then "-" ++ hex_of_nat (- n)
  else if n <? 16 then "0" ++ hex_of_nat n
  else hex_of_nat n.

(** ** Floats *)

(** [float(n)] for an integer: the nearest binary64 value, ties to even;
    [OverflowError] when the integer is too large for a float. *)
Definition float_of_nat (n : Z) : float :=
  if n <? 2 ^ 53 then of_uint63 (Uint63.of_Z n)
  else
    let sh := Z.log2 n - 52 in
    let q := Z.shiftr n sh in
    let r := n - Z.shiftl q sh in
    let half := 2 ^ (sh - 1) in
    let q' := if (half <? r) || ((r =? half) && Z.odd q) then q + 1 else q in
    Z.ldexp (of_uint63 (Uint63.of_Z q')) sh.

Definition float_of_int (n : Z) : result float :=
  let f := float_of_nat (Z.abs n) in
  if is_infinity f then Raise OverflowError
  else Ok (if n <? 0 then (- f)%float else f).

(** [int(f)] for a float: the integer part, towards zero. *)
Definition int_of_float (f : float) : result Z :=
  match Prim2SF f with
  | S754_nan => Raise ValueError
  | S754_infinity _ => Raise OverflowError
  | S754_zero _ => Ok 0
  | S754_finite s m e =>
      let a := if 0 <=? e then Zpos m * 2 ^ e else Zpos m / 2 ^ (- e) in
      Ok (if s then - a else a)
  end.

(** Nearest integer to [num / den], ties to even ([0 <= num], [0 < den]). *)
Definition round_half_even (num den : Z) : Z :=
  let q := num / den in
  let r := num mod den in
  if (den <? 2 * r) || ((2 * r =? den) && Z.odd q) then q + 1 else q.

Definition two_digits (n : Z) : string :=
  if n <? 10 then "0" ++ str_of_int n else str_of_int n.

(** [format(f, '.2f')] on a float: the exact binary value, rounded to the
    nearest hundredth, ties to even. *)
Definition format_2f_float (f : float) : string :=
  match Prim2SF f with
  | S754_nan => "nan"
  | S754_infinity s => if s then "-inf" else "inf"
  | S754_zero s => if s then "-0.00" else "0.00"
  | S754_finite s m e =>
      let h := if 0 <=? e then Zpos m * 2 ^ e * 100
               else round_half_even (Zpos m * 100) (2 ^ (- e)) in
      (if s then "-" else "") ++ str_of_int (h / 100) ++ "." ++ two_digits (h mod 100)
  end.

(** C's [fmod]: the exact remainder of [x / y], with the sign of [x]. *)
Definition fmod (x y : float) : float :=
  match Prim2SF x, Prim2SF y with
  | S754_nan, _ | _, S754_nan => nan
  | S754_infinity _, _ | _, S754_zero _ => nan
  | S754_zero _, _ | _, S754_infinity _ => x
  | S754_finite sx mx ex, S754_finite _ my ey =>
      let e := Z.min ex ey in
      let r := (Zpos mx * 2 ^ (ex - e)) mod (Zpos my * 2 ^ (ey - e)) in
      match r with
      | Zpos p => SF2Prim (S754_finite sx p e)
      | _ => SF2Prim (S754_zero sx)
      end
  end.

(** [x % y] on floats, for [y] other than zero: the remainder takes the sign
    of [y]. *)
Definition float_rem (x y : float) : float :=
  let m := fmod x y in
  if (m =? 0)%float
  then (if (y <? 0)%float then neg_zero else zero)
  else if xorb (y <? 0)%float (m <? 0)%float then (m + y)%float else m.

(** [math.degrees] *)
Definition pi : float := 0x1.921fb54442d18p+1%float.
Definition degrees (x : float) : float := (x * (180 / pi))%float.

(** ** Values read from JSON *)

Inductive value : Type :=
| VNone
| VBool (b : bool)
| VInt (n : Z)
| VFloat (f : float)
| VStr (s : string)
| VList (l : list value)
| VDict (d : list (string * value)).

(** A [dict] with string keys, in insertion order. *)
Definition dict : Type := list (string * value).

Fixpoint lookup (d : dict) (k : string) : option value :=
  match d with
  | [] => None
  | (k', v) :: d' => if String.eqb k' k then Some v else lookup d' k
  end.

(** [d.get(k, default)] *)
Definition get (d : dict) (k : string) (default : value) : value :=
  match lookup d k with
  | Some v => v
  | None => default
  end.

(** [d.get(k)] *)
Definition get_opt (d : dict) (k : string) : value := get d k VNone.

(** [v.get(k, default)] on a value that need not be a dict. *)
Definition vget (v : value) (k : string) (default : value) : result value :=
  match v with
  | VDict d => Ok (get d k default)
  | _ => Raise AttributeError
  end.

(** [bool(v)] *)
Definition truthy (v : value) : bool :=
  match v with
  | VNone => false
  | VBool b => b
  | VInt n => negb (n =? 0)
  | VFloat f => negb (f =? 0)%float
  | VStr s => negb (String.eqb s "")
  | VList l => match l with [] => false | _ => true end
  | VDict d => match d with [] => false | _ => true end
  end.

(** [v < k] and [v > k] for a small non-negative integer constant [k]. *)
Definition lt_const (v : value) (k : Z) : result bool :=
  match v with
  | VBool b => Ok (Z.b2z b <? k)
  | VInt n => Ok (n <? k)
  | VFloat f => Ok (f <? of_uint63 (Uint63.of_Z k))%float
  | _ => Raise TypeError
  end.

Definition gt_const (v : value) (k : Z) : result bool :=
  match v with
  | VBool b => Ok (k <? Z.b2z b)
  | VInt n => Ok (k <? n)
  | VFloat f => Ok (of_uint63 (Uint63.of_Z k) <? f)%float
  | _ => Raise TypeError
  end.

(** [v == k] for a small non-negative integer constant [k]. *)
Definition eq_const (v : value) (k : Z) : bool :=
  match v with
  | VBool b => Z.b2z b =? k
  | VInt n => n =? k
  | VFloat f => (f =? of_uint63 (Uint63.of_Z k))%float
  | _ => false
  end.

(** [v == s] for a string constant [s]. *)
Definition eq_str (v : value) (s : string) : bool :=
  match v with
  | VStr t => String.eqb t s
  | _ => false
  end.

Fixpoint str_contains (needle s : string) : bool :=
  String.prefix needle s ||
  match s with
  | String _ s' => str_contains needle s'
  | EmptyString => false
  end.

(** [needle in v] for a string constant [needle]. *)
Definition contains (needle : string) (v : value) : result bool :=
  match v with
  | VStr s => Ok (str_contains needle s)
  | VList l => Ok (existsb (fun x => eq_str x needle) l)
  | VDict d => Ok (match lookup d needle with Some _ => true | None => false end)
  | _ => Raise TypeError
  end.

(** [v.replace(old, new)] *)
Definition vreplace (v : value) (old new : string) : result string :=
  match v with
  | VStr s => Ok (replace old new s)
  | _ => Raise AttributeError
  end.

Definition chars (s : string) : list value :=
  map (fun c => VStr (String c EmptyString)) (list_ascii_of_string s).

(** [for x in v] *)
Definition iter (v : value) : result (list value) :=
  match v with
  | VList l => Ok l
  | VStr s => Ok (chars s)
  | VDict d => Ok (map (fun kv => VStr (fst kv)) d)
  | _ => Raise TypeError
  end.

(** [len(v)] *)
Definition len (v : value) : result nat :=
  match v with
  | VList l => Ok (List.length l)
  | VStr s => Ok (String.length s)
  | VDict d => Ok (List.length d)
  | _ => Raise TypeError
  end.

(** [v[i]] for a non-negative integer constant [i]; a dict read from JSON has
    no integer key. *)
Definition getitem (v : value) (i : nat) : result value :=
  match v with
  | VList l => index l i
  | VStr s => index (chars s) i
  | VDict _ => Raise KeyError
  | _ => Raise TypeError
  end.

Fixpoint repeat_string (n : nat) (s : string) : string :=
  match n with
  | O => EmptyString
  | S n' => s ++ repeat_string n' s
  end.

(** [v * k] for an integer constant [0 <= k < 2^53]. *)
Definition mul_const (v : value) (k : Z) : result value :=
  match v with
  | VBool b => Ok (VInt (Z.b2z b * k))
  | VInt n => Ok (VInt (n * k))
  | VFloat f => Ok (VFloat (f * of_uint63 (Uint63.of_Z k))%float)
  | VStr s => Ok (VStr (repeat_string (Z.to_nat k) s))
  | VList l => Ok (VList (List.concat (List.repeat l (Z.to_nat k))))
  | VNone | VDict _ => Raise TypeError
  end.

(** [int(v)] *)
Definition int_of (v : value) : result Z :=
  match v with
  | VBool b => Ok (Z.b2z b)
  | VInt n => Ok n
  | VFloat f => int_of_float f
  | VStr s => int_of_str 10 s
  | VNone | VList _ | VDict _ => Raise TypeError
  end.

(** The float a [math] function makes of its argument. *)
Definition as_float (v : value) : result float :=
  match v with
  | VBool b => float_of_int (Z.b2z b)
  | VInt n => float_of_int n
  | VFloat f => Ok f
  | _ => Raise TypeError
  end.

(** [v - w] *)
Definition sub (v w : value) : result value :=
  let as_int x :=
    match x with VBool b => Some (Z.b2z b) | VInt n => Some n | _ => None end in
  match as_int v, as_int w with
  | Some a, Some b => Ok (VInt (a - b))
  | _, _ =>
      match v, w with
      | (VBool _ | VInt _ | VFloat _), (VBool _ | VInt _ | VFloat _) =>
          bind (as_float v) (fun x =>
          bind (as_float w) (fun y => Ok (VFloat (x - y)%float)))
      | _, _ => Raise TypeError
      end
  end.

(** [format(v, '.2f')] for a number. *)
Definition format_2f (v : value) : result string :=
  match v with
  | VStr _ => Raise ValueError
  | VNone | VList _ | VDict _ => Raise TypeError
  | _ => bind (as_float v) (fun f => Ok (format_2f_float f))
  end.

End Py.

Import Py.

Declare Scope py_scope.
Notation "'let*' x ':=' c 'in' k" := (bind c (fun x => k))
  (at level 10, x pattern, c at level 100, k at level 200) : py_scope.
Local Open Scope py_scope.

(* ------------------------------------------------------------------ *)
(** * Constants *)
(* ------------------------------------------------------------------ *)

Definition MAX_CHILDREN_LIMIT : Z := 20.
Definition MAX_NATIVE_CHILDREN_LIMIT : Z := 10.
Definition MAX_DEPTH : Z := 8.

Definition SWIFTUI_WEIGHT_MAP : list (Z * string) :=
  [(100, ".ultraLight"); (200, ".thin"); (300, ".light"); (400, ".regular");
   (500, ".medium"); (600, ".semibold"); (700, ".bold"); (800, ".heavy");
   (900, ".black")].

Definition KOTLIN_WEIGHT_MAP : list (Z * string) :=
  [(100, "FontWeight.Thin"); (200, "FontWeight.ExtraLight"); (300, "FontWeight.Light");
   (400, "FontWeight.Normal"); (500, "FontWeight.Medium"); (600, "FontWeight.SemiBold");
   (700, "FontWeight.Bold"); (800, "FontWeight.ExtraBold"); (900, "FontWeight.Black")].

Definition TAILWIND_WEIGHT_MAP : list (Z * string) :=
  [(100, "font-thin"); (200, "font-extralight"); (300, "font-light");
   (400, "font-normal"); (500, "font-medium"); (600, "font-semibold");
   (700, "font-bold"); (800, "font-extrabold"); (900, "font-black")].

Definition TAILWIND_ALIGN_MAP : list (string * string) :=
  [("LEFT", "text-left"); ("CENTER", "text-center");
   ("RIGHT", "text-right"); ("JUSTIFIED", "text-justify")].

(** [table[k]] on a table with integer keys, absent keys giving [None]. *)
Fixpoint weight_lookup (table : list (Z * string)) (k : Z) : option string :=
  match table with
  | [] => None
  | (k', v) :: rest => if k' =? k then Some v else weight_lookup rest k
  end.

(* ------------------------------------------------------------------ *)
(** * Colour conversion helpers *)
(* ------------------------------------------------------------------ *)

(** [f"#{ri:02x}{gi:02x}{bi:02x}"] *)
Definition hex_string (ri gi bi : Z) : string :=
  "#" ++ format_02x ri ++ format_02x gi ++ format_02x bi.

Definition hex_to_rgb (hex_color : string) : result (Z * Z * Z) :=
  let hex_color := strip hex_color in
  if startswith "rgba" hex_color then
    let parts := split "," (replace ")" "" (replace "rgba(" "" hex_color)) in
    let* p0 := index parts 0 in
    let* r := int_of_str 10 (strip p0) in
    let* p1 := index parts 1 in
    let* g := int_of_str 10 (strip p1) in
    let* p2 := index parts 2 in
    let* b := int_of_str 10 (strip p2) in
    Ok (r, g, b)
  else
    let hex_color := lstrip_char "#" hex_color in
    let hex_color :=
      if (String.length hex_color =? 3)%nat then double_chars hex_color
      else hex_color in
    if (6 <=? String.length hex_color)%nat then
      let* r := int_of_str 16 (slice 0 2 hex_color) in
      let* g := int_of_str 16 (slice 2 4 hex_color) in
      let* b := int_of_str 16 (slice 4 6 hex_color) in
      Ok (r, g, b)
    else Ok (0, 0, 0).


(* ------------------------------------------------------------------ *)
(** * Data structures *)
(* ------------------------------------------------------------------ *)

(** [int(x * 255)]: the 8-bit rendering of a channel, written out three times
    in [ColorValue.hex], [ColorValue.rgb_ints] and [rgba_to_hex]. *)
Definition channel_int (x : value) : result Z :=
  let* m := mul_const x 255 in
  int_of m.

(** [f"rgba({ri}, {gi}, {bi}, {a:.2f})"]: the four fields are formatted from
    left to right. *)
Definition rgba_string (ri gi bi : Z) (a : value) : result string :=
  let* r := format_int ri in
  let* g := format_int gi in
  let* b := format_int bi in
  let* alpha := format_2f a in
  Ok ("rgba(" ++ r ++ ", " ++ g ++ ", " ++ b ++ ", " ++ alpha ++ ")").

Module ColorValue.

Record t : Type := mk { r : value; g : value; b : value; a : value }.

Definition hex (self : t) : result string :=
  let* ri := channel_int (r self) in
  let* gi := channel_int (g self) in
  let* bi := channel_int (b self) in
  let* transparent := lt_const (a self) 1 in
  if transparent : bool then rgba_string ri gi bi (a self)
  else Ok (hex_string ri gi bi).

Definition rgb_ints (self : t) : result (Z * Z * Z) :=
  let* ri := channel_int (r self) in
  let* gi := channel_int (g self) in
  let* bi := channel_int (b self) in
  Ok (ri, gi, bi).

Definition from_figma (color opacity : value) : result t :=
  let* cr := vget color "r" (VInt 0) in
  let* cg := vget color "g" (VInt 0) in
  let* cb := vget color "b" (VInt 0) in
  let* lt := lt_const opacity 1 in
  let* ca := if lt : bool then Ok opacity else vget color "a" (VFloat 1) in
  Ok (mk cr cg cb ca).

End ColorValue.

Module GradientStop.
Record t : Type := mk { color : ColorValue.t; position : value }.
End GradientStop.

Module GradientDef.

Record t : Type := mk {
  type : string;
  stops : list GradientStop.t;
  handle_positions : value;
  opacity : value
}.

Section Angle.
(** [math.atan2] is the platform's C library function; it is taken as a
    parameter. *)
Variable atan2 : float -> float -> float.

Definition angle_degrees (self : t) : result float :=
  let* n := len (handle_positions self) in
  if (n <? 2)%nat then Ok 180%float
  else
    let* start := getitem (handle_positions self) 0 in
    let* end_ := getitem (handle_positions self) 1 in
    let* ex := vget end_ "x" (VInt 1) in
    let* sx := vget start "x" (VInt 0) in
    let* dx := sub ex sx in
    let* ey := vget end_ "y" (VInt 1) in
    let* sy := vget start "y" (VInt 0) in
    let* dy := sub ey sy in
    let* fy := as_float dy in
    let* fx := as_float dx in
    let angle := degrees (atan2 fy fx) in
    Ok (float_rem (90 - angle)%float 360%float).
End Angle.

End GradientDef.

Module FillLayer.
Record t : Type := mk {
  type : value;
  color : option ColorValue.t;
  gradient : option GradientDef.t;
  image_ref : option value;
  scale_mode : value;
  opacity : value;
  visible : value
}.

Definition set_color (l : t) (c : ColorValue.t) : t :=
  mk (type l) (Some c) (gradient l) (image_ref l) (scale_mode l) (opacity l) (visible l).
Definition set_gradient (l : t) (gd : GradientDef.t) : t :=
  mk (type l) (color l) (Some gd) (image_ref l) (scale_mode l) (opacity l) (visible l).
(** [layer.image_ref = ref; layer.scale_mode = mode].  An optional field is
    [None] for Python's [None], so a [ref] that is [None] (an [imageRef] that
    is null) leaves [image_ref] as it was made: unset. *)
Definition set_image (l : t) (ref mode : value) : t :=
  mk (type l) (color l) (gradient l)
     (match ref with VNone => None | _ => Some ref end)
     mode (opacity l) (visible l).
End FillLayer.

Module StrokeInfo.
Record t : Type := mk {
  weight : value;
  colors : list FillLayer.t;
  align : value;
  cap : value;
  join : value;
  dashes : value;
  individual_weights : option dict
}.
End StrokeInfo.

Module CornerRadii.
Record t : Type := mk {
  top_left : value;
  top_right : value;
  bottom_right : value;
  bottom_left : value
}.
End CornerRadii.

Module ShadowEffect.
Record t : Type := mk {
  type : value;
  color : ColorValue.t;
  offset_x : value;
  offset_y : value;
  radius : value;
  spread : value
}.
End ShadowEffect.

Module BlurEffect.
Record t : Type := mk { type : value; radius : value }.
End BlurEffect.

Module LayoutInfo.
Record t : Type := mk {
  mode : value;
  gap : value;
  padding_top : value;
  padding_right : value;
  padding_bottom : value;
  padding_left : value;
  primary_align : value;
  counter_align : value;
  primary_sizing : value;
  counter_sizing : value;
  wrap : value
}.
End LayoutInfo.

Module TextStyle.
Record t : Type := mk {
  font_family : value;
  font_size : value;
  font_weight : value;
  line_height : value;
  letter_spacing : value;
  text_align : value;
  text_case : value;
  text_decoration : value;
  color : option ColorValue.t;
  gradient : option GradientDef.t;
  max_lines : value;
  truncation : value
}.
End TextStyle.

Module StyleBundle.
Record t : Type := mk {
  fills : list FillLayer.t;
  stroke : option StrokeInfo.t;
  corners : option CornerRadii.t;
  shadows : list ShadowEffect.t;
  blurs : list BlurEffect.t;
  opacity : value;
  blend_mode : value;
  rotation : value;
  layout : option LayoutInfo.t;
  width : value;
  height : value;
  clips_content : value
}.
End StyleBundle.

(* ------------------------------------------------------------------ *)
(** * Colour conversion helpers, continued *)
(* ------------------------------------------------------------------ *)

Definition rgba_to_hex (color : dict) : result string :=
  let* r := channel_int (get color "r" (VInt 0)) in
  let* g := channel_int (get color "g" (VInt 0)) in
  let* b := channel_int (get color "b" (VInt 0)) in
  let a := get color "a" (VInt 1) in
  let* transparent := lt_const a 1 in
  if transparent : bool then rgba_string r g b a
  else Ok (hex_string r g b).

(* ------------------------------------------------------------------ *)
(** * Figma node -> dataclass parsers *)
(* ------------------------------------------------------------------ *)

(** A [for] loop that appends at most one item per iteration, or moves on
    with [continue]. *)
Fixpoint collect {A B} (body : A -> result (option B)) (l : list A)
  : result (list B) :=
  match l with
  | [] => Ok []
  | x :: l' =>
      let* o := body x in
      let* rest := collect body l' in
      Ok (match o with Some y => y :: rest | None => rest end)
  end.

(** The body of the loop over [gradientStops], the same in [parse_fills],
    [parse_stroke] and [parse_text_style]. *)
Definition gradient_stop (s : value) : result GradientStop.t :=
  let* c := vget s "color" (VDict []) in
  let* cr := vget c "r" (VInt 0) in
  let* cg := vget c "g" (VInt 0) in
  let* cb := vget c "b" (VInt 0) in
  let* ca := vget c "a" (VInt 1) in
  let* pos := vget s "position" (VInt 0) in
  Ok (GradientStop.mk (ColorValue.mk cr cg cb ca) pos).

(** The gradient branch of the three parsers: the stops loop, then the
    [GradientDef] with the [GRADIENT_] prefix taken off the type. *)
Definition gradient_def (fill : dict) (fill_type : value) : result GradientDef.t :=
  let* entries := iter (get fill "gradientStops" (VList [])) in
  let* stops := mapM gradient_stop entries in
  let* gradient_type := vreplace fill_type "GRADIENT_" "" in
  Ok (GradientDef.mk gradient_type stops
        (get fill "gradientHandlePositions" (VList []))
        (get fill "opacity" (VFloat 1))).

(** One iteration of the loop of [parse_fills]. *)
Definition fill_layer (fill : value) : result (option FillLayer.t) :=
  match fill with
  | VDict fill =>
      let visible := get fill "visible" (VBool true) in
      if negb (truthy visible) then Ok None
      else
        let fill_type := get fill "type" (VStr "") in
        let layer := FillLayer.mk fill_type None None None (VStr "FILL")
                       (get fill "opacity" (VFloat 1)) visible in
        if eq_str fill_type "SOLID" then
          let color_data := get fill "color" (VDict []) in
          let* c := ColorValue.from_figma color_data (get fill "opacity" (VFloat 1)) in
          Ok (Some (FillLayer.set_color layer c))
        else
          let* is_gradient := contains "GRADIENT" fill_type in
          if is_gradient : bool then
            let* gd := gradient_def fill fill_type in
            Ok (Some (FillLayer.set_gradient layer gd))
          else if eq_str fill_type "IMAGE" then
            Ok (Some (FillLayer.set_image layer (get fill "imageRef" (VStr ""))
                        (get fill "scaleMode" (VStr "FILL"))))
          else Ok (Some layer)
  | _ => Raise AttributeError
  end.

Definition parse_fills (node : dict) : result (list FillLayer.t) :=
  let* fills := iter (get node "fills" (VList [])) in
  collect fill_layer fills.

(** One iteration of the loop of [parse_stroke]. *)
Definition stroke_layer (s : value) : result (option FillLayer.t) :=
  match s with
  | VDict s =>
      if negb (truthy (get s "visible" (VBool true))) then Ok None
      else
        let s_type := get s "type" (VStr "") in
        let layer := FillLayer.mk s_type None None None (VStr "FILL")
                       (get s "opacity" (VFloat 1)) (VBool true) in
        if eq_str s_type "SOLID" then
          let* c := ColorValue.from_figma (get s "color" (VDict []))
                      (get s "opacity" (VFloat 1)) in
          Ok (Some (FillLayer.set_color layer c))
        else
          let* is_gradient := contains "GRADIENT" s_type in
          if is_gradient : bool then
            let* gd := gradient_def s s_type in
            Ok (Some (FillLayer.set_gradient layer gd))
          else Ok (Some layer)
  | _ => Raise AttributeError
  end.

Definition individual_weights_of (iw : value) : result (option dict) :=
  if truthy iw then
    let* wt := vget iw "top" (VInt 0) in
    let* wr := vget iw "right" (VInt 0) in
    let* wb := vget iw "bottom" (VInt 0) in
    let* wl := vget iw "left" (VInt 0) in
    Ok (Some [("top", wt); ("right", wr); ("bottom", wb); ("left", wl)])
  else Ok None.

Definition parse_stroke (node : dict) : result (option StrokeInfo.t) :=
  let strokes := get node "strokes" (VList []) in
  let weight := get node "strokeWeight" (VInt 0) in
  if negb (truthy strokes) || eq_const weight 0 then Ok None
  else
    let* entries := iter strokes in
    let* colors := collect stroke_layer entries in
    match colors with
    | [] => Ok None
    | _ =>
        let dashes := get node "strokeDashes" (VList []) in
        let* individual := individual_weights_of (get_opt node "individualStrokeWeights") in
        Ok (Some (StrokeInfo.mk weight colors
                    (get node "strokeAlign" (VStr "INSIDE"))
                    (get node "strokeCap" (VStr "NONE"))
                    (get node "strokeJoin" (VStr "MITER"))
                    dashes individual))
    end.

Definition parse_corners (node : dict) : result (option CornerRadii.t) :=
  let radii := get_opt node "rectangleCornerRadii" in
  let* four :=
    if truthy radii then (let* n := len radii in Ok (n =? 4)%nat) else Ok false in
  if four : bool then
    let* r0 := getitem radii 0 in
    let* r1 := getitem radii 1 in
    let* r2 := getitem radii 2 in
    let* r3 := getitem radii 3 in
    Ok (Some (CornerRadii.mk r0 r1 r2 r3))
  else
    let cr := get node "cornerRadius" (VInt 0) in
    let* positive := gt_const cr 0 in
    if positive : bool then Ok (Some (CornerRadii.mk cr cr cr cr))
    else Ok None.

(** What one iteration of the loop of [parse_effects] appends. *)
Inductive effect : Type :=
| NoEffect
| Shadow (s : ShadowEffect.t)
| Blur (b : BlurEffect.t).

Definition effect_entry (e : value) : result effect :=
  match e with
  | VDict e =>
      if negb (truthy (get e "visible" (VBool true))) then Ok NoEffect
      else
        let e_type := get e "type" (VStr "") in
        if eq_str e_type "DROP_SHADOW" || eq_str e_type "INNER_SHADOW" then
          let color := get e "color" (VDict []) in
          let offset := get e "offset" (VDict [("x", VInt 0); ("y", VInt 0)]) in
          let* cr := vget color "r" (VInt 0) in
          let* cg := vget color "g" (VInt 0) in
          let* cb := vget color "b" (VInt 0) in
          let* ca := vget color "a" (VFloat 0.25) in
          let* ox := vget offset "x" (VInt 0) in
          let* oy := vget offset "y" (VInt 0) in
          Ok (Shadow (ShadowEffect.mk e_type (ColorValue.mk cr cg cb ca) ox oy
                        (get e "radius" (VInt 0)) (get e "spread" (VInt 0))))
        else if eq_str e_type "LAYER_BLUR" || eq_str e_type "BACKGROUND_BLUR" then
          Ok (Blur (BlurEffect.mk e_type (get e "radius" (VInt 0))))
        else Ok NoEffect
  | _ => Raise AttributeError
  end.

Fixpoint effects_loop (effects : list value)
  : result (list ShadowEffect.t * list BlurEffect.t) :=
  match effects with
  | [] => Ok ([], [])
  | e :: rest =>
      let* o := effect_entry e in
      let* sb := effects_loop rest in
      Ok (match o with
          | NoEffect => sb
          | Shadow s => (s :: fst sb, snd sb)
          | Blur b => (fst sb, b :: snd sb)
          end)
  end.

Definition parse_effects (node : dict)
  : result (list ShadowEffect.t * list BlurEffect.t) :=
  let* effects := iter (get node "effects" (VList [])) in
  effects_loop effects.

(** [d[k]] *)
Definition getkey (d : dict) (k : string) : result value :=
  match lookup d k with
  | Some v => Ok v
  | None => Raise KeyError
  end.

(** The loop of [parse_text_style] over the fills: it leaves at the first
    visible fill that is solid or a gradient. *)
Fixpoint text_fill_scan (fills : list value)
  : result (option ColorValue.t * option GradientDef.t) :=
  match fills with
  | [] => Ok (None, None)
  | fill :: rest =>
      match fill with
      | VDict fill =>
          if negb (truthy (get fill "visible" (VBool true))) then text_fill_scan rest
          else if eq_str (get_opt fill "type") "SOLID" then
            let* c := ColorValue.from_figma (get fill "color" (VDict []))
                        (get fill "opacity" (VFloat 1)) in
            Ok (Some c, None)
          else
            let* is_gradient := contains "GRADIENT" (get fill "type" (VStr "")) in
            if is_gradient : bool then
              let* entries := iter (get fill "gradientStops" (VList [])) in
              let* stops := mapM gradient_stop entries in
              let* ty := getkey fill "type" in
              let* gradient_type := vreplace ty "GRADIENT_" "" in
              Ok (None, Some (GradientDef.mk gradient_type stops
                                (get fill "gradientHandlePositions" (VList []))
                                (get fill "opacity" (VFloat 1))))
            else text_fill_scan rest
      | _ => Raise AttributeError
      end
  end.

Definition parse_text_style (node : dict) : result TextStyle.t :=
  let style := get node "style" (VDict []) in
  let* fills := iter (get node "fills" (VList [])) in
  let* cg := text_fill_scan fills in
  let* font_family := vget style "fontFamily" (VStr "") in
  let* font_size := vget style "fontSize" (VInt 16) in
  let* font_weight := vget style "fontWeight" (VInt 400) in
  let* line_height := vget style "lineHeightPx" VNone in
  let* letter_spacing := vget style "letterSpacing" (VInt 0) in
  let* text_align := vget style "textAlignHorizontal" (VStr "LEFT") in
  let* text_case := vget style "textCase" (VStr "ORIGINAL") in
  let* text_decoration := vget style "textDecoration" (VStr "NONE") in
  let* max_lines := vget style "maxLines" VNone in
  let* truncation := vget style "textTruncation" (VStr "DISABLED") in
  Ok (TextStyle.mk font_family font_size font_weight line_height letter_spacing
        text_align text_case text_decoration (fst cg) (snd cg) max_lines truncation).

Definition parse_layout (node : dict) : option LayoutInfo.t :=
  let mode := get_opt node "layoutMode" in
  if negb (truthy mode) || eq_str mode "NONE" then None
  else
    Some (LayoutInfo.mk mode
            (get node "itemSpacing" (VInt 0))
            (get node "paddingTop" (VInt 0))
            (get node "paddingRight" (VInt 0))
            (get node "paddingBottom" (VInt 0))
            (get node "paddingLeft" (VInt 0))
            (get node "primaryAxisAlignItems" (VStr "MIN"))
            (get node "counterAxisAlignItems" (VStr "MIN"))
            (get node "primaryAxisSizingMode" (VStr "AUTO"))
            (get node "counterAxisSizingMode" (VStr "AUTO"))
            (get node "layoutWrap" (VStr "NO_WRAP"))).

Definition parse_style_bundle (node : dict) : result StyleBundle.t :=
  let bbox := get node "absoluteBoundingBox" (VDict []) in
  let* sb := parse_effects node in
  let* fills := parse_fills node in
  let* stroke := parse_stroke node in
  let* corners := parse_corners node in
  let* width := vget bbox "width" (VInt 0) in
  let* height := vget bbox "height" (VInt 0) in
  Ok (StyleBundle.mk fills stroke corners (fst sb) (snd sb)
        (get node "opacity" (VFloat 1))
        (get node "blendMode" (VStr "PASS_THROUGH"))
        (get node "rotation" (VInt 0))
        (parse_layout node)
        width height
        (get node "clipsContent" (VBool false))).

(* ------------------------------------------------------------------ *)
(** * tests/test_generators.py *)
(* ------------------------------------------------------------------ *)

Module TestChildLimitsConsistency.
(** Each test is the truth value of its [assert]. *)
Definition test_web_child_limit_is_20 : bool := MAX_CHILDREN_LIMIT =? 20.
Definition test_native_child_limit_is_15 : bool := MAX_NATIVE_CHILDREN_LIMIT =? 15.
End TestChildLimitsConsistency.

(* ------------------------------------------------------------------ *)
(** * Vocabulary of the properties *)
(* ------------------------------------------------------------------ *)

(** A hexadecimal digit, in either case. *)
Definition is_hex_digit (c : ascii) : bool :=
  match digit_value c with
  | Some d => d <? 16
  | None => false
  end.

(** The value of a two-digit hexadecimal numeral. *)
Definition pair_value (c1 c2 : ascii) : Z :=
  match digit_value c1, digit_value c2 with
  | Some d1, Some d2 => 16 * d1 + d2
  | _, _ => 0
  end.

(** The 256 characters. *)
Definition all_ascii : list ascii := map ascii_of_nat (seq 0 256).

(** What [hex_to_rgb] does once the leading [#] is gone. *)
Definition hex_portion_rgb (h : string) : result (Z * Z * Z) :=
  let h := if (String.length h =? 3)%nat then double_chars h else h in
  if (6 <=? String.length h)%nat then
    let* r := int_of_str 16 (slice 0 2 h) in
    let* g := int_of_str 16 (slice 2 4 h) in
    let* b := int_of_str 16 (slice 4 6 h) in
    Ok (r, g, b)
  else Ok (0, 0, 0).

(** The part of the input after blanks and leading [#] are taken off. *)
Definition hex_portion (s : string) : string := lstrip_char "#" (strip s).

(** The characters [hex_to_rgb] hands to [int(_, 16)] are hexadecimal
    digits: all three of a three-character portion, the first six of a
    portion of six or more. *)
Definition reads_hex_digits (h : string) : bool :=
  if (String.length h =? 3)%nat then all_chars is_hex_digit h
  else if (6 <=? String.length h)%nat then all_chars is_hex_digit (slice 0 6 h)
  else true.

(** A decimal digit. *)
Definition is_decimal_digit (c : ascii) : bool := in_range 48 57 (code c).

(** The value of a decimal digit. *)
Definition decimal_value (c : ascii) : Z := code c - 48.

(** A hexadecimal digit as [format(_, 'x')] writes it: in lower case. *)
Definition is_lower_hex_digit (c : ascii) : bool :=
  in_range 48 57 (code c) || in_range 97 102 (code c).

(** An integer whose decimal numeral has at most 4300 digits. *)
Definition short_numeral (n : Z) : bool := Z.abs n <? 10 ^ 4300.

(** The comma-separated fields [hex_to_rgb] makes of an [rgba] text. *)
Definition rgba_fields (s : string) : list string :=
  split "," (replace ")" "" (replace "rgba(" "" (strip s))).

(** The texts [hex_to_rgb] hands to [int], in the order of the calls, each
    with its base: the first three fields of an [rgba] text, stripped; the
    three pairs of a hex portion of three characters (doubled) or of six or
    more; none for any other input. *)
Definition int_texts (s : string) : list (Z * string) :=
  if startswith "rgba" (strip s)
  then map (fun f => (10, strip f)) (firstn 3 (rgba_fields s))
  else
    let h := hex_portion s in
    let h := if (String.length h =? 3)%nat then double_chars h else h in
    if (6 <=? String.length h)%nat
    then [(16, slice 0 2 h); (16, slice 2 4 h); (16, slice 4 6 h)]
    else [].

(** Whether [int] accepts a text in a base. *)
Definition int_literal (bt : Z * string) : bool :=
  is_ok (int_of_str (fst bt) (snd bt)).

(** An [rgba] text that has fewer than three fields. *)
Definition short_rgba (s : string) : bool :=
  startswith "rgba" (strip s) && (List.length (rgba_fields s) <? 3)%nat.

(** [v >= k] holds, for a small non-negative integer constant [k]. *)
Definition at_least (v : value) (k : Z) : bool :=
  match v with
  | VBool b => k <=? Z.b2z b
  | VInt n => k <=? n
  | VFloat f => (of_uint63 (Uint63.of_Z k) <=? f)%float
  | _ => false
  end.

(** Sample records. *)
Definition translucent_blue : dict :=
  [("r", VInt 0); ("g", VInt 0); ("b", VInt 1); ("a", VFloat 0.5)].

(** The magnitude of the finite float [m * 2^e], as a fraction. *)
Definition magnitude_num (m : positive) (e : Z) : Z :=
  if 0 <=? e then Zpos m * 2 ^ e else Zpos m.
Definition magnitude_den (e : Z) : Z :=
  if 0 <=? e then 1 else 2 ^ (- e).

(** [a2] is the float [f] written with two decimals: the number of
    hundredths [h] nearest to its magnitude (the even one of two that are as
    near), as integer part, point and two digits, after the sign. *)
Definition to_two_decimals (f : float) (a2 : string) : Prop :=
  match Prim2SF f with
  | S754_nan => a2 = "nan"
  | S754_infinity s => a2 = if s then "-inf" else "inf"
  | S754_zero s => a2 = if s then "-0.00" else "0.00"
  | S754_finite s m e =>
      exists (h : Z) (d1 d2 : ascii),
        0 <= h
        /\ 2 * Z.abs (h * magnitude_den e - 100 * magnitude_num m e)
           <= magnitude_den e
        /\ (2 * Z.abs (h * magnitude_den e - 100 * magnitude_num m e)
            = magnitude_den e -> Z.even h = true)
        /\ is_decimal_digit d1 = true /\ is_decimal_digit d2 = true
        /\ h mod 100 = 10 * decimal_value d1 + decimal_value d2
        /\ a2 = (if s then "-" else EmptyString) ++ str_of_int (h / 100) ++ "."
                ++ String d1 (String d2 EmptyString)
  end.

(** Sample records with an alpha below 1. *)
Definition eighth_alpha : dict := [("r", VFloat 0.5); ("a", VFloat 0.125)].
Definition three_eighths_alpha : dict := [("g", VInt 1); ("a", VFloat 0.375)].
Definition negative_alpha : dict := [("b", VBool true); ("a", VInt (-3))].

(** A colour whose channels are just below 1. *)
Definition almost_white : ColorValue.t :=
  ColorValue.mk (VFloat 0.999) (VFloat 0.999) (VFloat 0.999) (VFloat 1).

(** The handles [(0, 0)] and [(1, 1)]. *)
Definition diagonal_handles : value :=
  VList [VDict [("x", VInt 0); ("y", VInt 0)];
         VDict [("x", VInt 1); ("y", VInt 1)]].

(** The double nearest to pi/4, which [atan2(1, 1)] returns. *)
Definition quarter_pi : float := 0x1.921fb54442d18p-1%float.

(** The handles [(0, 0)] and [(-1, 1)], and the double nearest to 3 pi/4,
    which [atan2(1, -1)] returns. *)
Definition back_diagonal_handles : value :=
  VList [VDict [("x", VInt 0); ("y", VInt 0)];
         VDict [("x", VInt (-1)); ("y", VInt 1)]].
Definition three_quarter_pi : float := 0x1.2d97c7f3321d2p+1%float.

(** The handles [(0.5, 0)] and [(0.5, 1)], and the double nearest to pi/2,
    which [atan2(1, 0)] returns. *)
Definition downward_handles : value :=
  VList [VDict [("x", VFloat 0.5); ("y", VFloat 0)];
         VDict [("x", VFloat 0.5); ("y", VFloat 1)]].
Definition half_pi : float := 0x1.921fb54442d18p+0%float.

(** Two handles without coordinates. *)
Definition bare_handles : value := VList [VDict []; VDict []].

(** The mantissa of 360 as a float: [360 = m360 * 2^-44]. *)
Definition m360 : positive := 6333186975989760.

(** A stroke entry the loop passes over: a record whose [visible] is false
    (or any other false value). *)
Definition hidden (e : value) : bool :=
  match e with
  | VDict d => negb (truthy (get d "visible" (VBool true)))
  | _ => false
  end.

(** Sample fills. *)
Definition red : dict := [("r", VInt 1); ("g", VInt 0); ("b", VInt 0)].
Definition solid_red : value := VDict [("type", VStr "SOLID"); ("color", VDict red)].
Definition hidden_red : value :=
  VDict [("type", VStr "SOLID"); ("color", VDict red); ("visible", VBool false)].

(** There is no four-element [rectangleCornerRadii]: the key is absent or
    null, or its list has another length. *)
Definition no_radii_array (v : value) : Prop :=
  v = VNone \/ exists l, v = VList l /\ List.length l <> 4%nat.



Definition two_fills : dict := [("fills", VList [solid_red; hidden_red])].

(** A fill the scan moves past: it is not visible, or its type is neither
    [SOLID] nor one that contains [GRADIENT]. *)
Definition passed_over (e : value) : bool :=
  match e with
  | VDict d =>
      negb (truthy (get d "visible" (VBool true)))
      || (negb (eq_str (get_opt d "type") "SOLID")
          && match contains "GRADIENT" (get d "type" (VStr "")) with
             | Ok false => true
             | _ => false
             end)
  | _ => false
  end.

(** A fill the scan stops at: visible, and solid or a gradient. *)
Definition decisive (e : value) : bool :=
  match e with
  | VDict d =>
      truthy (get d "visible" (VBool true))
      && (eq_str (get_opt d "type") "SOLID"
          || match contains "GRADIENT" (get d "type" (VStr "")) with
             | Ok true => true
             | _ => false
             end)
  | _ => false
  end.

Definition image_fill : value := VDict [("type", VStr "IMAGE"); ("imageRef", VStr "img")].
Definition image_then_red : dict := [("fills", VList [image_fill; solid_red])].

Definition gradient_paint : dict :=
  [("type", VStr "GRADIENT_LINEAR");
   ("gradientStops",
    VList [VDict [("color", VDict red); ("position", VFloat 0.25)]]);
   ("gradientHandlePositions", diagonal_handles);
   ("opacity", VFloat 0.5)].
Definition image_then_gradient : dict :=
  [("fills", VList [hidden_red; image_fill; VDict gradient_paint; solid_red])].
Definition images_only : dict :=
  [("fills", VList [image_fill; hidden_red]);
   ("style", VDict [("fontSize", VInt 12)])].

(** ** Vocabulary of the further properties *)

(** The value of one hexadecimal digit. *)
Definition hex_digit_value (c : ascii) : Z :=
  match digit_value c with
  | Some d => d
  | None => 0
  end.

(** Whether the loops keep an entry: a record whose [visible] is true. *)
Definition entry_visible (e : value) : bool :=
  match e with
  | VDict d => truthy (get d "visible" (VBool true))
  | _ => false
  end.

(** [e.get(k, default)] for an entry that is a record. *)
Definition entry_field (k : string) (default : value) (e : value) : value :=
  match e with
  | VDict d => get d k default
  | _ => default
  end.

(** What the type of a layer says about its payload: a colour for [SOLID],
    a gradient (named by the type without [GRADIENT_]) for a type that
    contains [GRADIENT], an image reference for [IMAGE] only (and none when
    the fill's [imageRef] is null), nothing otherwise. *)
Definition payload_by_type (l : FillLayer.t) : Prop :=
  match FillLayer.color l, FillLayer.gradient l, FillLayer.image_ref l with
  | Some _, None, None =>
      FillLayer.type l = VStr "SOLID" /\ FillLayer.scale_mode l = VStr "FILL"
  | None, Some gd, None =>
      FillLayer.scale_mode l = VStr "FILL"
      /\ exists t, FillLayer.type l = VStr t
           /\ t <> "SOLID" /\ str_contains "GRADIENT" t = true
           /\ GradientDef.type gd = replace "GRADIENT_" "" t
  | None, None, Some ref => FillLayer.type l = VStr "IMAGE" /\ ref <> VNone
  | None, None, None =>
      eq_str (FillLayer.type l) "SOLID" = false
      /\ contains "GRADIENT" (FillLayer.type l) = Ok false
      /\ (eq_str (FillLayer.type l) "IMAGE" = false ->
          FillLayer.scale_mode l = VStr "FILL")
  | _, _, _ => False
  end.

(** The image reference and the scale mode a fill gives its layer: those of
    an [IMAGE] fill, where a reference that is absent counts as the empty
    string and one that is null as unset; no reference, and the mode [FILL],
    for any other fill. *)
Definition entry_image_ref (e : value) : option value :=
  if eq_str (entry_field "type" (VStr EmptyString) e) "IMAGE"
  then match entry_field "imageRef" (VStr EmptyString) e with
       | VNone => None
       | ref => Some ref
       end
  else None.

Definition entry_scale_mode (e : value) : value :=
  if eq_str (entry_field "type" (VStr EmptyString) e) "IMAGE"
  then entry_field "scaleMode" (VStr "FILL") e
  else VStr "FILL".

(** Image fills: with a reference and a mode, with a null reference, and
    with neither. *)
Definition image_fills : dict :=
  [("fills",
    VList [VDict [("type", VStr "IMAGE"); ("imageRef", VStr "img");
                  ("scaleMode", VStr "FIT")];
           VDict [("type", VStr "IMAGE"); ("imageRef", VNone)];
           VDict [("type", VStr "IMAGE")]])].

Definition radial_fill : value :=
  VDict [("type", VStr "GRADIENT_RADIAL");
         ("gradientStops", VList [VDict [("color", VDict red); ("position", VFloat 0.5)]])].

Definition radial_layer : FillLayer.t :=
  FillLayer.mk (VStr "GRADIENT_RADIAL") None
    (Some (GradientDef.mk "RADIAL"
             [GradientStop.mk (ColorValue.mk (VInt 1) (VInt 0) (VInt 0) (VInt 1))
                (VFloat 0.5)]
             (VList []) (VFloat 1)))
    None (VStr "FILL") (VFloat 1) (VBool true).

Definition is_number (v : value) : bool :=
  match v with
  | VBool _ | VInt _ | VFloat _ => true
  | _ => false
  end.

Definition is_record (v : value) : bool :=
  match v with
  | VDict _ => true
  | _ => false
  end.

(** A gradient stop as the Figma API gives it: a record whose [color], when
    present, is a record. *)
Definition well_formed_stop (s : value) : bool :=
  match s with
  | VDict d => is_record (get d "color" (VDict []))
  | _ => false
  end.

(** A fill or stroke paint as the Figma API gives it: a record that is
    hidden, or whose type is a string and, for [SOLID], whose colour is a
    record and opacity a number, and, for a gradient, whose stops are a list
    of well-formed stops. *)
Definition well_formed_paint (e : value) : bool :=
  match e with
  | VDict d =>
      negb (truthy (get d "visible" (VBool true)))
      || match get d "type" (VStr "") with
         | VStr t =>
             if String.eqb t "SOLID"
             then is_record (get d "color" (VDict []))
                  && is_number (get d "opacity" (VFloat 1))
             else if str_contains "GRADIENT" t
                  then match get d "gradientStops" (VList []) with
                       | VList stops => forallb well_formed_stop stops
                       | _ => false
                       end
                  else true
         | _ => false
         end
  | _ => false
  end.

(** A stroke layer made of a fill layer: always visible, and without image
    data. *)
Definition as_stroke_layer (l : FillLayer.t) : FillLayer.t :=
  FillLayer.mk (FillLayer.type l) (FillLayer.color l) (FillLayer.gradient l)
    None (VStr "FILL") (FillLayer.opacity l) (VBool true).

(** A visible entry whose type is a shadow's, and one whose type is a
    blur's. *)
Definition shadow_entry (e : value) : bool :=
  entry_visible e
  && (eq_str (entry_field "type" (VStr "") e) "DROP_SHADOW"
      || eq_str (entry_field "type" (VStr "") e) "INNER_SHADOW").

Definition blur_entry (e : value) : bool :=
  entry_visible e
  && (eq_str (entry_field "type" (VStr "") e) "LAYER_BLUR"
      || eq_str (entry_field "type" (VStr "") e) "BACKGROUND_BLUR").

(** A layer that carries a colour or a gradient. *)
Definition painted (l : FillLayer.t) : bool :=
  match FillLayer.color l, FillLayer.gradient l with
  | None, None => false
  | _, _ => true
  end.

(** The weights on which the font-weight tables are defined. *)
Definition font_weights : list Z := [100; 200; 300; 400; 500; 600; 700; 800; 900].

Definition sample_effects : list value :=
  [VDict [("type", VStr "LAYER_BLUR"); ("radius", VInt 3)];
   VDict [("type", VStr "DROP_SHADOW"); ("radius", VInt 4)];
   VDict [("type", VStr "NOISE")];
   VDict [("type", VStr "INNER_SHADOW"); ("visible", VBool false)]].

Definition card_node : dict :=
  [("cornerRadius", VInt 4); ("layoutMode", VStr "VERTICAL");
   ("absoluteBoundingBox", VDict [("width", VInt 10); ("height", VInt 20)])].

Definition card_bundle : StyleBundle.t :=
  StyleBundle.mk [] None
    (Some (CornerRadii.mk (VInt 4) (VInt 4) (VInt 4) (VInt 4))) [] []
    (VFloat 1) (VStr "PASS_THROUGH") (VInt 0)
    (Some (LayoutInfo.mk (VStr "VERTICAL") (VInt 0) (VInt 0) (VInt 0) (VInt 0) (VInt 0)
             (VStr "MIN") (VStr "MIN") (VStr "AUTO") (VStr "AUTO") (VStr "NO_WRAP")))
    (VInt 10) (VInt 20) (VBool false).

(** The colour and gradient of the first painted layer, if there is one. *)
Definition first_paint (layers : list FillLayer.t)
  : option ColorValue.t * option GradientDef.t :=
  match find painted layers with
  | Some l => (FillLayer.color l, FillLayer.gradient l)
  | None => (None, None)
  end.

(* ------------------------------------------------------------------ *)
(** * Properties *)
(* ------------------------------------------------------------------ *)

(** ** Constants *)

(** C1: the web limit is 20 and its test passes; the native limit is defined
    as 10, so the test that expects 15 fails. *)
Theorem child_limit_constants :
  MAX_CHILDREN_LIMIT = 20 /\
  TestChildLimitsConsistency.test_web_child_limit_is_20 = true /\
  MAX_NATIVE_CHILDREN_LIMIT = 10 /\
  TestChildLimitsConsistency.test_native_child_limit_is_15 = false.
Proof. repeat split. Qed.

(** ** Hexadecimal digits *)

Lemma in_all_ascii (c : ascii) : In c all_ascii.
Proof.
  unfold all_ascii. rewrite <- (ascii_nat_embedding c).
  apply in_map, in_seq. pose proof (nat_ascii_bounded c). lia.
Qed.

(** A property checked on all 256 characters holds of each. *)
Lemma for_all_ascii (p : ascii -> bool) :
  forallb p all_ascii = true -> forall c, p c = true.
Proof.
  intros H c. rewrite forallb_forall in H. apply H, in_all_ascii.
Qed.

Lemma hex_digit_plain (c : ascii) :
  is_hex_digit c = true ->
  isspace c = false /\ Ascii.eqb "#" c = false /\ Ascii.eqb c "_" = false.
Proof.
  revert c.
  assert (H : forall c, (negb (is_hex_digit c)
             || (negb (isspace c) && negb (Ascii.eqb "#" c) && negb (Ascii.eqb c "_")))
             = true).
  { apply for_all_ascii. vm_compute. reflexivity. }
  intros c Hc. specialize (H c). rewrite Hc in H.
  destruct (isspace c), (Ascii.eqb "#" c), (Ascii.eqb c "_");
    try discriminate H; repeat split.
Qed.

Lemma int_of_str_hex_pair (c1 c2 : ascii) :
  is_hex_digit c1 = true -> is_hex_digit c2 = true ->
  int_of_str 16 (String c1 (String c2 EmptyString)) = Ok (pair_value c1 c2)
  /\ 0 <= pair_value c1 c2 <= 255.
Proof.
  pose (chk := fun c1 c2 =>
    negb (is_hex_digit c1 && is_hex_digit c2)
    || match int_of_str 16 (String c1 (String c2 EmptyString)) with
       | Ok v => (v =? pair_value c1 c2) && (0 <=? v) && (v <=? 255)
       | Raise _ => false
       end).
  assert (H : forall a b, chk a b = true).
  { intros a. apply for_all_ascii. revert a. apply for_all_ascii.
    vm_compute. reflexivity. }
  intros H1 H2. specialize (H c1 c2). unfold chk in H.
  rewrite H1, H2 in H. simpl negb in H. simpl orb in H.
  destruct (int_of_str 16 (String c1 (String c2 EmptyString))) as [v|e];
    [|discriminate].
  apply andb_prop in H. destruct H as [H Hle].
  apply andb_prop in H. destruct H as [Heq Hge].
  apply Z.eqb_eq in Heq. subst v. split; [reflexivity|lia].
Qed.

(** [format(n, '02x')] of a byte is two hexadecimal digits that spell it. *)
Lemma format_02x_byte (n : Z) :
  0 <= n <= 255 ->
  exists c1 c2,
    format_02x n = String c1 (String c2 EmptyString)
    /\ is_hex_digit c1 = true /\ is_hex_digit c2 = true
    /\ pair_value c1 c2 = n.
Proof.
  pose (chk := fun k : nat =>
    match format_02x (Z.of_nat k) with
    | String c1 (String c2 EmptyString) =>
        is_hex_digit c1 && is_hex_digit c2 && (pair_value c1 c2 =? Z.of_nat k)
    | _ => false
    end).
  assert (H : forallb chk (seq 0 256) = true) by (vm_compute; reflexivity).
  intros Hn. rewrite forallb_forall in H.
  specialize (H (Z.to_nat n)). rewrite in_seq in H.
  assert (Hk : chk (Z.to_nat n) = true) by (apply H; lia).
  unfold chk in Hk. rewrite Z2Nat.id in Hk by lia.
  destruct (format_02x n) as [|c1 [|c2 [|]]]; try discriminate.
  exists c1, c2.
  apply andb_prop in Hk. destruct Hk as [Hk Hv].
  apply andb_prop in Hk. destruct Hk as [Hc1 Hc2].
  apply Z.eqb_eq in Hv. auto.
Qed.

(** ** [hex_to_rgb] *)

Lemma hex_to_rgb_not_rgba (s : string) :
  startswith "rgba" (strip s) = false ->
  hex_to_rgb s = hex_portion_rgb (hex_portion s).
Proof.
  intros H. unfold hex_to_rgb, hex_portion_rgb, hex_portion. rewrite H. reflexivity.
Qed.

Lemma hex_portion_rgb_six (c0 c1 c2 c3 c4 c5 : ascii) (rest : string) :
  is_hex_digit c0 = true -> is_hex_digit c1 = true -> is_hex_digit c2 = true ->
  is_hex_digit c3 = true -> is_hex_digit c4 = true -> is_hex_digit c5 = true ->
  hex_portion_rgb
    (String c0 (String c1 (String c2 (String c3 (String c4 (String c5 rest))))))
  = Ok (pair_value c0 c1, pair_value c2 c3, pair_value c4 c5).
Proof.
  intros H0 H1 H2 H3 H4 H5. unfold hex_portion_rgb.
  destruct rest as [|x rest'].
  - cbn -[int_of_str].
    rewrite (proj1 (int_of_str_hex_pair c0 c1 H0 H1)).
    rewrite (proj1 (int_of_str_hex_pair c2 c3 H2 H3)).
    rewrite (proj1 (int_of_str_hex_pair c4 c5 H4 H5)). reflexivity.
  - cbn -[int_of_str].
    rewrite (proj1 (int_of_str_hex_pair c0 c1 H0 H1)).
    rewrite (proj1 (int_of_str_hex_pair c2 c3 H2 H3)).
    rewrite (proj1 (int_of_str_hex_pair c4 c5 H4 H5)). reflexivity.
Qed.

Lemma hex_portion_rgb_three (c0 c1 c2 : ascii) :
  is_hex_digit c0 = true -> is_hex_digit c1 = true -> is_hex_digit c2 = true ->
  hex_portion_rgb (String c0 (String c1 (String c2 EmptyString)))
  = Ok (pair_value c0 c0, pair_value c1 c1, pair_value c2 c2).
Proof.
  intros H0 H1 H2. unfold hex_portion_rgb. cbn -[int_of_str].
  rewrite (proj1 (int_of_str_hex_pair c0 c0 H0 H0)).
  rewrite (proj1 (int_of_str_hex_pair c1 c1 H1 H1)).
  rewrite (proj1 (int_of_str_hex_pair c2 c2 H2 H2)). reflexivity.
Qed.

Lemma strip_hash_six (c0 c1 c2 c3 c4 c5 : ascii) :
  is_hex_digit c0 = true -> is_hex_digit c5 = true ->
  let h := String c0 (String c1 (String c2 (String c3 (String c4 (String c5 EmptyString))))) in
  strip (String "#" h) = String "#" h /\ hex_portion (String "#" h) = h.
Proof.
  intros H0 H5 h.
  destruct (hex_digit_plain c5 H5) as [Hsp _].
  destruct (hex_digit_plain c0 H0) as [_ [Hhash _]].
  assert (Hs : strip (String "#" h) = String "#" h).
  { unfold strip, h. cbn. rewrite Hsp. reflexivity. }
  split; [exact Hs|].
  unfold hex_portion. rewrite Hs. unfold lstrip_char, h. cbn -[Ascii.eqb].
  rewrite Hhash. reflexivity.
Qed.

(** C3: reading back the opaque rendering [#rrggbb] of an 8-bit triple gives
    the triple; that rendering is what [ColorValue.hex] returns for a colour
    with these channels and an alpha that is not below 1. *)
Theorem hex_to_rgb_hex_string (r g b : Z) :
  0 <= r <= 255 -> 0 <= g <= 255 -> 0 <= b <= 255 ->
  hex_to_rgb (hex_string r g b) = Ok (r, g, b)
  /\ forall c : ColorValue.t,
       ColorValue.rgb_ints c = Ok (r, g, b) ->
       lt_const (ColorValue.a c) 1 = Ok false ->
       ColorValue.hex c = Ok (hex_string r g b).
Proof.
  intros Hr Hg Hb. split.
  - destruct (format_02x_byte r Hr) as (r1 & r2 & Er & Hr1 & Hr2 & Vr).
    destruct (format_02x_byte g Hg) as (g1 & g2 & Eg & Hg1 & Hg2 & Vg).
    destruct (format_02x_byte b Hb) as (b1 & b2 & Eb & Hb1 & Hb2 & Vb).
    unfold hex_string. rewrite Er, Eg, Eb. cbn [append].
    destruct (strip_hash_six r1 r2 g1 g2 b1 b2 Hr1 Hb2) as [Hs Hp].
    rewrite hex_to_rgb_not_rgba by (rewrite Hs; reflexivity).
    rewrite Hp, hex_portion_rgb_six by assumption.
    rewrite Vr, Vg, Vb. reflexivity.
  - intros c Hints Ha. unfold ColorValue.rgb_ints in Hints. unfold ColorValue.hex.
    destruct (channel_int (ColorValue.r c)) as [ri|]; cbn [bind] in *; [|discriminate].
    destruct (channel_int (ColorValue.g c)) as [gi|]; cbn [bind] in *; [|discriminate].
    destruct (channel_int (ColorValue.b c)) as [bi|]; cbn [bind] in *; [|discriminate].
    inversion Hints; subst. rewrite Ha. reflexivity.
Qed.

Lemma hex_to_rgb_hex_string_witness :
  hex_to_rgb (hex_string 18 171 255) = Ok (18, 171, 255).
Proof. apply (hex_to_rgb_hex_string 18 171 255); lia. Defined.

(** C2, as the code has it: malformed digits are not caught. *)
Lemma hex_to_rgb_raises : hex_to_rgb "#gggggg" = Raise ValueError.
Proof. vm_compute. reflexivity. Qed.

Example hex_to_rgb_short_rgba : hex_to_rgb "rgba(1,2" = Raise IndexError.
Proof. vm_compute. reflexivity. Qed.

Example hex_to_rgb_shorthand : hex_to_rgb "#abc" = Ok (170, 187, 204).
Proof. vm_compute. reflexivity. Qed.

Example hex_to_rgb_rgba : hex_to_rgb "rgba(10, 20, 30, 0.4)" = Ok (10, 20, 30).
Proof. vm_compute. reflexivity. Qed.

(** An input that is not an [rgba] string and whose hex portion is read as
    hexadecimal digits yields a triple of bytes; a portion of neither three
    nor at least six characters yields the zero triple. *)
Lemma hex_to_rgb_hex_bytes (s : string) :
  startswith "rgba" (strip s) = false ->
  reads_hex_digits (hex_portion s) = true ->
  exists r g b,
    hex_to_rgb s = Ok (r, g, b)
    /\ 0 <= r <= 255 /\ 0 <= g <= 255 /\ 0 <= b <= 255
    /\ (String.length (hex_portion s) <> 3%nat ->
        (String.length (hex_portion s) < 6)%nat ->
        (r, g, b) = (0, 0, 0)).
Proof.
  intros Hrgba Hdig. rewrite (hex_to_rgb_not_rgba s Hrgba).
  destruct (hex_portion s) as [|c0 [|c1 [|c2 [|c3 [|c4 [|c5 rest]]]]]].
  1-3, 5-6:
    exists 0, 0, 0; repeat split; try reflexivity; lia.
  - (* three digits *)
    cbn in Hdig.
    apply andb_prop in Hdig. destruct Hdig as [H0 Hdig].
    apply andb_prop in Hdig. destruct Hdig as [H1 Hdig].
    apply andb_prop in Hdig. destruct Hdig as [H2 _].
    exists (pair_value c0 c0), (pair_value c1 c1), (pair_value c2 c2).
    rewrite hex_portion_rgb_three by assumption.
    repeat split; try apply (int_of_str_hex_pair _ _); try assumption.
    intros Hne. exfalso. apply Hne. reflexivity.
  - (* six or more *)
    cbn in Hdig.
    apply andb_prop in Hdig. destruct Hdig as [H0 Hdig].
    apply andb_prop in Hdig. destruct Hdig as [H1 Hdig].
    apply andb_prop in Hdig. destruct Hdig as [H2 Hdig].
    apply andb_prop in Hdig. destruct Hdig as [H3 Hdig].
    apply andb_prop in Hdig. destruct Hdig as [H4 Hdig].
    apply andb_prop in Hdig. destruct Hdig as [H5 _].
    exists (pair_value c0 c1), (pair_value c2 c3), (pair_value c4 c5).
    rewrite hex_portion_rgb_six by assumption.
    repeat split; try apply (int_of_str_hex_pair _ _); try assumption.
    intros _ Hlt. cbn in Hlt. lia.
Qed.

(** ** Channels and colour strings *)

Lemma hex_string_digits (ri gi bi : Z) :
  0 <= ri <= 255 -> 0 <= gi <= 255 -> 0 <= bi <= 255 ->
  exists c0 c1 c2 c3 c4 c5,
    hex_string ri gi bi =
      String "#" (String c0 (String c1 (String c2 (String c3 (String c4
        (String c5 EmptyString))))))
    /\ forallb is_hex_digit [c0; c1; c2; c3; c4; c5] = true
    /\ pair_value c0 c1 = ri /\ pair_value c2 c3 = gi /\ pair_value c4 c5 = bi.
Proof.
  intros Hr Hg Hb.
  destruct (format_02x_byte ri Hr) as (r1 & r2 & Er & Hr1 & Hr2 & Vr).
  destruct (format_02x_byte gi Hg) as (g1 & g2 & Eg & Hg1 & Hg2 & Vg).
  destruct (format_02x_byte bi Hb) as (b1 & b2 & Eb & Hb1 & Hb2 & Vb).
  exists r1, r2, g1, g2, b1, b2.
  unfold hex_string. rewrite Er, Eg, Eb. cbn [append forallb].
  rewrite Hr1, Hr2, Hg1, Hg2, Hb1, Hb2. auto.
Qed.

Lemma SFleb_not_SFltb (x y : spec_float) :
  SFleb x y = true -> SFltb y x = false.
Proof.
  unfold SFleb, SFltb.
  destruct x as [sx|sx| |sx mx ex], y as [sy|sy| |sy my ey];
    cbv beta iota delta [SFcompare];
    try (intros; reflexivity || discriminate);
    try (destruct sx; intros; reflexivity || discriminate);
    try (destruct sy; intros; reflexivity || discriminate);
    try (destruct sx, sy; intros; reflexivity || discriminate).
  change (PosDef.Pos.compare_cont Eq my mx) with (Pos.compare my mx).
  change (PosDef.Pos.compare_cont Eq mx my) with (Pos.compare mx my).
  rewrite (Z.compare_antisym ex ey), (Pos.compare_antisym my mx).
  destruct sx, sy, (ex ?= ey), (my ?= mx)%positive;
    cbv beta iota delta [CompOpp]; intros; reflexivity || discriminate.
Qed.

Lemma at_least_not_below (v : value) (k : Z) :
  at_least v k = true -> lt_const v k = Ok false.
Proof.
  destruct v as [|b|n|f|s|l|d]; cbn [at_least lt_const]; try discriminate.
  - intros H. f_equal. apply Z.ltb_ge, Z.leb_le, H.
  - intros H. f_equal. apply Z.ltb_ge, Z.leb_le, H.
  - intros H. f_equal. rewrite FloatAxioms.leb_spec in H. rewrite FloatAxioms.ltb_spec.
    apply SFleb_not_SFltb, H.
Qed.

Lemma channel_int_default : channel_int (VInt 0) = Ok 0.
Proof. reflexivity. Qed.

Example rgba_to_hex_red :
  rgba_to_hex [("r", VInt 1); ("g", VInt 0); ("b", VInt 0)] = Ok "#ff0000".
Proof. vm_compute. reflexivity. Qed.

Example rgba_to_hex_translucent_blue :
  rgba_to_hex translucent_blue = Ok "rgba(0, 0, 255, 0.50)".
Proof. vm_compute. reflexivity. Qed.

Example rgba_to_hex_empty : rgba_to_hex [] = Ok "#000000".
Proof. vm_compute. reflexivity. Qed.

(** ** Truncation of channels *)

Lemma int_of_float_truncates (f : float) (s : bool) (m : positive) (e : Z) :
  Prim2SF f = S754_finite s m e ->
  exists z,
    int_of_float f = Ok z
    /\ (if s then z <= 0 else 0 <= z)
    /\ Z.abs z * magnitude_den e <= magnitude_num m e
       < (Z.abs z + 1) * magnitude_den e.
Proof.
  intros E. unfold int_of_float, magnitude_num, magnitude_den. rewrite E.
  destruct (0 <=? e) eqn:He.
  - apply Z.leb_le in He.
    assert (Hp : 0 < Z.pos m * 2 ^ e) by (apply Z.mul_pos_pos; [lia | apply Z.pow_pos_nonneg; lia]).
    destruct s; eexists; (split; [reflexivity|]); split; lia.
  - apply Z.leb_gt in He.
    assert (Hd : 0 < 2 ^ (- e)) by (apply Z.pow_pos_nonneg; lia).
    pose proof (Z.div_mod (Z.pos m) (2 ^ (- e)) ltac:(lia)) as Hdm.
    pose proof (Z.mod_pos_bound (Z.pos m) (2 ^ (- e)) Hd) as Hm.
    assert (Hq : 0 <= Z.pos m / 2 ^ (- e)) by (apply Z.div_pos; lia).
    destruct s; eexists; (split; [reflexivity|]); split; lia.
Qed.

(** C10: the three renderings take their 8-bit channels from
    [int(channel * 255)], which cuts the product of a float channel towards
    zero; a channel of 0.999 gives 254 where rounding would give 255. *)
Theorem channel_int_truncates :
  (forall (x : float) (s : bool) (m : positive) (e : Z),
      Prim2SF (x * 255)%float = S754_finite s m e ->
      exists z,
        channel_int (VFloat x) = Ok z
        /\ (if s then z <= 0 else 0 <= z)
        /\ Z.abs z * magnitude_den e <= magnitude_num m e
           < (Z.abs z + 1) * magnitude_den e)
  /\ (forall (c : ColorValue.t) (ri gi bi : Z),
        channel_int (ColorValue.r c) = Ok ri ->
        channel_int (ColorValue.g c) = Ok gi ->
        channel_int (ColorValue.b c) = Ok bi ->
        ColorValue.rgb_ints c = Ok (ri, gi, bi)
        /\ (lt_const (ColorValue.a c) 1 = Ok false ->
            ColorValue.hex c = Ok (hex_string ri gi bi))
        /\ rgba_to_hex [("r", ColorValue.r c); ("g", ColorValue.g c);
                        ("b", ColorValue.b c); ("a", ColorValue.a c)]
           = ColorValue.hex c)
  /\ (Prim2SF (0.999 * 255)%float = S754_finite false 8963042867769508 (-45)
      /\ round_half_even 8963042867769508 (2 ^ 45) = 255
      /\ channel_int (VFloat 0.999) = Ok 254
      /\ ColorValue.rgb_ints almost_white = Ok (254, 254, 254)
      /\ ColorValue.hex almost_white = Ok "#fefefe"
      /\ rgba_to_hex [("r", VFloat 0.999)] = Ok "#fe0000").
Proof.
  split; [|split].
  - intros x s m e E. unfold channel_int. cbn [mul_const bind int_of].
    change (of_uint63 (Uint63.of_Z 255)) with 255%float.
    apply int_of_float_truncates, E.
  - intros c ri gi bi Hr Hg Hb. split; [|split].
    + unfold ColorValue.rgb_ints. rewrite Hr, Hg, Hb. reflexivity.
    + intros Ha. unfold ColorValue.hex. rewrite Hr, Hg, Hb. cbn [bind].
      rewrite Ha. reflexivity.
    + reflexivity.
  - repeat split; vm_compute; reflexivity.
Qed.

Lemma channel_int_truncates_witness :
  exists z,
    channel_int (VFloat 0.999) = Ok z
    /\ (if false then z <= 0 else 0 <= z)
    /\ Z.abs z * magnitude_den (-45) <= magnitude_num 8963042867769508 (-45)
       < (Z.abs z + 1) * magnitude_den (-45).
Proof.
  apply (proj1 channel_int_truncates 0.999%float false 8963042867769508%positive (-45)).
  vm_compute. reflexivity.
Defined.

(** ** Gradient angle *)

Lemma digits2_pos_bound (m : positive) :
  Zpos m < 2 ^ Zpos (digits2_pos m).
Proof.
  induction m as [m IH|m IH|]; cbn [digits2_pos].
  - rewrite Pos2Z.inj_succ, Z.pow_succ_r by lia. lia.
  - rewrite Pos2Z.inj_succ, Z.pow_succ_r by lia. lia.
  - reflexivity.
Qed.

(** The mantissa of a float has at most 53 bits. *)
Lemma mantissa_bound (x : float) (s : bool) (m : positive) (e : Z) :
  Prim2SF x = S754_finite s m e -> Zpos m < 2 ^ 53.
Proof.
  intros E. pose proof (Prim2SF_valid x) as V. rewrite E in V.
  unfold valid_binary, SpecFloat.valid_binary, bounded in V.
  apply andb_prop in V. destruct V as [V _].
  unfold canonical_mantissa, fexp in V. apply Z.eqb_eq in V.
  pose proof (digits2_pos_bound m) as B.
  assert (Hd : Zpos (digits2_pos m) <= 53) by (unfold prec in V; lia).
  eapply Z.lt_le_trans; [exact B|]. apply Z.pow_le_mono_r; lia.
Qed.

Lemma Prim2SF_360 : Prim2SF 360 = S754_finite false m360 (-44).
Proof. vm_compute. reflexivity. Qed.

(** A float of magnitude below 360 is its own remainder by 360. *)
Lemma fmod_small (x : float) (s : bool) (m : positive) (e : Z) :
  Prim2SF x = S754_finite s m e ->
  (e < -44 \/ (e = -44 /\ Zpos m < Zpos m360)) ->
  fmod x 360 = x.
Proof.
  intros E H. unfold fmod. rewrite E, Prim2SF_360.
  pose proof (mantissa_bound x s m e E) as B.
  assert (He : Z.min e (-44) = e) by lia. rewrite He.
  replace (e - e) with 0 by lia. rewrite Z.mul_1_r.
  assert (Hlt : Zpos m < Zpos m360 * 2 ^ (-44 - e)).
  { destruct H as [H|[H H']].
    - assert (2 ^ 1 <= 2 ^ (-44 - e)) by (apply Z.pow_le_mono_r; lia).
      unfold m360. change (2 ^ 1) with 2 in *.
      change (2 ^ 53) with 9007199254740992 in B. nia.
    - subst e. change (2 ^ (-44 - -44)) with 1. lia. }
  rewrite Z.mod_small by lia.
  rewrite <- E. apply SF2Prim_Prim2SF.
Qed.

Lemma SFltb_positive (m M : positive) (e E : Z) :
  SFltb (S754_finite false m e) (S754_finite false M E) = true ->
  e < E \/ (e = E /\ Zpos m < Zpos M).
Proof.
  unfold SFltb. cbv beta iota delta [SFcompare].
  change (PosDef.Pos.compare_cont Eq m M) with (Pos.compare m M).
  destruct (Z.compare_spec e E) as [He|He|He]; try discriminate.
  - destruct (Pos.compare_spec m M) as [Hm|Hm|Hm]; try discriminate.
    intros _. right. split; [exact He|]. apply Pos2Z.pos_lt_pos, Hm.
  - intros _. left. exact He.
Qed.

Lemma SFltb_negative (m M : positive) (e E : Z) :
  SFltb (S754_finite true M E) (S754_finite true m e) = true ->
  e < E \/ (e = E /\ Zpos m < Zpos M).
Proof.
  unfold SFltb. cbv beta iota delta [SFcompare].
  change (PosDef.Pos.compare_cont Eq M m) with (Pos.compare M m).
  destruct (Z.compare_spec E e) as [He|He|He]; try discriminate.
  - destruct (Pos.compare_spec M m) as [Hm|Hm|Hm]; try discriminate.
    intros _. right. split; [symmetry; exact He|]. apply Pos2Z.pos_lt_pos, Hm.
  - intros _. left. exact He.
Qed.

(** [x % 360] for [x] within one turn of zero: a positive [x] below 360 is
    left as it is, a negative [x] above -360 has 360 added, and a zero of
    either sign gives [0.0]. *)
Lemma float_rem_360 (x : float) :
  ((0 <? x)%float = true -> (x <? 360)%float = true -> float_rem x 360 = x)
  /\ ((x <? 0)%float = true -> (-360 <? x)%float = true ->
      float_rem x 360 = (x + 360)%float)
  /\ ((x =? 0)%float = true -> float_rem x 360 = 0%float).
Proof.
  split; [|split].
  - intros Hpos Hlt. rewrite FloatAxioms.ltb_spec in Hpos, Hlt.
    rewrite Prim2SF_360 in Hlt.
    change (Prim2SF 0) with (S754_zero false) in Hpos.
    destruct (Prim2SF x) as [s|s| |s m e] eqn:E;
      try (destruct s; discriminate Hpos || discriminate Hlt);
      try discriminate Hpos.
    destruct s; [discriminate Hpos|].
    pose proof (fmod_small x false m e E (SFltb_positive m m360 e (-44) Hlt)) as Hm.
    unfold float_rem. rewrite Hm.
    assert (Hz : (x =? 0)%float = false).
    { rewrite FloatAxioms.eqb_spec, E. reflexivity. }
    assert (Hn : (x <? 0)%float = false).
    { rewrite FloatAxioms.ltb_spec, E. reflexivity. }
    rewrite Hz, Hn. reflexivity.
  - intros Hneg Hgt. rewrite FloatAxioms.ltb_spec in Hgt.
    assert (Hneg' := Hneg). rewrite FloatAxioms.ltb_spec in Hneg'.
    change (Prim2SF (-360)) with (S754_finite true m360 (-44)) in Hgt.
    change (Prim2SF 0) with (S754_zero false) in Hneg'.
    destruct (Prim2SF x) as [s|s| |s m e] eqn:E;
      try (destruct s; discriminate Hneg' || discriminate Hgt);
      try discriminate Hneg'.
    destruct s; [|discriminate Hneg'].
    pose proof (fmod_small x true m e E (SFltb_negative m m360 e (-44) Hgt)) as Hm.
    unfold float_rem. rewrite Hm, Hneg.
    assert (Hz : (x =? 0)%float = false).
    { rewrite FloatAxioms.eqb_spec, E. reflexivity. }
    rewrite Hz. reflexivity.
  - intros Hz. assert (Hz' := Hz). rewrite FloatAxioms.eqb_spec in Hz'.
    change (Prim2SF 0) with (S754_zero false) in Hz'.
    assert (Hm : fmod x 360 = x).
    { unfold fmod. rewrite Prim2SF_360.
      destruct (Prim2SF x) as [s|s| |s m e];
        cbv beta iota delta [SFeqb SFcompare] in Hz'.
      - reflexivity.
      - destruct s; discriminate Hz'.
      - discriminate Hz'.
      - destruct s; discriminate Hz'. }
    unfold float_rem. rewrite Hm, Hz. reflexivity.
Qed.

(** C7: with two or more handle positions the angle is
    [(90 - degrees(atan2(dy, dx))) % 360] of the first two handles, a missing
    coordinate counting as 0 at the start and 1 at the end.  With
    [t = 90 - degrees(atan2(dy, dx))], which lies within one turn of zero for
    every angle [atan2] returns, that is [t] for [0 < t < 360], [t + 360] for
    [-360 < t < 0] and [0.0] for a zero [t].  Handles [(0,0)] and [(1,1)] give
    45.0, handles [(0,0)] and [(-1,1)] give 315.0; with fewer than two
    handle positions the angle is 180.0. *)
Theorem angle_degrees_spec (atan2 : float -> float -> float) (gd : GradientDef.t) :
  (forall (start end_ : dict) (rest : list value) (dx dy : value)
          (fx fy : float),
      GradientDef.handle_positions gd = VList (VDict start :: VDict end_ :: rest) ->
      sub (get end_ "x" (VInt 1)) (get start "x" (VInt 0)) = Ok dx ->
      sub (get end_ "y" (VInt 1)) (get start "y" (VInt 0)) = Ok dy ->
      as_float dx = Ok fx -> as_float dy = Ok fy ->
      let t := (90 - degrees (atan2 fy fx))%float in
      GradientDef.angle_degrees atan2 gd = Ok (float_rem t 360)
      /\ ((0 <? t)%float = true -> (t <? 360)%float = true ->
          GradientDef.angle_degrees atan2 gd = Ok t)
      /\ ((t <? 0)%float = true -> (-360 <? t)%float = true ->
          GradientDef.angle_degrees atan2 gd = Ok (t + 360)%float)
      /\ ((t =? 0)%float = true ->
          GradientDef.angle_degrees atan2 gd = Ok 0%float))
  /\ (atan2 1%float 1%float = quarter_pi ->
      GradientDef.handle_positions gd = diagonal_handles ->
      GradientDef.angle_degrees atan2 gd = Ok 45%float)
  /\ (atan2 1%float (-1)%float = three_quarter_pi ->
      GradientDef.handle_positions gd = back_diagonal_handles ->
      GradientDef.angle_degrees atan2 gd = Ok 315%float)
  /\ (atan2 1%float 0%float = half_pi ->
      GradientDef.handle_positions gd = downward_handles ->
      GradientDef.angle_degrees atan2 gd = Ok 0%float)
  /\ (atan2 1%float 1%float = quarter_pi ->
      GradientDef.handle_positions gd = bare_handles ->
      GradientDef.angle_degrees atan2 gd = Ok 45%float)
  /\ (forall n : nat,
        len (GradientDef.handle_positions gd) = Ok n -> (n < 2)%nat ->
        GradientDef.angle_degrees atan2 gd = Ok 180%float).
Proof.
  assert (Hformula :
    forall (start end_ : dict) (rest : list value) (dx dy : value) (fx fy : float),
      GradientDef.handle_positions gd = VList (VDict start :: VDict end_ :: rest) ->
      sub (get end_ "x" (VInt 1)) (get start "x" (VInt 0)) = Ok dx ->
      sub (get end_ "y" (VInt 1)) (get start "y" (VInt 0)) = Ok dy ->
      as_float dx = Ok fx -> as_float dy = Ok fy ->
      GradientDef.angle_degrees atan2 gd
      = Ok (float_rem (90 - degrees (atan2 fy fx)) 360)%float).
  { intros start end_ rest dx dy fx fy Hh Hdx Hdy Hfx Hfy.
    unfold GradientDef.angle_degrees. rewrite Hh.
    cbn [len bind List.length Nat.ltb Nat.leb getitem index nth_error vget].
    rewrite Hdx. cbn [bind]. rewrite Hdy. cbn [bind].
    rewrite Hfy. cbn [bind]. rewrite Hfx. reflexivity. }
  split; [|split; [|split; [|split; [|split]]]].
  - intros start end_ rest dx dy fx fy Hh Hdx Hdy Hfx Hfy t.
    pose proof (Hformula start end_ rest dx dy fx fy Hh Hdx Hdy Hfx Hfy) as H.
    fold t in H. destruct (float_rem_360 t) as (Hp & Hn & Hz).
    split; [exact H|]. split; [|split].
    + intros H0 H1. rewrite H, (Hp H0 H1). reflexivity.
    + intros H0 H1. rewrite H, (Hn H0 H1). reflexivity.
    + intros H0. rewrite H, (Hz H0). reflexivity.
  - intros Hat Hh.
    rewrite (Hformula _ _ _ (VInt 1) (VInt 1) 1%float 1%float Hh);
      try reflexivity.
    rewrite Hat. vm_compute. reflexivity.
  - intros Hat Hh.
    rewrite (Hformula _ _ _ (VInt (-1)) (VInt 1) (-1)%float 1%float Hh);
      try reflexivity.
    rewrite Hat. vm_compute. reflexivity.
  - intros Hat Hh.
    rewrite (Hformula _ _ _ (VFloat 0) (VFloat 1) 0%float 1%float Hh);
      try reflexivity.
    rewrite Hat. vm_compute. reflexivity.
  - intros Hat Hh.
    rewrite (Hformula _ _ _ (VInt 1) (VInt 1) 1%float 1%float Hh);
      try reflexivity.
    rewrite Hat. vm_compute. reflexivity.
  - intros n Hn Hlt. unfold GradientDef.angle_degrees. rewrite Hn. cbn [bind].
    apply Nat.ltb_lt in Hlt. rewrite Hlt. reflexivity.
Qed.

Lemma angle_degrees_spec_witness :
  GradientDef.angle_degrees (fun _ _ => three_quarter_pi)
    (GradientDef.mk "LINEAR" [] back_diagonal_handles (VFloat 1)) = Ok 315%float.
Proof.
  apply (angle_degrees_spec (fun _ _ => three_quarter_pi)
           (GradientDef.mk "LINEAR" [] back_diagonal_handles (VFloat 1)));
    reflexivity.
Defined.

(** ** Loops *)

(** Every item a loop collects comes out of one of its iterations. *)
Lemma collect_Forall {A B} (body : A -> result (option B)) (P : B -> Prop)
      (l : list A) (out : list B) :
  (forall x y, body x = Ok (Some y) -> P y) ->
  collect body l = Ok out -> Forall P out.
Proof.
  intros HP. revert out. induction l as [|x l IH]; cbn [collect]; intros out H.
  - inversion H. constructor.
  - destruct (body x) as [o|e] eqn:Ex; cbn [bind] in H; [|discriminate].
    destruct (collect body l) as [rest|e]; cbn [bind] in H; [|discriminate].
    inversion H; subst. destruct o as [y|].
    + constructor; [eapply HP; eassumption | apply IH; reflexivity].
    + apply IH. reflexivity.
Qed.



(** ** [parse_stroke] *)

Lemma collect_stroke_layer_hidden (entries : list value) :
  forallb hidden entries = true -> collect stroke_layer entries = Ok [].
Proof.
  induction entries as [|e entries IH]; cbn [forallb collect]; [reflexivity|].
  intros H. apply andb_prop in H. destruct H as [He Hrest].
  destruct e as [| | | | | |d]; try discriminate He.
  cbn [hidden] in He. cbn [stroke_layer]. rewrite He. cbn [bind].
  rewrite (IH Hrest). reflexivity.
Qed.

(** C5: no strokes, a stroke weight of 0, or no visible stroke entry give no
    [StrokeInfo]; a [StrokeInfo] that is returned has at least one colour
    layer. *)
Theorem parse_stroke_absent (node : dict) :
  (get node "strokes" (VList []) = VList [] -> parse_stroke node = Ok None)
  /\ (eq_const (get node "strokeWeight" (VInt 0)) 0 = true ->
      parse_stroke node = Ok None)
  /\ (forall entries : list value,
        get node "strokes" (VList []) = VList entries ->
        forallb hidden entries = true ->
        parse_stroke node = Ok None)
  /\ (forall si : StrokeInfo.t,
        parse_stroke node = Ok (Some si) -> StrokeInfo.colors si <> []).
Proof.
  repeat split.
  - intros H. unfold parse_stroke. rewrite H. reflexivity.
  - intros H. unfold parse_stroke. rewrite H. rewrite orb_true_r. reflexivity.
  - intros entries H Hhid. unfold parse_stroke. rewrite H.
    destruct (negb (truthy (VList entries)) || _); [reflexivity|].
    cbn [iter bind]. rewrite (collect_stroke_layer_hidden entries Hhid).
    reflexivity.
  - intros si H. unfold parse_stroke in H.
    destruct (negb (truthy _) || _); [discriminate|].
    destruct (iter _) as [entries|]; cbn [bind] in H; [|discriminate].
    destruct (collect stroke_layer entries) as [colors|]; cbn [bind] in H;
      [|discriminate].
    destruct colors as [|layer colors]; [discriminate|].
    destruct (individual_weights_of _); cbn [bind] in H; [|discriminate].
    inversion H. cbn. discriminate.
Qed.

Lemma parse_stroke_absent_witness :
  parse_stroke [("strokes", VList [solid_red]); ("strokeWeight", VInt 0)] = Ok None
  /\ parse_stroke [("strokes", VList []); ("strokeWeight", VInt 2)] = Ok None
  /\ parse_stroke [("strokes", VList [hidden_red]); ("strokeWeight", VInt 2)] = Ok None.
Proof.
  split; [|split].
  - apply (parse_stroke_absent
             [("strokes", VList [solid_red]); ("strokeWeight", VInt 0)]).
    reflexivity.
  - apply (proj1 (parse_stroke_absent
             [("strokes", VList []); ("strokeWeight", VInt 2)])).
    reflexivity.
  - apply (proj1 (proj2 (proj2 (parse_stroke_absent
             [("strokes", VList [hidden_red]); ("strokeWeight", VInt 2)])))
             [hidden_red]); reflexivity.
Defined.

Example parse_stroke_present :
  exists si,
    parse_stroke [("strokes", VList [hidden_red; solid_red]); ("strokeWeight", VInt 2)]
    = Ok (Some si)
    /\ StrokeInfo.weight si = VInt 2
    /\ List.length (StrokeInfo.colors si) = 1%nat.
Proof. eexists. split; [vm_compute; reflexivity|]. split; reflexivity. Qed.

(** ** [parse_corners] *)

(** C6: a four-element [rectangleCornerRadii] wins over [cornerRadius] and
    maps in order to top-left, top-right, bottom-right, bottom-left; without
    it a [cornerRadius] above 0 gives uniform radii and anything else gives
    none. *)
Theorem parse_corners_spec (node : dict) :
  (forall tl tr br bl : value,
      lookup node "rectangleCornerRadii" = Some (VList [tl; tr; br; bl]) ->
      parse_corners node = Ok (Some (CornerRadii.mk tl tr br bl)))
  /\ (forall (cr : value) (positive : bool),
        no_radii_array (get_opt node "rectangleCornerRadii") ->
        get node "cornerRadius" (VInt 0) = cr ->
        gt_const cr 0 = Ok positive ->
        parse_corners node
        = Ok (if positive then Some (CornerRadii.mk cr cr cr cr) else None)).
Proof.
  split.
  - intros tl tr br bl H. unfold parse_corners, get_opt, get. rewrite H.
    reflexivity.
  - intros cr positive Hno Hcr Hpos. unfold parse_corners.
    assert (Hfour :
      (if truthy (get_opt node "rectangleCornerRadii")
       then bind (len (get_opt node "rectangleCornerRadii"))
                 (fun n => Ok (n =? 4)%nat)
       else Ok false) = Ok false).
    { destruct Hno as [E | (l & E & Hl)]; rewrite E; [reflexivity|].
      destruct l as [|x l]; [reflexivity|].
      cbn [truthy len bind]. f_equal. apply Nat.eqb_neq, Hl. }
    rewrite Hfour. cbn [bind]. rewrite Hcr, Hpos. destruct positive; reflexivity.
Qed.

Lemma parse_corners_spec_witness :
  parse_corners [("rectangleCornerRadii", VList [VInt 1; VInt 2; VInt 3; VInt 4]);
                 ("cornerRadius", VInt 9)]
  = Ok (Some (CornerRadii.mk (VInt 1) (VInt 2) (VInt 3) (VInt 4)))
  /\ parse_corners [("cornerRadius", VInt 9)]
     = Ok (Some (CornerRadii.mk (VInt 9) (VInt 9) (VInt 9) (VInt 9)))
  /\ parse_corners [("cornerRadius", VInt 0)] = Ok None.
Proof.
  split; [|split].
  - apply (parse_corners_spec
             [("rectangleCornerRadii", VList [VInt 1; VInt 2; VInt 3; VInt 4]);
              ("cornerRadius", VInt 9)]).
    reflexivity.
  - apply (proj2 (parse_corners_spec [("cornerRadius", VInt 9)]) (VInt 9) true);
      [left; reflexivity | reflexivity | reflexivity].
  - apply (proj2 (parse_corners_spec [("cornerRadius", VInt 0)]) (VInt 0) false);
      [left; reflexivity | reflexivity | reflexivity].
Defined.

(** ** Invisible entries *)












Example parse_fills_two_fills :
  exists layer,
    parse_fills two_fills = Ok [layer]
    /\ FillLayer.type layer = VStr "SOLID"
    /\ FillLayer.color layer
       = Some (ColorValue.mk (VInt 1) (VInt 0) (VInt 0) (VFloat 1)).
Proof. eexists. split; [vm_compute; reflexivity|]. split; reflexivity. Qed.

(** ** [parse_text_style] *)

Lemma text_fill_scan_passed_over (e : value) (rest : list value) :
  passed_over e = true -> text_fill_scan (e :: rest) = text_fill_scan rest.
Proof.
  destruct e as [| | | | | |d]; try discriminate. cbn [passed_over text_fill_scan].
  destruct (negb (truthy (get d "visible" (VBool true)))); [reflexivity|].
  cbn [orb]. destruct (eq_str (get_opt d "type") "SOLID"); [discriminate|].
  cbn [negb andb].
  destruct (contains "GRADIENT" (get d "type" (VStr ""))) as [[|]|];
    try discriminate.
  reflexivity.
Qed.

Lemma text_fill_scan_skip (pre rest : list value) :
  forallb passed_over pre = true ->
  text_fill_scan (pre ++ rest)%list = text_fill_scan rest.
Proof.
  induction pre as [|e pre IH]; cbn [forallb app]; [reflexivity|].
  intros H. apply andb_prop in H. destruct H as [He Hpre].
  rewrite (text_fill_scan_passed_over e _ He). apply IH, Hpre.
Qed.

Lemma text_fill_scan_decisive (e : value) (rest : list value) :
  decisive e = true -> text_fill_scan (e :: rest) = text_fill_scan [e].
Proof.
  destruct e as [| | | | | |d]; try discriminate. cbn [decisive text_fill_scan].
  destruct (truthy (get d "visible" (VBool true))); [|discriminate].
  cbn [negb andb]. destruct (eq_str (get_opt d "type") "SOLID"); [reflexivity|].
  cbn [orb].
  destruct (contains "GRADIENT" (get d "type" (VStr ""))) as [[|]|];
    try discriminate.
  reflexivity.
Qed.

Lemma text_fill_scan_at_most_one (fills : list value)
      (c : option ColorValue.t) (gd : option GradientDef.t) :
  text_fill_scan fills = Ok (c, gd) -> c = None \/ gd = None.
Proof.
  induction fills as [|e fills IH]; cbn [text_fill_scan].
  - intros H. inversion H. left. reflexivity.
  - destruct e as [| | | | | |d]; try discriminate.
    destruct (negb (truthy (get d "visible" (VBool true)))); [exact IH|].
    destruct (eq_str (get_opt d "type") "SOLID").
    + destruct (ColorValue.from_figma _ _); cbn [bind]; [|discriminate].
      intros H. inversion H. right. reflexivity.
    + destruct (contains "GRADIENT" _) as [[|]|]; cbn [bind];
        [| exact IH | discriminate].
      destruct (iter _); cbn [bind]; [|discriminate].
      destruct (mapM gradient_stop _); cbn [bind]; [|discriminate].
      destruct (getkey d "type"); cbn [bind]; [|discriminate].
      destruct (vreplace _ _ _); cbn [bind]; [|discriminate].
      intros H. inversion H. left. reflexivity.
Qed.

(** [parse_text_style] reads the fills only through the scan. *)
Lemma parse_text_style_fills (node : dict) (fills fills' : list value) :
  lookup node "fills" = Some (VList fills) ->
  text_fill_scan fills = text_fill_scan fills' ->
  parse_text_style node = parse_text_style (("fills", VList fills') :: node).
Proof.
  intros H E. unfold parse_text_style.
  change (get (("fills", VList fills') :: node) "fills" (VList []))
    with (VList fills').
  change (get (("fills", VList fills') :: node) "style" (VDict []))
    with (get node "style" (VDict [])).
  assert (Hg : get node "fills" (VList []) = VList fills)
    by (unfold get; rewrite H; reflexivity).
  rewrite Hg. cbn [iter bind]. rewrite E. reflexivity.
Qed.

(** The stops loop keeps the positions of its entries, which are records. *)
Lemma mapM_gradient_stop_positions (raw : list value) (stops : list GradientStop.t) :
  mapM gradient_stop raw = Ok stops ->
  map GradientStop.position stops = map (entry_field "position" (VInt 0)) raw
  /\ Forall is_true (map is_record raw).
Proof.
  revert stops. induction raw as [|s raw IH]; cbn [mapM map]; intros stops H.
  - injection H as <-. split; [reflexivity|constructor].
  - destruct (gradient_stop s) as [g|] eqn:Eg; cbn [bind] in H; [|discriminate].
    destruct (mapM gradient_stop raw) as [rest|]; cbn [bind] in H; [|discriminate].
    injection H as <-. destruct (IH rest eq_refl) as [IH1 IH2].
    destruct s as [| | | | | |d]; try discriminate Eg.
    unfold gradient_stop in Eg. cbn [vget bind] in Eg.
    destruct (get d "color" (VDict [])); try discriminate Eg.
    cbn [vget bind] in Eg. injection Eg as <-. cbn [map GradientStop.position entry_field].
    rewrite IH1. split; [reflexivity|]. constructor; [reflexivity|exact IH2].
Qed.

(** With a [style] that is absent or a record, the fields read from it are
    all there, so [parse_text_style] returns once the scan has. *)
Lemma parse_text_style_returns (node : dict) (fills : list value)
      (c : option ColorValue.t) (gd : option GradientDef.t) :
  is_record (get node "style" (VDict [])) = true ->
  iter (get node "fills" (VList [])) = Ok fills ->
  text_fill_scan fills = Ok (c, gd) ->
  exists ts,
    parse_text_style node = Ok ts
    /\ TextStyle.color ts = c /\ TextStyle.gradient ts = gd.
Proof.
  intros Hs Hf Hscan. unfold parse_text_style. rewrite Hf. cbn [bind].
  rewrite Hscan. cbn [bind].
  destruct (get node "style" (VDict [])) as [| | | | | |sd]; try discriminate Hs.
  cbn [vget bind fst snd]. eexists. split; [reflexivity|]. split; reflexivity.
Qed.

(** C9: the scan of [parse_text_style] moves past a fill that is hidden or
    is neither solid nor a gradient (an [IMAGE], say), so the colour or
    gradient is that of the first visible solid or gradient fill wherever it
    stands: a solid fill gives its colour and no gradient, a gradient fill
    gives no colour and the gradient of its stops, with [GRADIENT_] taken off
    its type; when every fill is passed over both are unset.  A [TextStyle]
    never has both. *)
Theorem parse_text_style_fill_scan (node : dict) :
  (forall (pre post : list value) (f : value),
      lookup node "fills" = Some (VList (pre ++ f :: post)%list) ->
      forallb passed_over pre = true ->
      decisive f = true ->
      parse_text_style node = parse_text_style (("fills", VList [f]) :: node))
  /\ (forall (d : dict) (rest : list value),
        lookup node "fills" = Some (VList (VDict d :: rest)) ->
        truthy (get d "visible" (VBool true)) = true ->
        lookup d "type" = Some (VStr "IMAGE") ->
        parse_text_style node = parse_text_style (("fills", VList rest) :: node))
  /\ (forall (pre post : list value) (d : dict) (c : ColorValue.t),
        is_record (get node "style" (VDict [])) = true ->
        lookup node "fills" = Some (VList (pre ++ VDict d :: post)%list) ->
        forallb passed_over pre = true ->
        truthy (get d "visible" (VBool true)) = true ->
        lookup d "type" = Some (VStr "SOLID") ->
        ColorValue.from_figma (get d "color" (VDict [])) (get d "opacity" (VFloat 1))
        = Ok c ->
        exists ts,
          parse_text_style node = Ok ts
          /\ TextStyle.color ts = Some c /\ TextStyle.gradient ts = None)
  /\ (forall (pre post : list value) (d : dict) (t : string)
             (raw : list value) (stops : list GradientStop.t),
        is_record (get node "style" (VDict [])) = true ->
        lookup node "fills" = Some (VList (pre ++ VDict d :: post)%list) ->
        forallb passed_over pre = true ->
        truthy (get d "visible" (VBool true)) = true ->
        lookup d "type" = Some (VStr t) ->
        String.eqb t "SOLID" = false -> str_contains "GRADIENT" t = true ->
        iter (get d "gradientStops" (VList [])) = Ok raw ->
        mapM gradient_stop raw = Ok stops ->
        exists ts,
          parse_text_style node = Ok ts
          /\ TextStyle.color ts = None
          /\ TextStyle.gradient ts
             = Some (GradientDef.mk (replace "GRADIENT_" "" t) stops
                       (get d "gradientHandlePositions" (VList []))
                       (get d "opacity" (VFloat 1)))
          /\ map GradientStop.position stops
             = map (entry_field "position" (VInt 0)) raw)
  /\ (forall fills : list value,
        is_record (get node "style" (VDict [])) = true ->
        iter (get node "fills" (VList [])) = Ok fills ->
        forallb passed_over fills = true ->
        exists ts,
          parse_text_style node = Ok ts
          /\ TextStyle.color ts = None /\ TextStyle.gradient ts = None)
  /\ (forall ts : TextStyle.t,
        parse_text_style node = Ok ts ->
        TextStyle.color ts = None \/ TextStyle.gradient ts = None)
  /\ (exists ts,
        parse_text_style image_then_gradient = Ok ts
        /\ TextStyle.color ts = None
        /\ TextStyle.gradient ts
           = Some (GradientDef.mk "LINEAR"
                     [GradientStop.mk
                        (ColorValue.mk (VInt 1) (VInt 0) (VInt 0) (VInt 1))
                        (VFloat 0.25)]
                     diagonal_handles (VFloat 0.5)))
  /\ (exists ts,
        parse_text_style image_then_red = Ok ts
        /\ TextStyle.color ts
           = Some (ColorValue.mk (VInt 1) (VInt 0) (VInt 0) (VFloat 1))
        /\ TextStyle.gradient ts = None)
  /\ (exists ts,
        parse_text_style images_only = Ok ts
        /\ TextStyle.color ts = None /\ TextStyle.gradient ts = None
        /\ TextStyle.font_size ts = VInt 12).
Proof.
  assert (Hget : forall l, lookup node "fills" = Some (VList l) ->
                   iter (get node "fills" (VList [])) = Ok l).
  { intros l H. unfold get. rewrite H. reflexivity. }
  split; [|split; [|split; [|split; [|split; [|split; [|split; [|split]]]]]]].
  - intros pre post f H Hpre Hf.
    apply (parse_text_style_fills node _ _ H).
    rewrite (text_fill_scan_skip pre _ Hpre).
    apply text_fill_scan_decisive, Hf.
  - intros d rest H Hv Ht.
    apply (parse_text_style_fills node _ _ H).
    apply text_fill_scan_passed_over.
    cbn [passed_over]. unfold get_opt, get. rewrite Ht.
    rewrite orb_true_r. reflexivity.
  - intros pre post d c Hs H Hpre Hv Ht Hc.
    apply (parse_text_style_returns node _ (Some c) None Hs (Hget _ H)).
    rewrite (text_fill_scan_skip pre _ Hpre).
    cbn [text_fill_scan]. rewrite Hv. cbn [negb].
    assert (Ho : get_opt d "type" = VStr "SOLID")
      by (unfold get_opt, get; rewrite Ht; reflexivity).
    rewrite Ho. change (eq_str (VStr "SOLID") "SOLID") with true. cbv iota.
    rewrite Hc. reflexivity.
  - intros pre post d t raw stops Hs H Hpre Hv Ht Hns Hg Hraw Hstops.
    destruct (parse_text_style_returns node _ None
                (Some (GradientDef.mk (replace "GRADIENT_" "" t) stops
                         (get d "gradientHandlePositions" (VList []))
                         (get d "opacity" (VFloat 1)))) Hs (Hget _ H))
      as (ts & Hts & Hc & Hgd).
    { rewrite (text_fill_scan_skip pre _ Hpre).
      cbn [text_fill_scan]. rewrite Hv. cbn [negb].
      assert (Ho : get_opt d "type" = VStr t)
        by (unfold get_opt, get; rewrite Ht; reflexivity).
      assert (Hty : get d "type" (VStr "") = VStr t)
        by (unfold get; rewrite Ht; reflexivity).
      unfold getkey. rewrite Ho, Hty, Ht. cbn [eq_str].
      rewrite Hns.
      cbn [contains bind]. rewrite Hg, Hraw. cbn [bind]. rewrite Hstops.
      reflexivity. }
    exists ts. repeat split; try assumption.
    apply (mapM_gradient_stop_positions raw stops Hstops).
  - intros fills Hs Hf Hall.
    apply (parse_text_style_returns node fills None None Hs Hf).
    rewrite <- (app_nil_r fills). apply (text_fill_scan_skip fills [] Hall).
  - intros ts Hts. unfold parse_text_style in Hts.
    destruct (iter _) as [fills|]; cbn [bind] in Hts; [|discriminate].
    destruct (text_fill_scan fills) as [[c gd]|] eqn:Es; cbn [bind] in Hts;
      [|discriminate].
    repeat (match type of Hts with
            | bind ?x _ = Ok _ => destruct x; cbn [bind] in Hts; [|discriminate]
            end).
    inversion Hts. cbn [TextStyle.color TextStyle.gradient fst snd].
    apply (text_fill_scan_at_most_one fills c gd Es).
  - eexists. split; [vm_compute; reflexivity|]. split; reflexivity.
  - eexists. split; [vm_compute; reflexivity|]. split; reflexivity.
  - eexists. split; [vm_compute; reflexivity|]. repeat split.
Qed.

Lemma parse_text_style_fill_scan_witness :
  exists ts,
    parse_text_style image_then_gradient = Ok ts
    /\ TextStyle.color ts = None
    /\ TextStyle.gradient ts
       = Some (GradientDef.mk (replace "GRADIENT_" "" "GRADIENT_LINEAR")
                 [GradientStop.mk
                    (ColorValue.mk (VInt 1) (VInt 0) (VInt 0) (VInt 1))
                    (VFloat 0.25)]
                 (get gradient_paint "gradientHandlePositions" (VList []))
                 (get gradient_paint "opacity" (VFloat 1)))
    /\ map GradientStop.position
         [GradientStop.mk (ColorValue.mk (VInt 1) (VInt 0) (VInt 0) (VInt 1))
            (VFloat 0.25)]
       = map (entry_field "position" (VInt 0))
           [VDict [("color", VDict red); ("position", VFloat 0.25)]].
Proof.
  destruct (parse_text_style_fill_scan image_then_gradient)
    as (_ & _ & _ & H & _).
  apply (H [hidden_red; image_fill] [solid_red] gradient_paint "GRADIENT_LINEAR");
    reflexivity.
Defined.

Example parse_text_style_image_then_red :
  exists ts,
    parse_text_style image_then_red = Ok ts
    /\ TextStyle.color ts = Some (ColorValue.mk (VInt 1) (VInt 0) (VInt 0) (VFloat 1))
    /\ TextStyle.gradient ts = None.
Proof. eexists. split; [vm_compute; reflexivity|]. split; reflexivity. Qed.

(* ------------------------------------------------------------------ *)
(** * Further properties *)
(* ------------------------------------------------------------------ *)

(** ** Stripping and scanning *)

Lemma all_chars_app (p : ascii -> bool) (a b : string) :
  all_chars p (a ++ b) = all_chars p a && all_chars p b.
Proof.
  induction a as [|c a IH]; cbn [append all_chars]; [reflexivity|].
  rewrite IH, andb_assoc. reflexivity.
Qed.

Lemma all_chars_impl (p q : ascii -> bool) (s : string) :
  (forall c, p c = true -> q c = true) ->
  all_chars p s = true -> all_chars q s = true.
Proof.
  intros Hpq. induction s as [|c s IH]; cbn [all_chars]; [reflexivity|].
  intros H. apply andb_prop in H. destruct H as [Hc Hs].
  rewrite (Hpq c Hc), (IH Hs). reflexivity.
Qed.

(** Stripping on the right leaves a string alone up to its last character
    that is kept. *)
Lemma rstrip_by_app (p : ascii -> bool) (a b : string) :
  rstrip_by p (a ++ b)
  = match rstrip_by p b with
    | EmptyString => rstrip_by p a
    | t => a ++ t
    end.
Proof.
  induction a as [|c a IH]; cbn [append rstrip_by].
  - destruct (rstrip_by p b); reflexivity.
  - rewrite IH. destruct (rstrip_by p b) as [|x t]; [reflexivity|].
    destruct a; reflexivity.
Qed.

Lemma rstrip_by_id (p : ascii -> bool) (s : string) :
  all_chars (fun c => negb (p c)) s = true -> rstrip_by p s = s.
Proof.
  induction s as [|c s IH]; cbn [all_chars rstrip_by]; [reflexivity|].
  intros H. apply andb_prop in H. destruct H as [Hc Hs].
  rewrite (IH Hs). apply negb_true_iff in Hc. rewrite Hc.
  destruct s; reflexivity.
Qed.

Lemma lstrip_by_id (p : ascii -> bool) (s : string) :
  all_chars (fun c => negb (p c)) s = true -> lstrip_by p s = s.
Proof.
  destruct s as [|c s]; cbn [all_chars lstrip_by]; [reflexivity|].
  intros H. apply andb_prop in H. destruct H as [Hc _].
  apply negb_true_iff in Hc. rewrite Hc. reflexivity.
Qed.

Lemma strip_id (s : string) :
  all_chars (fun c => negb (isspace c)) s = true -> strip s = s.
Proof.
  intros H. unfold strip. rewrite (lstrip_by_id isspace s H).
  apply rstrip_by_id, H.
Qed.

(** A piece that has no first character of [old] is copied by [replace]. *)
Lemma replace_from_app (o : ascii) (old' new a b : string) :
  all_chars (fun c => negb (Ascii.eqb o c)) a = true ->
  replace_from (String o old') new 0 (a ++ b)
  = a ++ replace_from (String o old') new 0 b.
Proof.
  induction a as [|c a IH]; cbn [append all_chars]; [reflexivity|].
  intros H. apply andb_prop in H. destruct H as [Hc Ha].
  apply negb_true_iff, Ascii.eqb_neq in Hc.
  cbn [replace_from String.prefix].
  destruct (ascii_dec o c) as [E|_]; [contradiction|].
  rewrite (IH Ha). reflexivity.
Qed.

(** A piece without the separator, followed by the separator, is the first
    field of [split]. *)
Lemma split_app (sep : ascii) (a b : string) :
  all_chars (fun c => negb (Ascii.eqb c sep)) a = true ->
  split sep (a ++ String sep b) = a :: split sep b.
Proof.
  induction a as [|c a IH]; cbn [append all_chars split].
  - intros _. rewrite Ascii.eqb_refl. reflexivity.
  - intros H. apply andb_prop in H. destruct H as [Hc Ha].
    apply negb_true_iff in Hc. rewrite Hc, (IH Ha). reflexivity.
Qed.

Lemma rstrip_keep_app (p : ascii -> bool) (a b : string) :
  rstrip_by p b = b /\ b <> EmptyString ->
  rstrip_by p (a ++ b) = a ++ b /\ a ++ b <> EmptyString.
Proof.
  intros [Hb Hne]. rewrite rstrip_by_app, Hb.
  destruct b as [|x t]; [contradiction|].
  split; [reflexivity|]. destruct a; discriminate.
Qed.

Lemma rstrip_keep_cons (p : ascii -> bool) (c : ascii) (b : string) :
  rstrip_by p b = b /\ b <> EmptyString ->
  rstrip_by p (String c b) = String c b /\ String c b <> EmptyString.
Proof.
  intros [Hb Hne]. cbn [rstrip_by]. rewrite Hb.
  destruct b as [|x t]; [contradiction|]. split; [reflexivity|discriminate].
Qed.

Lemma replace_from_cons (o c : ascii) (old' new s : string) :
  Ascii.eqb o c = false ->
  replace_from (String o old') new 0 (String c s)
  = String c (replace_from (String o old') new 0 s).
Proof.
  intros H. apply Ascii.eqb_neq in H. cbn [replace_from String.prefix].
  destruct (ascii_dec o c) as [E|_]; [contradiction|]. reflexivity.
Qed.


Lemma prefix_app (a s : string) : String.prefix a (a ++ s) = true.
Proof.
  induction a as [|c a IH]; cbn [append String.prefix]; [destruct s; reflexivity|].
  destruct (ascii_dec c c) as [_|N]; [exact IH | contradiction N; reflexivity].
Qed.

Lemma replace_from_skip (old new a s : string) :
  replace_from old new (String.length a) (a ++ s) = replace_from old new 0 s.
Proof.
  induction a as [|c a IH]; cbn [append String.length replace_from]; [reflexivity|].
  exact IH.
Qed.

(** An occurrence of [old] at the front is replaced, and the scan goes on
    behind it. *)
Lemma replace_from_prefix (o : ascii) (old' new s : string) :
  replace_from (String o old') new 0 (String o old' ++ s)
  = new ++ replace_from (String o old') new 0 s.
Proof.
  cbn [append]. cbn [replace_from].
  change (String o (old' ++ s)) with (String o old' ++ s).
  rewrite prefix_app. cbn [String.length Nat.pred].
  rewrite replace_from_skip. reflexivity.
Qed.

Lemma decimal_digit_plain (c : ascii) :
  is_decimal_digit c = true ->
  isspace c = false /\ Ascii.eqb "r" c = false /\ Ascii.eqb ")" c = false
  /\ Ascii.eqb c "," = false.
Proof.
  revert c.
  assert (H : forall c, (negb (is_decimal_digit c)
             || (negb (isspace c) && negb (Ascii.eqb "r" c)
                 && negb (Ascii.eqb ")" c) && negb (Ascii.eqb c ",")))
             = true).
  { apply for_all_ascii. vm_compute. reflexivity. }
  intros c Hc. specialize (H c). rewrite Hc in H.
  destruct (isspace c), (Ascii.eqb "r" c), (Ascii.eqb ")" c), (Ascii.eqb c ",");
    try discriminate H; repeat split.
Qed.

Lemma decimal_digits_plain (s : string) (q : ascii -> bool) :
  (forall c, is_decimal_digit c = true -> q c = true) ->
  all_chars is_decimal_digit s = true -> all_chars q s = true.
Proof. apply all_chars_impl. Qed.

(** [str(n)] of a byte is a decimal numeral that [int] reads back. *)
Lemma str_of_int_byte (n : Z) :
  0 <= n <= 255 ->
  all_chars is_decimal_digit (str_of_int n) = true
  /\ int_of_str 10 (str_of_int n) = Ok n.
Proof.
  pose (chk := fun k : nat =>
    all_chars is_decimal_digit (str_of_int (Z.of_nat k))
    && match int_of_str 10 (str_of_int (Z.of_nat k)) with
       | Ok v => v =? Z.of_nat k
       | Raise _ => false
       end).
  assert (H : forallb chk (seq 0 256) = true) by (vm_compute; reflexivity).
  intros Hn. rewrite forallb_forall in H.
  specialize (H (Z.to_nat n)). rewrite in_seq in H.
  assert (Hk : chk (Z.to_nat n) = true) by (apply H; lia).
  unfold chk in Hk. rewrite Z2Nat.id in Hk by lia.
  apply andb_prop in Hk. destruct Hk as [Hd Hv]. split; [exact Hd|].
  destruct (int_of_str 10 (str_of_int n)) as [v|]; [|discriminate].
  apply Z.eqb_eq in Hv. subst. reflexivity.
Qed.

(** An [rgba(...)] text whose first three fields are decimal numerals is read
    as those numbers, whatever stands in the alpha field. *)
Lemma hex_to_rgb_rgba_fields (R G B alpha : string) (r g b : Z) :
  all_chars is_decimal_digit R = true ->
  all_chars is_decimal_digit G = true ->
  all_chars is_decimal_digit B = true ->
  int_of_str 10 R = Ok r -> int_of_str 10 G = Ok g -> int_of_str 10 B = Ok b ->
  hex_to_rgb ("rgba(" ++ R ++ ", " ++ G ++ ", " ++ B ++ ", " ++ alpha ++ ")")
  = Ok (r, g, b).
Proof.
  intros HR HG HB Er Eg Eb.
  assert (Hnr : forall s, all_chars is_decimal_digit s = true ->
                  all_chars (fun c => negb (Ascii.eqb "r" c)) s = true).
  { intros s. apply all_chars_impl. intros c Hc.
    destruct (decimal_digit_plain c Hc) as (_ & H & _). rewrite H. reflexivity. }
  assert (Hnp : forall s, all_chars is_decimal_digit s = true ->
                  all_chars (fun c => negb (Ascii.eqb ")" c)) s = true).
  { intros s. apply all_chars_impl. intros c Hc.
    destruct (decimal_digit_plain c Hc) as (_ & _ & H & _). rewrite H. reflexivity. }
  assert (Hnc : forall s, all_chars is_decimal_digit s = true ->
                  all_chars (fun c => negb (Ascii.eqb c ",")) s = true).
  { intros s. apply all_chars_impl. intros c Hc.
    destruct (decimal_digit_plain c Hc) as (_ & _ & _ & H). rewrite H. reflexivity. }
  assert (Hns : forall s, all_chars is_decimal_digit s = true ->
                  all_chars (fun c => negb (isspace c)) s = true).
  { intros s. apply all_chars_impl. intros c Hc.
    destruct (decimal_digit_plain c Hc) as (H & _). rewrite H. reflexivity. }
  cbn [append].
  set (tail := alpha ++ String ")" EmptyString).
  set (S := String "r" _).
  assert (Hstrip : strip S = S).
  { unfold strip, S. cbn [lstrip_by]. change (isspace "r") with false. cbv iota.
    apply rstrip_keep_cons. repeat apply rstrip_keep_cons.
    apply rstrip_keep_app. repeat apply rstrip_keep_cons.
    apply rstrip_keep_app. repeat apply rstrip_keep_cons.
    apply rstrip_keep_app. repeat apply rstrip_keep_cons.
    unfold tail. apply rstrip_keep_app. split; [reflexivity|discriminate]. }
  unfold hex_to_rgb. rewrite Hstrip.
  assert (Hsw : startswith "rgba" S = true) by reflexivity.
  rewrite Hsw.
  assert (Hparts : exists rest,
    split "," (replace ")" "" (replace "rgba(" "" S))
    = R :: (String " " G) :: (String " " B) :: rest).
  { unfold replace, S.
    change (String "r" (String "g" (String "b" (String "a" (String "(" ?x)))))
      with ("rgba(" ++ x).
    rewrite (replace_from_prefix "r" "gba(" ""). cbn [append].
    rewrite (replace_from_app "r" "gba(" "" R _ (Hnr R HR)).
    rewrite !(replace_from_cons "r" _ "gba(" "") by reflexivity.
    rewrite (replace_from_app "r" "gba(" "" G _ (Hnr G HG)).
    rewrite !(replace_from_cons "r" _ "gba(" "") by reflexivity.
    rewrite (replace_from_app "r" "gba(" "" B _ (Hnr B HB)).
    rewrite !(replace_from_cons "r" _ "gba(" "") by reflexivity.
    set (t1 := replace_from "rgba(" "" 0 tail).
    rewrite (replace_from_app ")" "" "" R _ (Hnp R HR)).
    rewrite !(replace_from_cons ")" _ "" "") by reflexivity.
    rewrite (replace_from_app ")" "" "" G _ (Hnp G HG)).
    rewrite !(replace_from_cons ")" _ "" "") by reflexivity.
    rewrite (replace_from_app ")" "" "" B _ (Hnp B HB)).
    rewrite !(replace_from_cons ")" _ "" "") by reflexivity.
    set (t2 := replace_from ")" "" 0 t1).
    rewrite (split_app "," R _ (Hnc R HR)).
    change (String " " (G ++ String "," (String " " (B ++ String "," (String " " t2)))))
      with (String " " G ++ String "," (String " " (B ++ String "," (String " " t2)))).
    rewrite (split_app "," (String " " G)).
    2:{ cbn [all_chars]. rewrite (Hnc G HG). reflexivity. }
    change (String " " (B ++ String "," (String " " t2)))
      with (String " " B ++ String "," (String " " t2)).
    rewrite (split_app "," (String " " B)).
    2:{ cbn [all_chars]. rewrite (Hnc B HB). reflexivity. }
    eexists. reflexivity. }
  destruct Hparts as [rest Hparts]. rewrite Hparts.
  cbn [index nth_error bind].
  assert (Hsp : forall s, all_chars is_decimal_digit s = true ->
                  strip (String " " s) = s).
  { intros s Hs. unfold strip. cbn [lstrip_by]. change (isspace " ") with true.
    cbv iota. rewrite (lstrip_by_id isspace s (Hns s Hs)).
    apply rstrip_by_id, Hns, Hs. }
  rewrite (strip_id R (Hns R HR)), Er. cbn [bind].
  rewrite (Hsp G HG), Eg. cbn [bind].
  rewrite (Hsp B HB), Eb. reflexivity.
Qed.

(** A numeral of at most 4300 digits is written out. *)
Lemma format_int_short (n : Z) :
  short_numeral n = true -> format_int n = Ok (str_of_int n).
Proof.
  unfold short_numeral, format_int, max_str_digits. intros H.
  apply Z.ltb_lt in H. apply Z.leb_gt in H. rewrite H. reflexivity.
Qed.

Lemma format_int_long (n : Z) :
  short_numeral n = false -> format_int n = Raise ValueError.
Proof.
  unfold short_numeral, format_int, max_str_digits. intros H.
  apply Z.ltb_ge in H. apply Z.leb_le in H. rewrite H. reflexivity.
Qed.

Lemma byte_short_numeral (n : Z) : 0 <= n <= 255 -> short_numeral n = true.
Proof.
  intros H. unfold short_numeral. apply Z.ltb_lt.
  assert (Hbig : 255 < 10 ^ 4300) by (apply Z.ltb_lt; vm_compute; reflexivity).
  lia.
Qed.

(** The [rgba(...)] text of three bytes is read back as those bytes. *)
Lemma rgba_string_read_back (r g b : Z) (a : value) (s : string) :
  0 <= r <= 255 -> 0 <= g <= 255 -> 0 <= b <= 255 ->
  rgba_string r g b a = Ok s -> hex_to_rgb s = Ok (r, g, b).
Proof.
  intros Hr Hg Hb. unfold rgba_string.
  rewrite (format_int_short r (byte_short_numeral r Hr)),
          (format_int_short g (byte_short_numeral g Hg)),
          (format_int_short b (byte_short_numeral b Hb)).
  cbn [bind]. destruct (format_2f a) as [alpha|]; cbn [bind]; [|discriminate].
  intros H. injection H as <-.
  destruct (str_of_int_byte r Hr) as [Dr Er].
  destruct (str_of_int_byte g Hg) as [Dg Eg].
  destruct (str_of_int_byte b Hb) as [Db Eb].
  apply hex_to_rgb_rgba_fields; assumption.
Qed.

Lemma hex_digit_not_space (s : string) :
  all_chars is_hex_digit s = true ->
  all_chars (fun c => negb (isspace c)) s = true.
Proof.
  apply all_chars_impl. intros c Hc.
  destruct (hex_digit_plain c Hc) as (H & _). rewrite H. reflexivity.
Qed.

Lemma hex_string_plain_read_back (r g b : Z) :
  0 <= r <= 255 -> 0 <= g <= 255 -> 0 <= b <= 255 ->
  hex_to_rgb (hex_string r g b) = Ok (r, g, b).
Proof.
  intros Hr Hg Hb.
  destruct (hex_string_digits r g b Hr Hg Hb)
    as (c0 & c1 & c2 & c3 & c4 & c5 & E & Hd & Vr & Vg & Vb).
  rewrite E. cbn [forallb] in Hd.
  apply andb_prop in Hd. destruct Hd as [H0 Hd].
  apply andb_prop in Hd. destruct Hd as [H1 Hd].
  apply andb_prop in Hd. destruct Hd as [H2 Hd].
  apply andb_prop in Hd. destruct Hd as [H3 Hd].
  apply andb_prop in Hd. destruct Hd as [H4 Hd].
  apply andb_prop in Hd. destruct Hd as [H5 _].
  destruct (strip_hash_six c0 c1 c2 c3 c4 c5 H0 H5) as [Hs Hp].
  rewrite hex_to_rgb_not_rgba by (rewrite Hs; reflexivity).
  rewrite Hp, hex_portion_rgb_six by assumption.
  rewrite Vr, Vg, Vb. reflexivity.
Qed.

(** ** The renderings of [rgba_to_hex] *)

Lemma format_02x_lower_byte (n : Z) :
  0 <= n <= 255 ->
  exists c1 c2,
    format_02x n = String c1 (String c2 EmptyString)
    /\ is_lower_hex_digit c1 = true /\ is_lower_hex_digit c2 = true
    /\ pair_value c1 c2 = n.
Proof.
  pose (chk := fun k : nat =>
    match format_02x (Z.of_nat k) with
    | String c1 (String c2 EmptyString) =>
        is_lower_hex_digit c1 && is_lower_hex_digit c2
        && (pair_value c1 c2 =? Z.of_nat k)
    | _ => false
    end).
  assert (H : forallb chk (seq 0 256) = true) by (vm_compute; reflexivity).
  intros Hn. rewrite forallb_forall in H.
  specialize (H (Z.to_nat n)). rewrite in_seq in H.
  assert (Hk : chk (Z.to_nat n) = true) by (apply H; lia).
  unfold chk in Hk. rewrite Z2Nat.id in Hk by lia.
  destruct (format_02x n) as [|c1 [|c2 [|]]]; try discriminate.
  exists c1, c2.
  apply andb_prop in Hk. destruct Hk as [Hk Hv].
  apply andb_prop in Hk. destruct Hk as [Hc1 Hc2].
  apply Z.eqb_eq in Hv. auto.
Qed.

Lemma hex_string_lower_digits (ri gi bi : Z) :
  0 <= ri <= 255 -> 0 <= gi <= 255 -> 0 <= bi <= 255 ->
  exists c0 c1 c2 c3 c4 c5,
    hex_string ri gi bi =
      String "#" (String c0 (String c1 (String c2 (String c3 (String c4
        (String c5 EmptyString))))))
    /\ forallb is_lower_hex_digit [c0; c1; c2; c3; c4; c5] = true
    /\ pair_value c0 c1 = ri /\ pair_value c2 c3 = gi /\ pair_value c4 c5 = bi.
Proof.
  intros Hr Hg Hb.
  destruct (format_02x_lower_byte ri Hr) as (r1 & r2 & Er & Hr1 & Hr2 & Vr).
  destruct (format_02x_lower_byte gi Hg) as (g1 & g2 & Eg & Hg1 & Hg2 & Vg).
  destruct (format_02x_lower_byte bi Hb) as (b1 & b2 & Eb & Hb1 & Hb2 & Vb).
  exists r1, r2, g1, g2, b1, b2.
  unfold hex_string. rewrite Er, Eg, Eb. cbn [append forallb].
  rewrite Hr1, Hr2, Hg1, Hg2, Hb1, Hb2. auto.
Qed.

Lemma two_digits_value (n : Z) :
  0 <= n < 100 ->
  exists d1 d2,
    two_digits n = String d1 (String d2 EmptyString)
    /\ is_decimal_digit d1 = true /\ is_decimal_digit d2 = true
    /\ n = 10 * decimal_value d1 + decimal_value d2.
Proof.
  pose (chk := fun k : nat =>
    match two_digits (Z.of_nat k) with
    | String d1 (String d2 EmptyString) =>
        is_decimal_digit d1 && is_decimal_digit d2
        && (Z.of_nat k =? 10 * decimal_value d1 + decimal_value d2)
    | _ => false
    end).
  assert (H : forallb chk (seq 0 100) = true) by (vm_compute; reflexivity).
  intros Hn. rewrite forallb_forall in H.
  specialize (H (Z.to_nat n)). rewrite in_seq in H.
  assert (Hk : chk (Z.to_nat n) = true) by (apply H; lia).
  unfold chk in Hk. rewrite Z2Nat.id in Hk by lia.
  destruct (two_digits n) as [|d1 [|d2 [|]]]; try discriminate.
  exists d1, d2.
  apply andb_prop in Hk. destruct Hk as [Hk Hv].
  apply andb_prop in Hk. destruct Hk as [H1 H2].
  apply Z.eqb_eq in Hv. auto.
Qed.

(** [round_half_even] gives a nearest integer, the even one of two. *)
Lemma round_half_even_nearest (num den : Z) :
  0 <= num -> 0 < den ->
  let h := round_half_even num den in
  0 <= h
  /\ 2 * Z.abs (h * den - num) <= den
  /\ (2 * Z.abs (h * den - num) = den -> Z.even h = true).
Proof.
  intros Hn Hd. unfold round_half_even.
  pose proof (Z.div_mod num den ltac:(lia)) as Hdm.
  pose proof (Z.mod_pos_bound num den Hd) as Hm.
  assert (Hq : 0 <= num / den) by (apply Z.div_pos; lia).
  set (q := num / den) in *. set (r := num mod den) in *.
  destruct (den <? 2 * r) eqn:E1; cbn [orb].
  - apply Z.ltb_lt in E1. split; [lia|]. split; [nia|]. intros H. exfalso. nia.
  - apply Z.ltb_ge in E1. destruct (2 * r =? den) eqn:E2; cbn [andb].
    + apply Z.eqb_eq in E2. destruct (Z.odd q) eqn:Eo.
      * split; [lia|]. split; [nia|]. intros _.
        rewrite Z.even_add, <- Z.negb_odd, Eo. reflexivity.
      * split; [lia|]. split; [nia|]. intros _.
        rewrite <- Z.negb_odd, Eo. reflexivity.
    + apply Z.eqb_neq in E2. split; [lia|]. split; [nia|]. intros H. exfalso. nia.
Qed.

Lemma format_2f_float_value (f : float) : to_two_decimals f (format_2f_float f).
Proof.
  unfold to_two_decimals, format_2f_float.
  destruct (Prim2SF f) as [s|s| |s m e]; try reflexivity.
  unfold magnitude_num, magnitude_den.
  destruct (0 <=? e) eqn:He.
  - apply Z.leb_le in He.
    assert (Hp : 0 < 2 ^ e) by (apply Z.pow_pos_nonneg; lia).
    set (h := Z.pos m * 2 ^ e * 100).
    destruct (two_digits_value (h mod 100)) as (d1 & d2 & E & H1 & H2 & Hv).
    { apply Z.mod_pos_bound. lia. }
    exists h, d1, d2. rewrite E. unfold h.
    repeat split; try assumption; try nia.
  - apply Z.leb_gt in He.
    assert (Hd : 0 < 2 ^ (- e)) by (apply Z.pow_pos_nonneg; lia).
    destruct (round_half_even_nearest (Z.pos m * 100) (2 ^ (- e)))
      as (Hh & Hn & Ht); [lia | exact Hd |].
    set (h := round_half_even (Z.pos m * 100) (2 ^ (- e))) in *.
    destruct (two_digits_value (h mod 100)) as (d1 & d2 & E & H1 & H2 & Hv).
    { apply Z.mod_pos_bound. lia. }
    exists h, d1, d2. rewrite E.
    replace (100 * Z.pos m) with (Z.pos m * 100) by lia.
    repeat split; assumption.
Qed.

Lemma format_2f_number (alpha : value) (f : float) :
  lt_const alpha 1 = Ok true -> as_float alpha = Ok f ->
  format_2f alpha = Ok (format_2f_float f).
Proof.
  destruct alpha; try discriminate; intros _ E; cbn [format_2f];
    rewrite E; reflexivity.
Qed.

Lemma format_2f_raises (alpha : value) (e : exn) :
  lt_const alpha 1 = Ok true -> as_float alpha = Raise e ->
  format_2f alpha = Raise e.
Proof.
  destruct alpha; try discriminate; intros _ E; cbn [format_2f];
    rewrite E; reflexivity.
Qed.

(** C4: [rgba_to_hex] renders [#rrggbb], two lower-case hexadecimal digits
    for each scaled channel, when alpha is at least 1 or absent, and
    [rgba(r, g, b, a)], the channels in decimal and alpha with two decimals,
    when alpha is below 1; absent channels count as 0.  Either text is read
    back by [hex_to_rgb] as the scaled channels.  A channel whose numeral
    would have more than 4300 digits makes the [rgba] form raise. *)
Theorem rgba_to_hex_spec (color : dict) (ri gi bi : Z) :
  channel_int (get color "r" (VInt 0)) = Ok ri ->
  channel_int (get color "g" (VInt 0)) = Ok gi ->
  channel_int (get color "b" (VInt 0)) = Ok bi ->
  let alpha := get color "a" (VInt 1) in
  (at_least alpha 1 = true -> rgba_to_hex color = Ok (hex_string ri gi bi))
  /\ (lookup color "a" = None -> rgba_to_hex color = Ok (hex_string ri gi bi))
  /\ (0 <= ri <= 255 -> 0 <= gi <= 255 -> 0 <= bi <= 255 ->
      exists c0 c1 c2 c3 c4 c5,
        hex_string ri gi bi =
          String "#" (String c0 (String c1 (String c2 (String c3 (String c4
            (String c5 EmptyString))))))
        /\ forallb is_lower_hex_digit [c0; c1; c2; c3; c4; c5] = true
        /\ pair_value c0 c1 = ri /\ pair_value c2 c3 = gi /\ pair_value c4 c5 = bi)
  /\ (lt_const alpha 1 = Ok true ->
      short_numeral ri && short_numeral gi && short_numeral bi = true ->
      (forall f : float,
          as_float alpha = Ok f ->
          exists a2,
            to_two_decimals f a2
            /\ rgba_to_hex color
               = Ok ("rgba(" ++ str_of_int ri ++ ", " ++ str_of_int gi ++ ", "
                       ++ str_of_int bi ++ ", " ++ a2 ++ ")"))
      /\ (forall e : exn,
            as_float alpha = Raise e -> rgba_to_hex color = Raise e))
  /\ (lt_const alpha 1 = Ok true ->
      short_numeral ri && short_numeral gi && short_numeral bi = false ->
      rgba_to_hex color = Raise ValueError)
  /\ (0 <= ri <= 255 -> 0 <= gi <= 255 -> 0 <= bi <= 255 ->
      forall text, rgba_to_hex color = Ok text ->
                   hex_to_rgb text = Ok (ri, gi, bi))
  /\ (lookup color "r" = None -> ri = 0)
  /\ (lookup color "g" = None -> gi = 0)
  /\ (lookup color "b" = None -> bi = 0)
  /\ rgba_to_hex translucent_blue = Ok "rgba(0, 0, 255, 0.50)"
  /\ rgba_to_hex eighth_alpha = Ok "rgba(127, 0, 0, 0.12)"
  /\ rgba_to_hex three_eighths_alpha = Ok "rgba(0, 255, 0, 0.38)"
  /\ rgba_to_hex negative_alpha = Ok "rgba(0, 0, 255, -3.00)"
  /\ rgba_to_hex red = Ok "#ff0000"
  /\ rgba_to_hex [("r", VFloat 0.5); ("g", VFloat 0.25); ("a", VFloat 1)]
     = Ok "#7f3f00"
  /\ rgba_to_hex [("r", VInt 2)] = Ok "#1fe0000"
  /\ rgba_to_hex [("r", VFloat (-0.5))] = Ok "#-7f0000"
  /\ rgba_to_hex [] = Ok "#000000".
Proof.
  intros Hr Hg Hb alpha.
  assert (Hopaque : lt_const alpha 1 = Ok false ->
                    rgba_to_hex color = Ok (hex_string ri gi bi)).
  { intros H. unfold rgba_to_hex. rewrite Hr, Hg, Hb. cbn [bind].
    fold alpha. rewrite H. reflexivity. }
  assert (Hrgba : lt_const alpha 1 = Ok true ->
                  rgba_to_hex color = rgba_string ri gi bi alpha).
  { intros H. unfold rgba_to_hex. rewrite Hr, Hg, Hb. cbn [bind].
    fold alpha. rewrite H. reflexivity. }
  assert (Hdefault : forall k n, lookup color k = None ->
            channel_int (get color k (VInt 0)) = Ok n -> n = 0).
  { intros k n Hk Hn. unfold get in Hn. rewrite Hk in Hn.
    rewrite channel_int_default in Hn. inversion Hn. reflexivity. }
  split; [|split; [|split; [|split; [|split; [|split; [|split; [|split; [|split]]]]]]]].
  - intros H. apply Hopaque, at_least_not_below, H.
  - intros H. apply Hopaque. unfold alpha, get. rewrite H. reflexivity.
  - apply hex_string_lower_digits.
  - intros Hlt Hshort.
    apply andb_prop in Hshort. destruct Hshort as [Hshort Sb].
    apply andb_prop in Hshort. destruct Hshort as [Sr Sg].
    rewrite (Hrgba Hlt). unfold rgba_string.
    rewrite (format_int_short ri Sr), (format_int_short gi Sg),
            (format_int_short bi Sb). cbn [bind].
    split.
    + intros f Hf. exists (format_2f_float f).
      split; [apply format_2f_float_value|].
      rewrite (format_2f_number alpha f Hlt Hf). reflexivity.
    + intros e He. rewrite (format_2f_raises alpha e Hlt He). reflexivity.
  - intros Hlt Hlong. rewrite (Hrgba Hlt). unfold rgba_string.
    destruct (short_numeral ri) eqn:Sr.
    2:{ rewrite (format_int_long ri Sr). reflexivity. }
    rewrite (format_int_short ri Sr). cbn [bind].
    destruct (short_numeral gi) eqn:Sg.
    2:{ rewrite (format_int_long gi Sg). reflexivity. }
    rewrite (format_int_short gi Sg). cbn [bind].
    destruct (short_numeral bi) eqn:Sb; [discriminate Hlong|].
    rewrite (format_int_long bi Sb). reflexivity.
  - intros Br Bg Bb text Ht.
    destruct (lt_const alpha 1) as [[|]|] eqn:Hlt.
    + rewrite (Hrgba eq_refl) in Ht.
      apply (rgba_string_read_back ri gi bi alpha text Br Bg Bb Ht).
    + rewrite (Hopaque eq_refl) in Ht. injection Ht as <-.
      apply hex_string_plain_read_back; assumption.
    + unfold rgba_to_hex in Ht. rewrite Hr, Hg, Hb in Ht. cbn [bind] in Ht.
      fold alpha in Ht. rewrite Hlt in Ht. discriminate Ht.
  - intros H. apply (Hdefault "r" ri H Hr).
  - intros H. apply (Hdefault "g" gi H Hg).
  - intros H. apply (Hdefault "b" bi H Hb).
  - repeat split; vm_compute; reflexivity.
Qed.

Lemma rgba_to_hex_spec_witness :
  exists a2,
    to_two_decimals 0.5 a2
    /\ rgba_to_hex translucent_blue
       = Ok ("rgba(" ++ str_of_int 0 ++ ", " ++ str_of_int 0 ++ ", "
               ++ str_of_int 255 ++ ", " ++ a2 ++ ")").
Proof.
  destruct (rgba_to_hex_spec translucent_blue 0 0 255) as (_ & _ & _ & H & _);
    [reflexivity | reflexivity | reflexivity |].
  apply H; reflexivity.
Defined.

(** ** [hex_to_rgb] on colour texts *)

(** X1: [hex_to_rgb] reads back what [ColorValue.hex] writes, in its
    [#rrggbb] form and in its [rgba(...)] form alike, for channels that
    scale to bytes. *)
Theorem hex_to_rgb_inverts_hex (c : ColorValue.t) (s : string) (r g b : Z) :
  ColorValue.rgb_ints c = Ok (r, g, b) ->
  0 <= r <= 255 -> 0 <= g <= 255 -> 0 <= b <= 255 ->
  ColorValue.hex c = Ok s ->
  hex_to_rgb s = Ok (r, g, b).
Proof.
  intros Hints Hr Hg Hb Hhex.
  unfold ColorValue.rgb_ints in Hints. unfold ColorValue.hex in Hhex.
  destruct (channel_int (ColorValue.r c)) as [ri|]; cbn [bind] in *; [|discriminate].
  destruct (channel_int (ColorValue.g c)) as [gi|]; cbn [bind] in *; [|discriminate].
  destruct (channel_int (ColorValue.b c)) as [bi|]; cbn [bind] in *; [|discriminate].
  inversion Hints; subst ri gi bi.
  destruct (lt_const (ColorValue.a c) 1) as [[|]|]; cbn [bind] in Hhex;
    [| |discriminate].
  - apply (rgba_string_read_back r g b (ColorValue.a c) s Hr Hg Hb Hhex).
  - inversion Hhex. apply hex_string_plain_read_back; assumption.
Qed.

Lemma hex_to_rgb_inverts_hex_witness :
  hex_to_rgb "rgba(0, 127, 255, 0.50)" = Ok (0, 127, 255).
Proof.
  apply (hex_to_rgb_inverts_hex
           (ColorValue.mk (VInt 0) (VFloat 0.5) (VInt 1) (VFloat 0.5))
           "rgba(0, 127, 255, 0.50)" 0 127 255);
    (reflexivity || lia).
Defined.

(** X2: a three-digit colour stands for the six-digit colour with each
    digit doubled: every channel is 17 times its digit. *)
Theorem hex_to_rgb_shorthand_digits (a b c : ascii) :
  is_hex_digit a = true -> is_hex_digit b = true -> is_hex_digit c = true ->
  hex_to_rgb (String "#" (String a (String b (String c EmptyString))))
  = Ok (17 * hex_digit_value a, 17 * hex_digit_value b, 17 * hex_digit_value c)
  /\ hex_to_rgb (String "#" (String a (String b (String c EmptyString))))
     = hex_to_rgb (String "#" (String a (String a (String b (String b
                     (String c (String c EmptyString))))))).
Proof.
  intros Ha Hb Hc.
  assert (Hv : forall x, is_hex_digit x = true ->
                 pair_value x x = 17 * hex_digit_value x).
  { intros x Hx. unfold pair_value, hex_digit_value, is_hex_digit in *.
    destruct (digit_value x); [lia|discriminate]. }
  destruct (hex_digit_plain a Ha) as (Sa & Na & _).
  destruct (hex_digit_plain b Hb) as (Sb & _).
  destruct (hex_digit_plain c Hc) as (Sc & _).
  assert (E3 : hex_to_rgb (String "#" (String a (String b (String c EmptyString))))
               = Ok (pair_value a a, pair_value b b, pair_value c c)).
  { assert (Hs : strip (String "#" (String a (String b (String c EmptyString))))
                 = String "#" (String a (String b (String c EmptyString)))).
    { apply strip_id. cbn [all_chars]. change (isspace "#") with false.
      rewrite Sa, Sb, Sc. reflexivity. }
    rewrite hex_to_rgb_not_rgba by (rewrite Hs; reflexivity).
    unfold hex_portion. rewrite Hs. unfold lstrip_char. cbn [lstrip_by].
    change (Ascii.eqb "#" "#") with true. cbv iota. rewrite Na.
    apply hex_portion_rgb_three; assumption. }
  assert (E6 : hex_to_rgb (String "#" (String a (String a (String b (String b
                            (String c (String c EmptyString)))))))
               = Ok (pair_value a a, pair_value b b, pair_value c c)).
  { destruct (strip_hash_six a a b b c c Ha Hc) as [Hs Hp].
    rewrite hex_to_rgb_not_rgba by (rewrite Hs; reflexivity).
    rewrite Hp. apply hex_portion_rgb_six; assumption. }
  rewrite E6, E3, !Hv by assumption. split; reflexivity.
Qed.

Lemma hex_to_rgb_shorthand_digits_witness :
  hex_to_rgb "#fA3" = Ok (17 * 15, 17 * 10, 17 * 3).
Proof.
  apply (hex_to_rgb_shorthand_digits "f" "A" "3"); reflexivity.
Defined.

(** X3: only the first six digits count: whatever follows the [#rrggbb] of
    a triple of bytes (an alpha pair, say) does not change the result. *)
Theorem hex_to_rgb_ignores_suffix (r g b : Z) (suffix : string) :
  0 <= r <= 255 -> 0 <= g <= 255 -> 0 <= b <= 255 ->
  hex_to_rgb (hex_string r g b ++ suffix) = Ok (r, g, b).
Proof.
  intros Hr Hg Hb.
  destruct (hex_string_digits r g b Hr Hg Hb)
    as (c0 & c1 & c2 & c3 & c4 & c5 & E & Hd & Vr & Vg & Vb).
  rewrite E. cbn [forallb] in Hd.
  apply andb_prop in Hd. destruct Hd as [H0 Hd].
  apply andb_prop in Hd. destruct Hd as [H1 Hd].
  apply andb_prop in Hd. destruct Hd as [H2 Hd].
  apply andb_prop in Hd. destruct Hd as [H3 Hd].
  apply andb_prop in Hd. destruct Hd as [H4 Hd].
  apply andb_prop in Hd. destruct Hd as [H5 _].
  set (body := String "#" (String c0 (String c1 (String c2 (String c3
                 (String c4 (String c5 EmptyString))))))).
  assert (Hns : all_chars (fun c => negb (isspace c)) body = true).
  { unfold body. cbn [all_chars]. change (isspace "#") with false.
    destruct (hex_digit_plain c0 H0) as (-> & _).
    destruct (hex_digit_plain c1 H1) as (-> & _).
    destruct (hex_digit_plain c2 H2) as (-> & _).
    destruct (hex_digit_plain c3 H3) as (-> & _).
    destruct (hex_digit_plain c4 H4) as (-> & _).
    destruct (hex_digit_plain c5 H5) as (-> & _). reflexivity. }
  assert (Hs : strip (body ++ suffix) = body ++ rstrip_by isspace suffix).
  { unfold strip.
    assert (Hl : lstrip_by isspace (body ++ suffix) = body ++ suffix).
    { unfold body. cbn [append lstrip_by]. change (isspace "#") with false.
      reflexivity. }
    rewrite Hl, rstrip_by_app.
    destruct (rstrip_by isspace suffix) as [|x t] eqn:Et.
    - rewrite (rstrip_by_id isspace body Hns).
      unfold body. cbn [append]. reflexivity.
    - reflexivity. }
  rewrite hex_to_rgb_not_rgba by (rewrite Hs; reflexivity).
  unfold hex_portion. rewrite Hs. unfold body, lstrip_char.
  cbn [append lstrip_by]. change (Ascii.eqb "#" "#") with true. cbv iota.
  cbn [lstrip_by].
  destruct (hex_digit_plain c0 H0) as (_ & -> & _).
  rewrite hex_portion_rgb_six by assumption.
  rewrite Vr, Vg, Vb. reflexivity.
Qed.

Lemma hex_to_rgb_ignores_suffix_witness :
  hex_to_rgb (hex_string 1 2 3 ++ "80 ?") = Ok (1, 2, 3).
Proof. apply (hex_to_rgb_ignores_suffix 1 2 3 "80 ?"); lia. Defined.

(** X4: the leading [#] is optional: for text without leading blanks that is
    not an [rgba] string, putting a [#] in front changes nothing. *)
Theorem hex_to_rgb_hash_optional (s : string) :
  lstrip_by isspace s = s ->
  startswith "rgba" (strip s) = false ->
  hex_to_rgb (String "#" s) = hex_to_rgb s.
Proof.
  intros Hl Hrgba.
  assert (Hs : strip s = rstrip_by isspace s) by (unfold strip; rewrite Hl; reflexivity).
  assert (Hh : strip (String "#" s)
               = match rstrip_by isspace s with
                 | EmptyString => String "#" EmptyString
                 | t => String "#" t
                 end).
  { unfold strip. cbn [lstrip_by]. change (isspace "#") with false. cbv iota.
    cbn [rstrip_by]. change (isspace "#") with false.
    destruct (rstrip_by isspace s); reflexivity. }
  rewrite (hex_to_rgb_not_rgba s Hrgba).
  rewrite hex_to_rgb_not_rgba.
  2:{ rewrite Hh. destruct (rstrip_by isspace s); reflexivity. }
  f_equal. unfold hex_portion. rewrite Hh, Hs. unfold lstrip_char.
  destruct (rstrip_by isspace s) as [|x t]; cbn [lstrip_by];
    change (Ascii.eqb "#" "#") with true; reflexivity.
Qed.

Lemma hex_to_rgb_hash_optional_witness :
  hex_to_rgb "#a1b2c3 " = hex_to_rgb "a1b2c3 ".
Proof. apply (hex_to_rgb_hash_optional "a1b2c3 "); reflexivity. Defined.

Lemma eq_str_true (v : value) (s : string) : eq_str v s = true -> v = VStr s.
Proof.
  destruct v; try discriminate. cbn [eq_str]. intros H.
  apply String.eqb_eq in H. subst. reflexivity.
Qed.

(** ** [ColorValue.from_figma] *)

(** X5: the text of a colour made by [from_figma] is [rgba_to_hex] of the
    colour record, where an opacity below 1 stands in for the record's own
    alpha and any other opacity is ignored. *)
Theorem hex_from_figma (color : dict) (opacity : value) (below : bool) :
  lt_const opacity 1 = Ok below ->
  bind (ColorValue.from_figma (VDict color) opacity) ColorValue.hex
  = rgba_to_hex (if below then ("a", opacity) :: color else color).
Proof.
  intros H. unfold ColorValue.from_figma. cbn [vget bind]. rewrite H. cbn [bind].
  destruct below.
  - cbn [bind]. unfold ColorValue.hex, rgba_to_hex. cbn [ColorValue.r ColorValue.g
      ColorValue.b ColorValue.a].
    change (get (("a", opacity) :: color) "r" (VInt 0)) with (get color "r" (VInt 0)).
    change (get (("a", opacity) :: color) "g" (VInt 0)) with (get color "g" (VInt 0)).
    change (get (("a", opacity) :: color) "b" (VInt 0)) with (get color "b" (VInt 0)).
    change (get (("a", opacity) :: color) "a" (VInt 1)) with opacity.
    reflexivity.
  - cbn [bind]. unfold ColorValue.hex, rgba_to_hex. cbn [ColorValue.r ColorValue.g
      ColorValue.b ColorValue.a].
    destruct (channel_int (get color "r" (VInt 0))); cbn [bind]; [|reflexivity].
    destruct (channel_int (get color "g" (VInt 0))); cbn [bind]; [|reflexivity].
    destruct (channel_int (get color "b" (VInt 0))); cbn [bind]; [|reflexivity].
    unfold get. destruct (lookup color "a"); reflexivity.
Qed.

Lemma hex_from_figma_witness :
  bind (ColorValue.from_figma (VDict [("r", VInt 1); ("a", VFloat 0.5)]) (VFloat 0.25))
       ColorValue.hex
  = rgba_to_hex [("a", VFloat 0.25); ("r", VInt 1); ("a", VFloat 0.5)].
Proof.
  apply (hex_from_figma [("r", VInt 1); ("a", VFloat 0.5)] (VFloat 0.25) true).
  reflexivity.
Defined.

(** ** [parse_fills] *)

Lemma eq_str_get_opt (d : dict) (k s : string) :
  s <> "" -> eq_str (get_opt d k) s = eq_str (get d k (VStr "")) s.
Proof.
  intros Hs. unfold get_opt, get. destruct (lookup d k); [reflexivity|].
  cbn [eq_str]. symmetry. apply String.eqb_neq. intros E. apply Hs. symmetry. exact E.
Qed.

(** What one iteration of [parse_fills] appends, field by field. *)
Lemma fill_layer_fields (e : value) (o : option FillLayer.t) :
  fill_layer e = Ok o ->
  match o with
  | None => entry_visible e = false
  | Some l =>
      entry_visible e = true
      /\ FillLayer.type l = entry_field "type" (VStr "") e
      /\ FillLayer.opacity l = entry_field "opacity" (VFloat 1) e
      /\ FillLayer.visible l = entry_field "visible" (VBool true) e
      /\ payload_by_type l
  end.
Proof.
  destruct e as [| | | | | |d]; try discriminate. cbn [fill_layer entry_visible entry_field].
  destruct (truthy (get d "visible" (VBool true))) eqn:Hv; cbn [negb].
  2:{ intros H. inversion H. reflexivity. }
  destruct (eq_str (get d "type" (VStr "")) "SOLID") eqn:Hsolid.
  - destruct (ColorValue.from_figma _ _); cbn [bind]; [|discriminate].
    intros H. inversion H. unfold payload_by_type. cbn.
    repeat split. apply eq_str_true, Hsolid.
  - destruct (contains "GRADIENT" _) as [[|]|] eqn:Hc; cbn [bind]; [| |discriminate].
    + unfold gradient_def.
      destruct (iter _); cbn [bind]; [|discriminate].
      destruct (mapM gradient_stop _); cbn [bind]; [|discriminate].
      destruct (get d "type" (VStr "")) as [| | | |t| |] eqn:Ht;
        cbn [vreplace bind]; try discriminate.
      intros H. inversion H. unfold payload_by_type. cbn.
      do 4 (split; [reflexivity|]). split; [reflexivity|].
      exists t. split; [reflexivity|]. split; [|split; [|reflexivity]].
      * intros E. subst t. discriminate Hsolid.
      * cbn [contains] in Hc. injection Hc as Hc. exact Hc.
    + destruct (eq_str _ "IMAGE") eqn:Hi; intros H; injection H as <-.
      * unfold payload_by_type. cbn.
        destruct (get d "imageRef" (VStr "")) eqn:Hr;
          repeat split; auto; try (apply eq_str_true, Hi); try discriminate.
        intros Hn. rewrite Hi in Hn. discriminate Hn.
      * unfold payload_by_type. cbn. repeat split; auto.
Qed.

(** X6: [parse_fills] returns one layer for each visible fill, in the order
    of the fills, carrying the fill's type, opacity and visible flag. *)
Theorem parse_fills_in_order (node : dict) (entries : list value)
        (layers : list FillLayer.t) :
  lookup node "fills" = Some (VList entries) ->
  parse_fills node = Ok layers ->
  map FillLayer.type layers
  = map (entry_field "type" (VStr "")) (filter entry_visible entries)
  /\ map FillLayer.opacity layers
     = map (entry_field "opacity" (VFloat 1)) (filter entry_visible entries)
  /\ map FillLayer.visible layers
     = map (entry_field "visible" (VBool true)) (filter entry_visible entries).
Proof.
  intros H Hl. unfold parse_fills, get in Hl. rewrite H in Hl.
  cbn [iter bind] in Hl. clear H. revert layers Hl.
  induction entries as [|e entries IH]; cbn [collect filter map]; intros layers Hl.
  - inversion Hl. repeat split.
  - destruct (fill_layer e) as [o|] eqn:Ee; cbn [bind] in Hl; [|discriminate].
    destruct (collect fill_layer entries) as [rest|]; cbn [bind] in Hl; [|discriminate].
    specialize (IH rest eq_refl). destruct IH as (IH1 & IH2 & IH3).
    pose proof (fill_layer_fields e o Ee) as Hf.
    inversion Hl; subst layers. destruct o as [l|].
    + destruct Hf as (Hv & Ht & Ho & Hvis & _). rewrite Hv. cbn [map].
      rewrite Ht, Ho, Hvis, IH1, IH2, IH3. repeat split.
    + rewrite Hf. auto.
Qed.

Lemma parse_fills_in_order_witness :
  map FillLayer.type
      [FillLayer.mk (VStr "SOLID")
         (Some (ColorValue.mk (VInt 1) (VInt 0) (VInt 0) (VFloat 1)))
         None None (VStr "FILL") (VFloat 1) (VBool true)]
  = map (entry_field "type" (VStr "")) (filter entry_visible [solid_red; hidden_red]).
Proof.
  apply (parse_fills_in_order two_fills [solid_red; hidden_red]); reflexivity.
Defined.

(** The image reference and scale mode of the layer of one iteration. *)
Lemma fill_layer_image (e : value) (l : FillLayer.t) :
  fill_layer e = Ok (Some l) ->
  FillLayer.image_ref l = entry_image_ref e
  /\ FillLayer.scale_mode l = entry_scale_mode e.
Proof.
  destruct e as [| | | | | |d]; try discriminate.
  unfold entry_image_ref, entry_scale_mode. cbn [fill_layer entry_field].
  destruct (truthy (get d "visible" (VBool true))); cbn [negb]; [|discriminate].
  destruct (eq_str (get d "type" (VStr "")) "IMAGE") eqn:Hi.
  - apply eq_str_true in Hi. rewrite Hi.
    change (eq_str (VStr "IMAGE") "SOLID") with false.
    change (contains "GRADIENT" (VStr "IMAGE")) with (@Ok bool false).
    change (eq_str (VStr "IMAGE") "IMAGE") with true.
    cbn [bind]. intros H. injection H as <-.
    cbn [FillLayer.set_image FillLayer.image_ref FillLayer.scale_mode].
    split; [|reflexivity].
    destruct (get d "imageRef" (VStr "")); reflexivity.
  - destruct (eq_str (get d "type" (VStr "")) "SOLID").
    + destruct (ColorValue.from_figma _ _); cbn [bind]; [|discriminate].
      intros H. injection H as <-. split; reflexivity.
    + destruct (contains "GRADIENT" _) as [[|]|]; cbn [bind]; [| |discriminate].
      * destruct (gradient_def d _); cbn [bind]; [|discriminate].
        intros H. injection H as <-. split; reflexivity.
      * intros H. injection H as <-. split; reflexivity.
Qed.

(** X7: in every layer [parse_fills] returns at most one of colour,
    gradient and image reference is set, and the layer's type says which: a
    colour just for [SOLID], a gradient just for another string type that
    contains [GRADIENT], an image reference only for [IMAGE].  The image
    reference and the scale mode are those of the fill for an [IMAGE] fill,
    the reference staying unset when the fill's [imageRef] is null, and they
    are unset and [FILL] for every other fill. *)
Theorem parse_fills_payload (node : dict) (layers : list FillLayer.t) :
  parse_fills node = Ok layers ->
  Forall payload_by_type layers
  /\ (forall entries : list value,
        iter (get node "fills" (VList [])) = Ok entries ->
        map FillLayer.image_ref layers
        = map entry_image_ref (filter entry_visible entries)
        /\ map FillLayer.scale_mode layers
           = map entry_scale_mode (filter entry_visible entries))
  /\ parse_fills image_fills
     = Ok [FillLayer.mk (VStr "IMAGE") None None (Some (VStr "img")) (VStr "FIT")
             (VFloat 1) (VBool true);
           FillLayer.mk (VStr "IMAGE") None None None (VStr "FILL")
             (VFloat 1) (VBool true);
           FillLayer.mk (VStr "IMAGE") None None (Some (VStr EmptyString))
             (VStr "FILL") (VFloat 1) (VBool true)].
Proof.
  intros Hp. split; [|split].
  - revert Hp. unfold parse_fills.
    destruct (iter _) as [entries|]; cbn [bind]; [|discriminate].
    apply collect_Forall. intros x y Hxy.
    apply (fill_layer_fields x (Some y) Hxy).
  - intros entries He. unfold parse_fills in Hp. rewrite He in Hp.
    cbn [bind] in Hp. clear He. revert layers Hp.
    induction entries as [|e entries IH]; cbn [collect filter map]; intros layers Hl.
    + injection Hl as <-. split; reflexivity.
    + destruct (fill_layer e) as [o|] eqn:Ee; cbn [bind] in Hl; [|discriminate].
      destruct (collect fill_layer entries) as [rest|]; cbn [bind] in Hl;
        [|discriminate].
      specialize (IH rest eq_refl). destruct IH as [IH1 IH2].
      pose proof (fill_layer_fields e o Ee) as Hf.
      injection Hl as <-. destruct o as [l|].
      * destruct Hf as (Hv & _). rewrite Hv. cbn [map].
        destruct (fill_layer_image e l Ee) as [Hi Hm].
        rewrite Hi, Hm, IH1, IH2. split; reflexivity.
      * rewrite Hf. split; assumption.
  - vm_compute. reflexivity.
Qed.

Lemma parse_fills_payload_witness :
  Forall payload_by_type
    [FillLayer.mk (VStr "SOLID")
       (Some (ColorValue.mk (VInt 1) (VInt 0) (VInt 0) (VFloat 1)))
       None None (VStr "FILL") (VFloat 1) (VBool true)].
Proof. apply (parse_fills_payload two_fills). reflexivity. Defined.

Lemma replace_from_absent (old new s : string) :
  str_contains old s = false -> replace_from old new 0 s = s.
Proof.
  induction s as [|c s IH]; cbn [str_contains replace_from]; [reflexivity|].
  intros H. apply orb_false_elim in H. destruct H as [Hp Hs].
  rewrite Hp, (IH Hs). reflexivity.
Qed.

(** X8: a gradient fill of type [GRADIENT_t], where [t] has no further
    [GRADIENT_] in it, gives a gradient of type [t]; the layer itself keeps
    the full type. *)
Theorem parse_fills_gradient_prefix (node : dict) (layers : list FillLayer.t)
        (l : FillLayer.t) (t : string) :
  parse_fills node = Ok layers ->
  In l layers ->
  FillLayer.type l = VStr ("GRADIENT_" ++ t) ->
  str_contains "GRADIENT_" t = false ->
  exists gd, FillLayer.gradient l = Some gd /\ GradientDef.type gd = t
             /\ FillLayer.color l = None /\ FillLayer.image_ref l = None.
Proof.
  intros Hl Hin Ht Hno.
  assert (Hp : payload_by_type l).
  { unfold parse_fills in Hl.
    destruct (iter _) as [entries|]; cbn [bind] in Hl; [|discriminate].
    assert (HF : Forall payload_by_type layers).
    { apply (collect_Forall fill_layer payload_by_type entries layers); [|exact Hl].
      intros x y Hxy. apply (fill_layer_fields x (Some y) Hxy). }
    rewrite Forall_forall in HF. apply HF, Hin. }
  unfold payload_by_type in Hp. rewrite Ht in Hp.
  destruct (FillLayer.color l), (FillLayer.gradient l) as [gd'|],
           (FillLayer.image_ref l); try contradiction.
  - destruct Hp as [Hp _]. discriminate Hp.
  - destruct Hp as (_ & t' & Et & _ & _ & Hg). inversion Et; subst t'.
    exists gd'. repeat split. rewrite Hg.
    etransitivity; [exact (replace_from_prefix "G" "RADIENT_" "" t)|].
    cbn [append]. apply replace_from_absent, Hno.
  - destruct Hp as [Hp _]. discriminate Hp.
  - destruct Hp as (_ & Hc & _). cbn in Hc. discriminate Hc.
Qed.

Lemma parse_fills_gradient_prefix_witness :
  exists gd,
    FillLayer.gradient radial_layer = Some gd /\ GradientDef.type gd = "RADIAL"
    /\ FillLayer.color radial_layer = None /\ FillLayer.image_ref radial_layer = None.
Proof.
  apply (parse_fills_gradient_prefix [("fills", VList [radial_fill])]
           [radial_layer] radial_layer "RADIAL");
    [reflexivity | left; reflexivity | reflexivity | reflexivity].
Defined.

Lemma from_figma_total (color opacity : value) :
  is_record color = true -> is_number opacity = true ->
  exists c, ColorValue.from_figma color opacity = Ok c.
Proof.
  destruct color; try discriminate. intros _ Hn.
  unfold ColorValue.from_figma. cbn [vget bind].
  destruct opacity; try discriminate Hn; cbn [lt_const bind];
    match goal with |- context [if ?b then _ else _] => destruct b end;
    cbn [bind]; eexists; reflexivity.
Qed.

Lemma gradient_stops_total (stops : list value) :
  forallb well_formed_stop stops = true ->
  exists out, mapM gradient_stop stops = Ok out.
Proof.
  induction stops as [|s stops IH]; cbn [forallb mapM].
  - intros _. eexists. reflexivity.
  - intros H. apply andb_prop in H. destruct H as [Hs Hrest].
    destruct (IH Hrest) as [out Eout]. rewrite Eout.
    destruct s as [| | | | | |d]; try discriminate Hs.
    cbn [well_formed_stop] in Hs. unfold gradient_stop. cbn [vget bind].
    destruct (get d "color" (VDict [])); try discriminate Hs.
    cbn [vget bind]. eexists. reflexivity.
Qed.

Lemma fill_layer_total (e : value) :
  well_formed_paint e = true -> exists o, fill_layer e = Ok o.
Proof.
  destruct e as [| | | | | |d]; try discriminate. cbn [well_formed_paint fill_layer].
  destruct (negb (truthy (get d "visible" (VBool true)))); cbn [orb].
  { intros _. eexists. reflexivity. }
  destruct (get d "type" (VStr "")) as [| | | |t| |]; try discriminate.
  cbn [eq_str contains bind]. destruct (String.eqb t "SOLID").
  - intros H. apply andb_prop in H. destruct H as [Hc Ho].
    destruct (from_figma_total _ _ Hc Ho) as [c Ec]. rewrite Ec. cbn [bind].
    eexists. reflexivity.
  - destruct (str_contains "GRADIENT" t).
    + unfold gradient_def.
      destruct (get d "gradientStops" (VList [])) as [| | | | |stops|];
        try discriminate.
      intros H. cbn [iter bind].
      destruct (gradient_stops_total stops H) as [out Eout]. rewrite Eout.
      cbn [bind vreplace]. eexists. reflexivity.
    + intros _. destruct (String.eqb t "IMAGE"); eexists; reflexivity.
Qed.

Lemma collect_total {A B} (body : A -> result (option B)) (ok : A -> bool)
      (l : list A) :
  (forall x, ok x = true -> exists o, body x = Ok o) ->
  forallb ok l = true -> exists out, collect body l = Ok out.
Proof.
  intros Hok. induction l as [|x l IH]; cbn [forallb collect].
  - intros _. eexists. reflexivity.
  - intros H. apply andb_prop in H. destruct H as [Hx Hl].
    destruct (Hok x Hx) as [o Eo]. destruct (IH Hl) as [out Eout].
    rewrite Eo, Eout. cbn [bind]. eexists. reflexivity.
Qed.

(** The loop of [parse_stroke] does what the loop of [parse_fills] does,
    then forces the layer visible and drops the image data. *)
Lemma stroke_layer_fill_layer (e : value) :
  stroke_layer e
  = bind (fill_layer e) (fun o => Ok (option_map as_stroke_layer o)).
Proof.
  destruct e as [| | | | | |d]; try reflexivity. cbn [stroke_layer fill_layer].
  destruct (negb (truthy (get d "visible" (VBool true)))); [reflexivity|].
  destruct (eq_str (get d "type" (VStr "")) "SOLID").
  - destruct (ColorValue.from_figma _ _); reflexivity.
  - destruct (contains "GRADIENT" _) as [[|]|]; cbn [bind]; try reflexivity.
    + destruct (gradient_def _ _); reflexivity.
    + destruct (eq_str _ "IMAGE"); reflexivity.
Qed.

Lemma collect_stroke_layer (entries : list value) :
  collect stroke_layer entries
  = bind (collect fill_layer entries) (fun ls => Ok (map as_stroke_layer ls)).
Proof.
  induction entries as [|e entries IH]; cbn [collect]; [reflexivity|].
  rewrite stroke_layer_fill_layer, IH.
  destruct (fill_layer e) as [o|]; cbn [bind]; [|reflexivity].
  destruct (collect fill_layer entries) as [ls|]; cbn [bind]; [|reflexivity].
  destruct o; reflexivity.
Qed.

(** X9: on a node whose fills are well-formed paints [parse_fills] raises
    nothing; likewise [parse_stroke], when the per-side weights are absent
    or a record. *)
Theorem parsers_total_on_well_formed (node : dict) :
  (forall entries,
      get node "fills" (VList []) = VList entries ->
      forallb well_formed_paint entries = true ->
      exists layers, parse_fills node = Ok layers)
  /\ (forall entries,
        get node "strokes" (VList []) = VList entries ->
        forallb well_formed_paint entries = true ->
        truthy (get_opt node "individualStrokeWeights") = false
        \/ is_record (get_opt node "individualStrokeWeights") = true ->
        exists stroke, parse_stroke node = Ok stroke).
Proof.
  split.
  - intros entries H Hwf. unfold parse_fills. rewrite H. cbn [iter bind].
    apply (collect_total fill_layer well_formed_paint entries fill_layer_total Hwf).
  - intros entries H Hwf Hiw. unfold parse_stroke. rewrite !H.
    destruct (negb (truthy (VList entries)) || _); [eexists; reflexivity|].
    cbn [iter bind]. rewrite collect_stroke_layer.
    destruct (collect_total fill_layer well_formed_paint entries fill_layer_total Hwf)
      as [ls Els].
    rewrite Els. cbn [bind]. destruct (map as_stroke_layer ls); [eexists; reflexivity|].
    unfold individual_weights_of. destruct Hiw as [Hf | Hr].
    + rewrite Hf. cbn [bind]. eexists. reflexivity.
    + destruct (get_opt node "individualStrokeWeights"); try discriminate Hr.
      destruct (truthy (VDict d)); cbn [vget bind]; eexists; reflexivity.
Qed.

Lemma parsers_total_on_well_formed_witness :
  exists layers, parse_fills [("fills", VList [solid_red; radial_fill; hidden_red])]
                 = Ok layers.
Proof.
  apply (proj1 (parsers_total_on_well_formed
                  [("fills", VList [solid_red; radial_fill; hidden_red])])
           [solid_red; radial_fill; hidden_red]); reflexivity.
Defined.

(** X10: the colour layers of a stroke are what [parse_fills] makes of the
    same entries, each forced visible and without image data; an error of
    the one is an error of the other. *)
Theorem parse_stroke_like_fills (node : dict) (entries : list value) :
  get node "strokes" (VList []) = VList entries ->
  entries <> [] ->
  eq_const (get node "strokeWeight" (VInt 0)) 0 = false ->
  match parse_fills [("fills", VList entries)] with
  | Raise e => parse_stroke node = Raise e
  | Ok [] => parse_stroke node = Ok None
  | Ok layers =>
      parse_stroke node <> Ok None
      /\ forall si, parse_stroke node = Ok (Some si) ->
                    StrokeInfo.colors si = map as_stroke_layer layers
  end.
Proof.
  intros H Hne Hw. unfold parse_fills, parse_stroke.
  change (get [("fills", VList entries)] "fills" (VList [])) with (VList entries).
  rewrite !H, Hw. cbn [iter bind].
  destruct entries as [|e0 entries0]; [contradiction|].
  cbn [truthy negb orb]. rewrite collect_stroke_layer.
  destruct (collect fill_layer (e0 :: entries0)) as [layers|]; cbn [bind];
    [|reflexivity].
  destruct layers as [|l layers]; [reflexivity|]. cbn [map].
  destruct (individual_weights_of _); cbn [bind].
  - split; [discriminate|]. intros si Hsi. inversion Hsi. reflexivity.
  - split; discriminate.
Qed.

Lemma parse_stroke_like_fills_witness :
  match parse_fills [("fills", VList [solid_red; hidden_red])] with
  | Raise e =>
      parse_stroke [("strokes", VList [solid_red; hidden_red]); ("strokeWeight", VInt 2)]
      = Raise e
  | Ok [] =>
      parse_stroke [("strokes", VList [solid_red; hidden_red]); ("strokeWeight", VInt 2)]
      = Ok None
  | Ok layers =>
      parse_stroke [("strokes", VList [solid_red; hidden_red]); ("strokeWeight", VInt 2)]
      <> Ok None
      /\ forall si,
           parse_stroke [("strokes", VList [solid_red; hidden_red]); ("strokeWeight", VInt 2)]
           = Ok (Some si) ->
           StrokeInfo.colors si = map as_stroke_layer layers
  end.
Proof.
  apply (parse_stroke_like_fills
           [("strokes", VList [solid_red; hidden_red]); ("strokeWeight", VInt 2)]
           [solid_red; hidden_red]);
    [reflexivity | discriminate | reflexivity].
Defined.

(** X11: a [StrokeInfo] that is returned has the node's stroke weight, which
    is present and not 0, and its per-side weights, when set, are exactly
    [top], [right], [bottom], [left]; they are set just when the node's
    [individualStrokeWeights] is a non-empty record. *)
Theorem parse_stroke_info (node : dict) (si : StrokeInfo.t) :
  parse_stroke node = Ok (Some si) ->
  StrokeInfo.weight si = get node "strokeWeight" (VInt 0)
  /\ lookup node "strokeWeight" <> None
  /\ eq_const (StrokeInfo.weight si) 0 = false
  /\ truthy (get node "strokes" (VList [])) = true
  /\ StrokeInfo.dashes si = get node "strokeDashes" (VList [])
  /\ match StrokeInfo.individual_weights si with
     | Some d =>
         map fst d = ["top"; "right"; "bottom"; "left"]
         /\ exists iw, get_opt node "individualStrokeWeights" = VDict iw /\ iw <> []
                       /\ map snd d = map (fun k => get iw k (VInt 0))
                                          ["top"; "right"; "bottom"; "left"]
     | None => truthy (get_opt node "individualStrokeWeights") = false
     end.
Proof.
  intros H. unfold parse_stroke in H.
  destruct (truthy (get node "strokes" (VList []))) eqn:Hs; cbn [negb orb] in H;
    [|discriminate].
  destruct (eq_const (get node "strokeWeight" (VInt 0)) 0) eqn:Hw; [discriminate|].
  destruct (iter _) as [entries|]; cbn [bind] in H; [|discriminate].
  destruct (collect stroke_layer entries) as [colors|]; cbn [bind] in H;
    [|discriminate].
  destruct colors as [|layer colors]; [discriminate|].
  unfold individual_weights_of in H.
  destruct (truthy (get_opt node "individualStrokeWeights")) eqn:Hiw.
  - destruct (get_opt node "individualStrokeWeights") as [| | | | | |iw] eqn:Eiw;
      cbn [vget bind] in H; try discriminate.
    inversion H. cbn. rewrite Hw.
    repeat split; try reflexivity.
    + intros E. unfold get in Hw. rewrite E in Hw. discriminate Hw.
    + exists iw. repeat split.
      intros E. subst iw. discriminate Hiw.
  - cbn [bind] in H. inversion H. cbn. rewrite Hw.
    repeat split; try reflexivity.
    intros E. unfold get in Hw. rewrite E in Hw. discriminate Hw.
Qed.

Lemma parse_stroke_info_witness :
  VInt 2 = get [("strokes", VList [solid_red]); ("strokeWeight", VInt 2)]
               "strokeWeight" (VInt 0).
Proof.
  eapply (proj1 (parse_stroke_info
                   [("strokes", VList [solid_red]); ("strokeWeight", VInt 2)]
                   (StrokeInfo.mk (VInt 2)
                      [FillLayer.mk (VStr "SOLID")
                         (Some (ColorValue.mk (VInt 1) (VInt 0) (VInt 0) (VFloat 1)))
                         None None (VStr "FILL") (VFloat 1) (VBool true)]
                      (VStr "INSIDE") (VStr "NONE") (VStr "MITER") (VList []) None)
                   eq_refl)).
Defined.

(** ** [parse_effects] *)

Lemma effect_entry_kind (e : value) (o : effect) :
  effect_entry e = Ok o ->
  match o with
  | NoEffect => shadow_entry e = false /\ blur_entry e = false
  | Shadow s =>
      shadow_entry e = true /\ blur_entry e = false
      /\ ShadowEffect.type s = entry_field "type" (VStr "") e
      /\ ShadowEffect.radius s = entry_field "radius" (VInt 0) e
      /\ ShadowEffect.spread s = entry_field "spread" (VInt 0) e
  | Blur b =>
      blur_entry e = true /\ shadow_entry e = false
      /\ BlurEffect.type b = entry_field "type" (VStr "") e
      /\ BlurEffect.radius b = entry_field "radius" (VInt 0) e
  end.
Proof.
  destruct e as [| | | | | |d]; try discriminate.
  unfold shadow_entry, blur_entry. cbn [effect_entry entry_visible entry_field].
  destruct (truthy (get d "visible" (VBool true))); cbn [negb andb].
  2:{ intros H. inversion H. split; reflexivity. }
  destruct (get d "type" (VStr "")) as [| | | |t| |] eqn:Ht; cbn [eq_str orb];
    try (intros H; inversion H; split; reflexivity).
  destruct (String.eqb t "DROP_SHADOW") eqn:E1; cbn [orb].
  { apply String.eqb_eq in E1. subst t.
    repeat (match goal with
            | |- bind ?x _ = Ok _ -> _ => destruct x; cbn [bind]; [|discriminate]
            end).
    intros H. inversion H. cbn. repeat split. }
  destruct (String.eqb t "INNER_SHADOW") eqn:E2; cbn [orb].
  { apply String.eqb_eq in E2. subst t.
    repeat (match goal with
            | |- bind ?x _ = Ok _ -> _ => destruct x; cbn [bind]; [|discriminate]
            end).
    intros H. inversion H. cbn. repeat split. }
  destruct (String.eqb t "LAYER_BLUR" || String.eqb t "BACKGROUND_BLUR");
    intros H; inversion H; cbn; repeat split.
Qed.

(** X12: the shadows [parse_effects] returns are the visible entries of type
    [DROP_SHADOW] or [INNER_SHADOW], the blurs the visible entries of type
    [LAYER_BLUR] or [BACKGROUND_BLUR], each in the order of the effects and
    with the entry's type and radius; entries of any other type are left
    out. *)
Theorem parse_effects_by_type (node : dict) (entries : list value)
        (shadows : list ShadowEffect.t) (blurs : list BlurEffect.t) :
  lookup node "effects" = Some (VList entries) ->
  parse_effects node = Ok (shadows, blurs) ->
  map ShadowEffect.type shadows
  = map (entry_field "type" (VStr "")) (filter shadow_entry entries)
  /\ map ShadowEffect.radius shadows
     = map (entry_field "radius" (VInt 0)) (filter shadow_entry entries)
  /\ map BlurEffect.type blurs
     = map (entry_field "type" (VStr "")) (filter blur_entry entries)
  /\ map BlurEffect.radius blurs
     = map (entry_field "radius" (VInt 0)) (filter blur_entry entries).
Proof.
  intros H Hp. unfold parse_effects, get in Hp. rewrite H in Hp.
  cbn [iter bind] in Hp. clear H. revert shadows blurs Hp.
  induction entries as [|e entries IH]; cbn [effects_loop filter];
    intros shadows blurs Hp.
  - inversion Hp. repeat split.
  - destruct (effect_entry e) as [o|] eqn:Ee; cbn [bind] in Hp; [|discriminate].
    destruct (effects_loop entries) as [[sh bl]|]; cbn [bind] in Hp; [|discriminate].
    destruct (IH sh bl eq_refl) as (I1 & I2 & I3 & I4).
    pose proof (effect_entry_kind e o Ee) as Hk.
    destruct o as [|s|b]; inversion Hp; subst shadows blurs; cbn [fst snd].
    + destruct Hk as [-> ->]. auto.
    + destruct Hk as (-> & -> & Ht & Hr & _). cbn [map].
      rewrite Ht, Hr, I1, I2. auto.
    + destruct Hk as (-> & -> & Ht & Hr). cbn [map].
      rewrite Ht, Hr, I3, I4. auto.
Qed.

Lemma parse_effects_by_type_witness :
  exists shadows blurs,
    parse_effects [("effects", VList sample_effects)] = Ok (shadows, blurs)
    /\ map ShadowEffect.type shadows
       = map (entry_field "type" (VStr "")) (filter shadow_entry sample_effects)
    /\ map BlurEffect.radius blurs
       = map (entry_field "radius" (VInt 0)) (filter blur_entry sample_effects).
Proof.
  eexists. eexists. split; [vm_compute; reflexivity|].
  split;
    eapply (parse_effects_by_type [("effects", VList sample_effects)] sample_effects);
    reflexivity.
Defined.

(** ** [parse_layout] *)

(** X13: [parse_layout] gives nothing exactly when [layoutMode] is absent,
    empty or [NONE]; a [LayoutInfo] it gives carries the node's mode, which
    is never [NONE], and the node's [itemSpacing] as gap. *)
Theorem parse_layout_mode (node : dict) :
  (parse_layout node = None <->
   truthy (get_opt node "layoutMode") = false
   \/ get_opt node "layoutMode" = VStr "NONE")
  /\ (forall li, parse_layout node = Some li ->
        LayoutInfo.mode li = get_opt node "layoutMode"
        /\ LayoutInfo.mode li <> VStr "NONE"
        /\ truthy (LayoutInfo.mode li) = true
        /\ LayoutInfo.gap li = get node "itemSpacing" (VInt 0)
        /\ (lookup node "layoutWrap" = None -> LayoutInfo.wrap li = VStr "NO_WRAP")).
Proof.
  unfold parse_layout.
  destruct (truthy (get_opt node "layoutMode")) eqn:Ht; cbn [negb orb].
  - destruct (eq_str (get_opt node "layoutMode") "NONE") eqn:En.
    + split.
      * split; [intros _; right; apply eq_str_true, En | reflexivity].
      * intros li H. discriminate H.
    + split.
      * split; [discriminate|]. intros [H|H]; [discriminate|].
        rewrite H in En. discriminate En.
      * intros li H. inversion H. cbn. repeat split.
        -- intros E. rewrite E in En. discriminate En.
        -- exact Ht.
        -- intros Hw. unfold get. rewrite Hw. reflexivity.
  - split.
    + split; [intros _; left; reflexivity | reflexivity].
    + intros li H. discriminate H.
Qed.

Lemma parse_layout_mode_witness :
  LayoutInfo.mode
    (LayoutInfo.mk (VStr "HORIZONTAL") (VInt 8) (VInt 0) (VInt 0) (VInt 0) (VInt 0)
       (VStr "MIN") (VStr "MIN") (VStr "AUTO") (VStr "AUTO") (VStr "NO_WRAP"))
  = get_opt [("layoutMode", VStr "HORIZONTAL"); ("itemSpacing", VInt 8)] "layoutMode".
Proof.
  eapply (proj2 (parse_layout_mode
                   [("layoutMode", VStr "HORIZONTAL"); ("itemSpacing", VInt 8)])).
  reflexivity.
Defined.

(** ** [parse_style_bundle] *)

(** X14: [parse_style_bundle] returns a bundle exactly when the four parsers
    return and the bounding box is a record, and the bundle holds their
    results; an error of [parse_effects] comes before any other. *)
Theorem parse_style_bundle_parts (node : dict) :
  (forall sb : StyleBundle.t,
      parse_style_bundle node = Ok sb <->
      parse_effects node = Ok (StyleBundle.shadows sb, StyleBundle.blurs sb)
      /\ parse_fills node = Ok (StyleBundle.fills sb)
      /\ parse_stroke node = Ok (StyleBundle.stroke sb)
      /\ parse_corners node = Ok (StyleBundle.corners sb)
      /\ vget (get node "absoluteBoundingBox" (VDict [])) "width" (VInt 0)
         = Ok (StyleBundle.width sb)
      /\ vget (get node "absoluteBoundingBox" (VDict [])) "height" (VInt 0)
         = Ok (StyleBundle.height sb)
      /\ StyleBundle.layout sb = parse_layout node
      /\ StyleBundle.opacity sb = get node "opacity" (VFloat 1)
      /\ StyleBundle.blend_mode sb = get node "blendMode" (VStr "PASS_THROUGH")
      /\ StyleBundle.rotation sb = get node "rotation" (VInt 0)
      /\ StyleBundle.clips_content sb = get node "clipsContent" (VBool false))
  /\ (forall e, parse_effects node = Raise e -> parse_style_bundle node = Raise e)
  /\ (forall sb fills stroke corners,
        parse_effects node = Ok sb -> parse_fills node = Ok fills ->
        parse_stroke node = Ok stroke -> parse_corners node = Ok corners ->
        is_record (get node "absoluteBoundingBox" (VDict [])) = false ->
        parse_style_bundle node = Raise AttributeError).
Proof.
  split; [|split].
  - intros sb. unfold parse_style_bundle. split.
    + intros H.
      destruct (parse_effects node) as [[sh bl]|]; cbn [bind] in H; [|discriminate].
      destruct (parse_fills node) as [fills|]; cbn [bind] in H; [|discriminate].
      destruct (parse_stroke node) as [stroke|]; cbn [bind] in H; [|discriminate].
      destruct (parse_corners node) as [corners|]; cbn [bind] in H; [|discriminate].
      destruct (vget _ "width" _) as [w|]; cbn [bind] in H; [|discriminate].
      destruct (vget _ "height" _) as [h|]; cbn [bind] in H; [|discriminate].
      inversion H. cbn. repeat split.
    + intros (He & Hf & Hs & Hc & Hw & Hh & Hl & Ho & Hb & Hr & Hcl).
      rewrite He, Hf, Hs, Hc. cbn [bind]. rewrite Hw, Hh. cbn [bind fst snd].
      rewrite <- Hl, <- Ho, <- Hb, <- Hr, <- Hcl. destruct sb; reflexivity.
  - intros e H. unfold parse_style_bundle. rewrite H. reflexivity.
  - intros sb fills stroke corners He Hf Hs Hc Hbox. unfold parse_style_bundle.
    rewrite He, Hf, Hs, Hc. cbn [bind].
    destruct (get node "absoluteBoundingBox" (VDict [])); try discriminate Hbox;
      reflexivity.
Qed.

Lemma parse_style_bundle_parts_witness :
  parse_style_bundle card_node = Ok card_bundle.
Proof.
  apply (proj1 (parse_style_bundle_parts card_node) card_bundle).
  repeat split.
Defined.

(** ** [parse_text_style] and [parse_fills] *)

Lemma text_fill_scan_collect (entries : list value) (layers : list FillLayer.t) :
  collect fill_layer entries = Ok layers ->
  text_fill_scan entries = Ok (first_paint layers).
Proof.
  revert layers. induction entries as [|e entries IH]; cbn [collect text_fill_scan];
    intros layers H.
  - injection H as <-. reflexivity.
  - destruct e as [| | | | | |d]; try discriminate H.
    cbn [fill_layer] in H.
    destruct (collect fill_layer entries) as [rest|] eqn:Er.
    2:{ exfalso. destruct (negb _) in H; [discriminate H|].
        destruct (eq_str _ "SOLID") in H.
        { destruct (ColorValue.from_figma _ _) in H; discriminate H. }
        destruct (contains _ _) as [[|]|] in H; cbn [bind] in H; try discriminate H.
        - destruct (gradient_def _ _) in H; discriminate H.
        - destruct (eq_str _ "IMAGE") in H; discriminate H. }
    specialize (IH rest eq_refl).
    destruct (negb (truthy (get d "visible" (VBool true)))).
    { cbn [bind] in H. injection H as <-. exact IH. }
    rewrite (eq_str_get_opt d "type" "SOLID") by discriminate.
    destruct (eq_str (get d "type" (VStr "")) "SOLID").
    { destruct (ColorValue.from_figma _ _) as [c|]; cbn [bind] in *; [|discriminate].
      injection H as <-. reflexivity. }
    destruct (contains "GRADIENT" (get d "type" (VStr ""))) as [[|]|] eqn:Hc;
      cbn [bind] in *; [| |discriminate].
    + assert (Hk : getkey d "type" = Ok (get d "type" (VStr ""))).
      { unfold getkey, get in *. destruct (lookup d "type"); [reflexivity|].
        discriminate Hc. }
      rewrite Hk. unfold gradient_def in H.
      destruct (iter _) as [stops|]; cbn [bind] in *; [|discriminate].
      destruct (mapM gradient_stop stops) as [out|]; cbn [bind] in *; [|discriminate].
      destruct (vreplace _ _ _) as [gt|]; cbn [bind] in *; [|discriminate].
      injection H as <-. reflexivity.
    + rewrite IH.
      destruct (eq_str _ "IMAGE"); cbn [bind] in H; injection H as <-; reflexivity.
Qed.

(** X15: when [parse_fills] returns on a node, [parse_text_style] returns
    too if the node's [style] is absent or a record, and the text's colour
    and gradient are those of the first layer of [parse_fills] that has a
    colour or a gradient. *)
Theorem parse_text_style_first_paint (node : dict) (layers : list FillLayer.t) :
  parse_fills node = Ok layers ->
  is_record (get node "style" (VDict [])) = true ->
  exists ts,
    parse_text_style node = Ok ts
    /\ (TextStyle.color ts, TextStyle.gradient ts) = first_paint layers
    /\ TextStyle.font_size ts
       = entry_field "fontSize" (VInt 16) (get node "style" (VDict []))
    /\ TextStyle.font_weight ts
       = entry_field "fontWeight" (VInt 400) (get node "style" (VDict [])).
Proof.
  intros Hf Hs. unfold parse_fills in Hf. unfold parse_text_style.
  destruct (iter (get node "fills" (VList []))) as [entries|]; cbn [bind] in *;
    [|discriminate].
  rewrite (text_fill_scan_collect entries layers Hf). cbn [bind].
  destruct (get node "style" (VDict [])) as [| | | | | |style]; try discriminate Hs.
  cbn [vget bind entry_field]. eexists. split; [reflexivity|].
  cbn. destruct (first_paint layers). repeat split.
Qed.

Lemma parse_text_style_first_paint_witness :
  exists ts,
    parse_text_style image_then_red = Ok ts
    /\ (TextStyle.color ts, TextStyle.gradient ts)
       = first_paint
           [FillLayer.mk (VStr "IMAGE") None None (Some (VStr "img")) (VStr "FILL")
              (VFloat 1) (VBool true);
            FillLayer.mk (VStr "SOLID")
              (Some (ColorValue.mk (VInt 1) (VInt 0) (VInt 0) (VFloat 1)))
              None None (VStr "FILL") (VFloat 1) (VBool true)]
    /\ TextStyle.font_size ts
       = entry_field "fontSize" (VInt 16) (get image_then_red "style" (VDict []))
    /\ TextStyle.font_weight ts
       = entry_field "fontWeight" (VInt 400) (get image_then_red "style" (VDict [])).
Proof.
  apply (parse_text_style_first_paint image_then_red); reflexivity.
Defined.

(** ** Weight tables *)

Lemma weight_lookup_In (table : list (Z * string)) (k : Z) (s : string) :
  weight_lookup table k = Some s -> In (k, s) table.
Proof.
  induction table as [|[k' v] table IH]; cbn [weight_lookup In]; [discriminate|].
  destruct (k' =? k) eqn:E.
  - intros H. inversion H. apply Z.eqb_eq in E. subst. left. reflexivity.
  - intros H. right. apply IH, H.
Qed.

Ltac table_cases :=
  repeat match goal with
         | H : weight_lookup _ _ = Some _ |- _ =>
             apply weight_lookup_In in H;
             unfold SWIFTUI_WEIGHT_MAP, KOTLIN_WEIGHT_MAP, TAILWIND_WEIGHT_MAP in H;
             cbn [In] in H
         | H : _ \/ _ |- _ => destruct H as [H|H]
         | H : (_, _) = (_, _) |- _ => inversion H; clear H; subst
         | H : False |- _ => contradiction H
         end.

(** X16: the SwiftUI, Kotlin and Tailwind weight tables are defined on the
    same weights, the hundreds from 100 to 900, and none of them gives two
    weights the same name. *)
Theorem weight_tables_agree (k : Z) :
  (In k font_weights <-> weight_lookup SWIFTUI_WEIGHT_MAP k <> None)
  /\ (In k font_weights <-> weight_lookup KOTLIN_WEIGHT_MAP k <> None)
  /\ (In k font_weights <-> weight_lookup TAILWIND_WEIGHT_MAP k <> None)
  /\ (forall k' s,
        (weight_lookup SWIFTUI_WEIGHT_MAP k = Some s
         /\ weight_lookup SWIFTUI_WEIGHT_MAP k' = Some s)
        \/ (weight_lookup KOTLIN_WEIGHT_MAP k = Some s
            /\ weight_lookup KOTLIN_WEIGHT_MAP k' = Some s)
        \/ (weight_lookup TAILWIND_WEIGHT_MAP k = Some s
            /\ weight_lookup TAILWIND_WEIGHT_MAP k' = Some s) ->
        k = k').
Proof.
  assert (Hdom : forall table,
            map fst table = font_weights ->
            (In k font_weights <-> weight_lookup table k <> None)).
  { intros table Hkeys. split.
    - intros Hin. rewrite <- Hkeys in Hin. clear Hkeys.
      induction table as [|[k' v] table IH]; cbn [map In weight_lookup fst] in *;
        [contradiction|].
      destruct (k' =? k) eqn:E; [discriminate|].
      destruct Hin as [Hin|Hin]; [apply Z.eqb_neq in E; contradiction|].
      apply IH, Hin.
    - intros Hl. destruct (weight_lookup table k) as [s|] eqn:E; [|contradiction].
      apply weight_lookup_In in E. rewrite <- Hkeys.
      apply (in_map fst) in E. exact E. }
  split; [apply Hdom; reflexivity|].
  split; [apply Hdom; reflexivity|].
  split; [apply Hdom; reflexivity|].
  intros k' s [[H1 H2]|[[H1 H2]|[H1 H2]]]; table_cases;
    try reflexivity; try discriminate.
Qed.

Lemma weight_tables_agree_witness :
  weight_lookup KOTLIN_WEIGHT_MAP 400 <> None.
Proof.
  apply (proj1 (proj1 (proj2 (weight_tables_agree 400)))).
  cbn. tauto.
Defined.

(** ** Outcomes and errors of [hex_to_rgb] *)

Lemma int_of_str_error (base : Z) (s : string) (e : exn) :
  int_of_str base s = Raise e -> e = ValueError.
Proof.
  unfold int_of_str.
  destruct (skip_sign (lstrip_by int_space s)) as [neg s1].
  destruct (skip_prefix base s1) as [|[b0 b1 b2 b3 b4 b5 b6 b7] s2].
  - destruct (scan_digits base "" 0 0 false) as [[[v nd] rest]|];
      repeat match goal with
             | |- context [if ?b then _ else _] => destruct b
             end; intros H; inversion H; reflexivity.
  - destruct b0, b1, b2, b3, b4, b5, b6, b7;
      try (intros H; inversion H; reflexivity);
      match goal with
      | |- context [scan_digits ?a ?b ?c ?d ?f] =>
          destruct (scan_digits a b c d f) as [[[v nd] rest]|]
      end;
      repeat match goal with
             | |- context [if ?b then _ else _] => destruct b
             end; intros H; inversion H; reflexivity.
Qed.

Lemma index_error {A} (l : list A) (i : nat) (e : exn) :
  index l i = Raise e -> e = IndexError.
Proof.
  unfold index. destruct (nth_error l i); intros H; inversion H; reflexivity.
Qed.

Lemma int_literal_ok (base : Z) (t : string) :
  int_literal (base, t) = true -> exists n, int_of_str base t = Ok n.
Proof.
  unfold int_literal. cbn [fst snd].
  destruct (int_of_str base t) as [n|]; [|discriminate]. intros _. exists n. reflexivity.
Qed.

Lemma int_literal_raises (base : Z) (t : string) :
  int_literal (base, t) = false -> int_of_str base t = Raise ValueError.
Proof.
  unfold int_literal. cbn [fst snd].
  destruct (int_of_str base t) as [n|e] eqn:E; [discriminate|]. intros _.
  rewrite (int_of_str_error base t e E). reflexivity.
Qed.

(** C2, amended: for every input [hex_to_rgb] returns a triple of integers
    unless one of the texts it hands to [int] is not an integer literal, when
    it raises [ValueError], or an [rgba] text whose fields are all integer
    literals has fewer than three of them, when it raises [IndexError].  An
    input that is neither an [rgba] text, nor a three-character shorthand,
    nor has a hex portion of six or more characters yields the zero triple;
    hexadecimal digits yield bytes; the decimal fields of
    [rgba(R, G, B, A)] yield their values. *)
Theorem hex_to_rgb_outcome (s : string) :
  (forallb int_literal (int_texts s) = false -> hex_to_rgb s = Raise ValueError)
  /\ (forallb int_literal (int_texts s) = true -> short_rgba s = true ->
      hex_to_rgb s = Raise IndexError)
  /\ (forallb int_literal (int_texts s) = true -> short_rgba s = false ->
      exists r g b,
        hex_to_rgb s = Ok (r, g, b)
        /\ match int_texts s with
           | [] => (r, g, b) = (0, 0, 0)
           | texts =>
               map (fun bt => int_of_str (fst bt) (snd bt)) texts
               = [Ok r; Ok g; Ok b]
           end)
  /\ (startswith "rgba" (strip s) = false ->
      String.length (hex_portion s) <> 3%nat ->
      (String.length (hex_portion s) < 6)%nat ->
      hex_to_rgb s = Ok (0, 0, 0))
  /\ (startswith "rgba" (strip s) = false ->
      reads_hex_digits (hex_portion s) = true ->
      exists r g b,
        hex_to_rgb s = Ok (r, g, b)
        /\ 0 <= r <= 255 /\ 0 <= g <= 255 /\ 0 <= b <= 255)
  /\ (forall (R G B alpha : string) (r g b : Z),
        s = "rgba(" ++ R ++ ", " ++ G ++ ", " ++ B ++ ", " ++ alpha ++ ")" ->
        all_chars is_decimal_digit R = true ->
        all_chars is_decimal_digit G = true ->
        all_chars is_decimal_digit B = true ->
        int_of_str 10 R = Ok r -> int_of_str 10 G = Ok g -> int_of_str 10 B = Ok b ->
        hex_to_rgb s = Ok (r, g, b))
  /\ hex_to_rgb "#gggggg" = Raise ValueError
  /\ hex_to_rgb "rgba(x" = Raise ValueError
  /\ hex_to_rgb "rgba(1,2" = Raise IndexError
  /\ hex_to_rgb "rgba(10, 20, 30, 0.4)" = Ok (10, 20, 30)
  /\ hex_to_rgb " #1A2b3C " = Ok (26, 43, 60)
  /\ hex_to_rgb "#abc" = Ok (170, 187, 204)
  /\ hex_to_rgb "#12" = Ok (0, 0, 0)
  /\ hex_to_rgb "red" = Raise ValueError
  /\ hex_to_rgb "" = Ok (0, 0, 0).
Proof.
  assert (Hparts :
    startswith "rgba" (strip s) = true ->
    (forallb int_literal (int_texts s) = false -> hex_to_rgb s = Raise ValueError)
    /\ (forallb int_literal (int_texts s) = true -> short_rgba s = true ->
        hex_to_rgb s = Raise IndexError)
    /\ (forallb int_literal (int_texts s) = true -> short_rgba s = false ->
        exists r g b,
          hex_to_rgb s = Ok (r, g, b)
          /\ match int_texts s with
             | [] => (r, g, b) = (0, 0, 0)
             | texts =>
                 map (fun bt => int_of_str (fst bt) (snd bt)) texts
                 = [Ok r; Ok g; Ok b]
             end)).
  { intros Hsw. unfold int_texts, short_rgba, hex_to_rgb. rewrite Hsw.
    fold (rgba_fields s). cbn [andb].
    destruct (rgba_fields s) as [|f0 [|f1 [|f2 rest]]];
      cbn [firstn map forallb List.length Nat.ltb Nat.leb index nth_error bind].
    - (split; [|split]); intros; first [reflexivity | congruence].
    - destruct (int_literal (10, strip f0)) eqn:E0; cbn [andb].
      + destruct (int_literal_ok _ _ E0) as [n0 H0]. rewrite H0. cbn [bind].
        (split; [|split]); intros; first [reflexivity | congruence].
      + rewrite (int_literal_raises _ _ E0). cbn [bind].
        (split; [|split]); intros; first [reflexivity | congruence].
    - destruct (int_literal (10, strip f0)) eqn:E0; cbn [andb].
      2:{ rewrite (int_literal_raises _ _ E0). cbn [bind].
          (split; [|split]); intros; first [reflexivity | congruence]. }
      destruct (int_literal_ok _ _ E0) as [n0 H0]. rewrite H0. cbn [bind].
      destruct (int_literal (10, strip f1)) eqn:E1; cbn [andb].
      2:{ rewrite (int_literal_raises _ _ E1). cbn [bind].
          (split; [|split]); intros; first [reflexivity | congruence]. }
      destruct (int_literal_ok _ _ E1) as [n1 H1]. rewrite H1. cbn [bind].
      (split; [|split]); intros; first [reflexivity | congruence].
    - destruct (int_literal (10, strip f0)) eqn:E0; cbn [andb].
      2:{ rewrite (int_literal_raises _ _ E0). cbn [bind].
          (split; [|split]); intros; first [reflexivity | congruence]. }
      destruct (int_literal_ok _ _ E0) as [n0 H0]. rewrite H0. cbn [bind].
      destruct (int_literal (10, strip f1)) eqn:E1; cbn [andb].
      2:{ rewrite (int_literal_raises _ _ E1). cbn [bind].
          (split; [|split]); intros; first [reflexivity | congruence]. }
      destruct (int_literal_ok _ _ E1) as [n1 H1]. rewrite H1. cbn [bind].
      destruct (int_literal (10, strip f2)) eqn:E2; cbn [andb].
      2:{ rewrite (int_literal_raises _ _ E2). cbn [bind].
          (split; [|split]); intros; first [reflexivity | congruence]. }
      destruct (int_literal_ok _ _ E2) as [n2 H2]. rewrite H2. cbn [bind].
      split; [discriminate|]. split; [discriminate|]. intros _ _.
      exists n0, n1, n2. split; [reflexivity|].
      cbn [fst snd]. rewrite H0, H1, H2. reflexivity. }
  assert (Hhex :
    startswith "rgba" (strip s) = false ->
    (forallb int_literal (int_texts s) = false -> hex_to_rgb s = Raise ValueError)
    /\ (forallb int_literal (int_texts s) = true -> short_rgba s = true ->
        hex_to_rgb s = Raise IndexError)
    /\ (forallb int_literal (int_texts s) = true -> short_rgba s = false ->
        exists r g b,
          hex_to_rgb s = Ok (r, g, b)
          /\ match int_texts s with
             | [] => (r, g, b) = (0, 0, 0)
             | texts =>
                 map (fun bt => int_of_str (fst bt) (snd bt)) texts
                 = [Ok r; Ok g; Ok b]
             end)).
  { intros Hsw. unfold int_texts, short_rgba, hex_to_rgb. rewrite Hsw.
    fold (hex_portion s). cbn [andb].
    set (h := if (String.length (hex_portion s) =? 3)%nat
              then double_chars (hex_portion s) else hex_portion s).
    split; [|split; [discriminate|]].
    - destruct (6 <=? String.length h)%nat; cbn [forallb]; [|discriminate].
      destruct (int_literal (16, slice 0 2 h)) eqn:E0; cbn [andb].
      2:{ rewrite (int_literal_raises _ _ E0). reflexivity. }
      destruct (int_literal_ok _ _ E0) as [n0 H0]. rewrite H0. cbn [bind].
      destruct (int_literal (16, slice 2 4 h)) eqn:E1; cbn [andb].
      2:{ rewrite (int_literal_raises _ _ E1). reflexivity. }
      destruct (int_literal_ok _ _ E1) as [n1 H1]. rewrite H1. cbn [bind].
      destruct (int_literal (16, slice 4 6 h)) eqn:E2; cbn [andb].
      2:{ rewrite (int_literal_raises _ _ E2). reflexivity. }
      discriminate.
    - destruct (6 <=? String.length h)%nat; cbn [forallb].
      + intros Hall _.
        apply andb_prop in Hall. destruct Hall as [E0 Hall].
        apply andb_prop in Hall. destruct Hall as [E1 Hall].
        apply andb_prop in Hall. destruct Hall as [E2 _].
        destruct (int_literal_ok _ _ E0) as [n0 H0].
        destruct (int_literal_ok _ _ E1) as [n1 H1].
        destruct (int_literal_ok _ _ E2) as [n2 H2].
        exists n0, n1, n2. rewrite H0, H1, H2. cbn [bind map fst snd].
        rewrite H0, H1, H2. split; reflexivity.
      + intros _ _. exists 0, 0, 0. split; reflexivity. }
  assert (Hthree :
    (forallb int_literal (int_texts s) = false -> hex_to_rgb s = Raise ValueError)
    /\ (forallb int_literal (int_texts s) = true -> short_rgba s = true ->
        hex_to_rgb s = Raise IndexError)
    /\ (forallb int_literal (int_texts s) = true -> short_rgba s = false ->
        exists r g b,
          hex_to_rgb s = Ok (r, g, b)
          /\ match int_texts s with
             | [] => (r, g, b) = (0, 0, 0)
             | texts =>
                 map (fun bt => int_of_str (fst bt) (snd bt)) texts
                 = [Ok r; Ok g; Ok b]
             end)).
  { destruct (startswith "rgba" (strip s)) eqn:Hsw; [apply Hparts | apply Hhex];
      reflexivity. }
  destruct Hthree as (H1 & H2 & H3).
  split; [exact H1|]. split; [exact H2|]. split; [exact H3|].
  split; [|split; [|split]].
  - intros Hsw H3' H6. rewrite (hex_to_rgb_not_rgba s Hsw). unfold hex_portion_rgb.
    apply Nat.eqb_neq in H3'. rewrite H3'.
    apply Nat.leb_gt in H6. rewrite H6. reflexivity.
  - intros Hsw Hd. destruct (hex_to_rgb_hex_bytes s Hsw Hd) as (r & g & b & H).
    exists r, g, b. tauto.
  - intros R G B alpha r g b -> HR HG HB Er Eg Eb.
    apply hex_to_rgb_rgba_fields; assumption.
  - repeat split; vm_compute; reflexivity.
Qed.

Lemma hex_to_rgb_outcome_witness :
  exists r g b,
    hex_to_rgb "rgba( 7 ,8, +9)" = Ok (r, g, b)
    /\ match int_texts "rgba( 7 ,8, +9)" with
       | [] => (r, g, b) = (0, 0, 0)
       | texts =>
           map (fun bt => int_of_str (fst bt) (snd bt)) texts
           = [Ok r; Ok g; Ok b]
       end.
Proof.
  destruct (hex_to_rgb_outcome "rgba( 7 ,8, +9)") as (_ & _ & H & _).
  apply H; reflexivity.
Defined.

(** X17: [hex_to_rgb] raises nothing but [ValueError] and [IndexError], and
    [IndexError] only for text that starts with [rgba]. *)
Theorem hex_to_rgb_errors (s : string) (e : exn) :
  hex_to_rgb s = Raise e ->
  e = ValueError \/ (e = IndexError /\ startswith "rgba" (strip s) = true).
Proof.
  unfold hex_to_rgb. destruct (startswith "rgba" (strip s)).
  - intros H.
    repeat match type of H with
           | bind (index ?l ?i) _ = Raise _ =>
               let E := fresh "E" in
               destruct (index l i) eqn:E; cbn [bind] in H;
               [|inversion H; subst; right; split;
                 [eapply index_error; eassumption | reflexivity]]
           | bind (int_of_str ?b ?x) _ = Raise _ =>
               let E := fresh "E" in
               destruct (int_of_str b x) eqn:E; cbn [bind] in H;
               [|inversion H; subst; left; eapply int_of_str_error; eassumption]
           end.
    discriminate H.
  - intros H.
    match type of H with
    | context [if ?c then _ else _] => destruct c
    end; [|discriminate H].
    repeat match type of H with
           | bind (int_of_str ?b ?x) _ = Raise _ =>
               let E := fresh "E" in
               destruct (int_of_str b x) eqn:E; cbn [bind] in H;
               [|inversion H; subst; left; eapply int_of_str_error; eassumption]
           end.
    discriminate H.
Qed.

Lemma hex_to_rgb_errors_witness :
  IndexError = ValueError
  \/ (IndexError = IndexError /\ startswith "rgba" (strip "rgba(1,2") = true).
Proof. apply (hex_to_rgb_errors "rgba(1,2" IndexError). reflexivity. Defined.

(** ** Blanks around the text *)

Lemma lstrip_by_length (p : ascii -> bool) (s : string) :
  (String.length (lstrip_by p s) <= String.length s)%nat.
Proof.
  induction s as [|c s IH]; cbn [lstrip_by String.length]; [lia|].
  destruct (p c); cbn [String.length]; lia.
Qed.

Lemma lstrip_by_idem (p : ascii -> bool) (s : string) :
  lstrip_by p (lstrip_by p s) = lstrip_by p s.
Proof.
  induction s as [|c s IH]; cbn [lstrip_by]; [reflexivity|].
  destruct (p c) eqn:E; [exact IH|]. cbn [lstrip_by]. rewrite E. reflexivity.
Qed.

Lemma rstrip_by_idem (p : ascii -> bool) (s : string) :
  rstrip_by p (rstrip_by p s) = rstrip_by p s.
Proof.
  induction s as [|c s IH]; cbn [rstrip_by]; [reflexivity|].
  destruct (rstrip_by p s) as [|x t] eqn:E.
  - destruct (p c) eqn:Ec; cbn [rstrip_by]; [reflexivity|]. rewrite Ec. reflexivity.
  - cbn [rstrip_by] in *. rewrite IH. reflexivity.
Qed.

Lemma lstrip_rstrip (p : ascii -> bool) (u : string) :
  lstrip_by p u = u -> lstrip_by p (rstrip_by p u) = rstrip_by p u.
Proof.
  destruct u as [|c s]; [reflexivity|]. cbn [lstrip_by].
  destruct (p c) eqn:Ec.
  - intros H. pose proof (lstrip_by_length p s) as Hl. rewrite H in Hl.
    cbn [String.length] in Hl. lia.
  - intros _. cbn [rstrip_by]. rewrite Ec.
    destruct (rstrip_by p s); cbn [lstrip_by]; rewrite Ec; reflexivity.
Qed.

Lemma strip_idem (s : string) : strip (strip s) = strip s.
Proof.
  unfold strip.
  rewrite (lstrip_rstrip isspace (lstrip_by isspace s) (lstrip_by_idem isspace s)).
  apply rstrip_by_idem.
Qed.

(** X18: blanks around the text do not count: [hex_to_rgb] gives the same
    result, or the same error, on a text and on the text without them. *)
Theorem hex_to_rgb_strip (s : string) : hex_to_rgb (strip s) = hex_to_rgb s.
Proof.
  unfold hex_to_rgb. rewrite strip_idem. reflexivity.
Qed.

(** ** Gradient stops *)

(** X19: the gradient of a gradient fill keeps the fill's stops, one for
    one and in order, each with its position (0 when absent), and the fill's
    handle positions and opacity. *)
Theorem parse_fills_gradient_stops (node fill : dict) (l : FillLayer.t)
        (gd : GradientDef.t) :
  lookup node "fills" = Some (VList [VDict fill]) ->
  parse_fills node = Ok [l] ->
  FillLayer.gradient l = Some gd ->
  exists raw,
    iter (get fill "gradientStops" (VList [])) = Ok raw
    /\ List.length (GradientDef.stops gd) = List.length raw
    /\ map GradientStop.position (GradientDef.stops gd)
       = map (entry_field "position" (VInt 0)) raw
    /\ GradientDef.handle_positions gd = get fill "gradientHandlePositions" (VList [])
    /\ GradientDef.opacity gd = get fill "opacity" (VFloat 1).
Proof.
  intros Hn Hp Hg. unfold parse_fills, get in Hp. rewrite Hn in Hp.
  cbn [iter bind collect fill_layer] in Hp. fold (get fill) in Hp.
  destruct (negb (truthy (get fill "visible" (VBool true)))); [discriminate Hp|].
  destruct (eq_str (get fill "type" (VStr "")) "SOLID").
  { destruct (ColorValue.from_figma _ _); cbn [bind] in Hp; [|discriminate].
    injection Hp as <-. discriminate Hg. }
  destruct (contains "GRADIENT" _) as [[|]|]; cbn [bind] in Hp; [| |discriminate].
  - unfold gradient_def in Hp.
    destruct (iter (get fill "gradientStops" (VList []))) as [raw|];
      cbn [bind] in Hp; [|discriminate].
    destruct (mapM gradient_stop raw) as [stops|] eqn:Es; cbn [bind] in Hp;
      [|discriminate].
    destruct (vreplace _ _ _) as [gt|]; cbn [bind] in Hp; [|discriminate].
    injection Hp as <-. cbn in Hg. injection Hg as <-. cbn.
    destruct (mapM_gradient_stop_positions raw stops Es) as [Hpos _].
    exists raw. split; [reflexivity|]. split; [|split; [exact Hpos|split; reflexivity]].
    rewrite <- (length_map GradientStop.position), Hpos, length_map. reflexivity.
  - destruct (eq_str _ "IMAGE"); injection Hp as <-; discriminate Hg.
Qed.

Lemma parse_fills_gradient_stops_witness :
  exists raw,
    iter (get [("type", VStr "GRADIENT_RADIAL");
               ("gradientStops",
                VList [VDict [("color", VDict red); ("position", VFloat 0.5)]])]
            "gradientStops" (VList [])) = Ok raw
    /\ List.length
         [GradientStop.mk (ColorValue.mk (VInt 1) (VInt 0) (VInt 0) (VInt 1)) (VFloat 0.5)]
       = List.length raw
    /\ map GradientStop.position
         [GradientStop.mk (ColorValue.mk (VInt 1) (VInt 0) (VInt 0) (VInt 1)) (VFloat 0.5)]
       = map (entry_field "position" (VInt 0)) raw
    /\ VList [] = get [("type", VStr "GRADIENT_RADIAL");
                       ("gradientStops",
                        VList [VDict [("color", VDict red); ("position", VFloat 0.5)]])]
                    "gradientHandlePositions" (VList [])
    /\ VFloat 1 = get [("type", VStr "GRADIENT_RADIAL");
                       ("gradientStops",
                        VList [VDict [("color", VDict red); ("position", VFloat 0.5)]])]
                    "opacity" (VFloat 1).
Proof.
  apply (parse_fills_gradient_stops [("fills", VList [radial_fill])] _ radial_layer
           (GradientDef.mk "RADIAL"
              [GradientStop.mk (ColorValue.mk (VInt 1) (VInt 0) (VInt 0) (VInt 1))
                 (VFloat 0.5)]
              (VList []) (VFloat 1))); reflexivity.
Defined.
